(** * web2apk-backend: the build orchestration engine

    A shallow embedding of the parts of the backend that the specification
    talks about, and the properties proved about them:

    - [JS]           the fragment of JavaScript string semantics the build
                     service relies on ([String.prototype.replace] with a
                     regular expression or a string pattern, replacement
                     patterns, [parseInt], truthiness), and [path.join];
    - [BuildService] [services/buildService.js]: the textual patches of the
                     project materializer, [signAPK] and the staged [buildAPK];
    - [BuildModel]   [models/Build.js]: the build document and its methods;
    - [QueueConfig]  [config/queue.js]: the options handed to the job queue;
    - [Worker]       [workers/buildWorker.js] and the [cancelBuild] handler of
                     [controllers/buildController.js];
    - [Validation]   the patterns of [middleware/validation.js];
    - [BuildPatches] the patches of build.gradle and colors.xml;
    - [UserModel]    [models/User.js]: the monthly build allowance;
    - [BuildRecords] and [Handlers]: expiry, downloads, listing, deletion and
                     the expiry sweep;
    - [UserRoutes]   [routes/userRoutes.js]: the statistics of a user;
    - [ErrorHandler] [middleware/errorHandler.js]: the answer to an error.

    Text is modelled as JavaScript has it: a string is a sequence of UTF-16
    code units. *)

From Stdlib Require Import ZArith NArith List String Ascii Bool Lia.
From Stdlib Require Import DecimalString DecimalPos.
From stdpp Require Import gmap strings list.
Import ListNotations.

Set Default Proof Using "Type".

(* ===================================================================== *)
(** * JavaScript strings                                                   *)
(* ===================================================================== *)

Module JS.

(** A JavaScript string: a list of UTF-16 code units. *)
Abbreviation jsstring := (list N) (only parsing).

(** Literals of the source are written [js "text"]; the double quote is
    written [dq]. *)
Definition js (s : string) : jsstring := map N_of_ascii (list_ascii_of_string s).

Definition dq : N := 34.
Definition dollar : N := 36.
Definition nl : N := 10.

Definition isDigit (c : N) : bool := ((48 <=? c) && (c <=? 57))%N.
Definition isLower (c : N) : bool := ((97 <=? c) && (c <=? 122))%N.
Definition isUpper (c : N) : bool := ((65 <=? c) && (c <=? 90))%N.

(** [\w] *)
Definition isWord (c : N) : bool := isLower c || isUpper c || isDigit c || (c =? 95)%N.

(** LineTerminator: LF, CR, LS, PS.  [.] matches every other code unit. *)
Definition isLineTerminator (c : N) : bool :=
  ((c =? 10) || (c =? 13) || (c =? 8232) || (c =? 8233))%N.
Definition isDot (c : N) : bool := negb (isLineTerminator c).

(** [startsWith p s] returns what follows [p] when [s] begins with [p]. *)
Fixpoint startsWith (p s : jsstring) : option jsstring :=
  match p, s with
  | [], _ => Some s
  | _ :: _, [] => None
  | a :: p', b :: s' => if (a =? b)%N then startsWith p' s' else None
  end.

(** The longest prefix whose units all satisfy [f], and the rest. *)
Fixpoint span (f : N -> bool) (s : jsstring) : jsstring * jsstring :=
  match s with
  | [] => ([], [])
  | c :: s' => if f c then let (a, b) := span f s' in (c :: a, b) else ([], s)
  end.

(** The last occurrence of [p] in [s]: the text up to and including it, and
    what follows. *)
Fixpoint splitLast (p s : jsstring) : option (jsstring * jsstring) :=
  match s with
  | [] => match p with [] => Some ([], []) | _ => None end
  | c :: s' =>
      match splitLast p s' with
      | Some (a, b) => Some (c :: a, b)
      | None => match startsWith p s with
                | Some r => Some (p, r)
                | None => None
                end
      end
  end.

(** ** Regular expressions

    A pattern is modelled by its matcher at a given position: the matched
    text and the text after it.  The patterns of the build service all have
    the shape [literal tail]. *)
Definition matcher := jsstring -> option (jsstring * jsstring).

Definition lit (p : jsstring) : matcher :=
  fun s => match startsWith p s with Some r => Some (p, r) | None => None end.

Definition seqm (m1 m2 : matcher) : matcher :=
  fun s => match m1 s with
           | Some (x, r) => match m2 r with
                            | Some (y, r') => Some (x ++ y, r')
                            | None => None
                            end
           | None => None
           end.

(** [\w+] *)
Definition wordPlus : matcher :=
  fun s => match span isWord s with
           | ([], _) => None
           | (w, r) => Some (w, r)
           end.

(** [.+] *)
Definition dotPlus : matcher :=
  fun s => match span isDot s with
           | ([], _) => None
           | (w, r) => Some (w, r)
           end.

(** [[^c]*c]: the class cannot step over [c], so the match ends at the first
    [c]. *)
Definition notUnitStarThen (c : N) : matcher :=
  fun s => match span (fun x => negb (x =? c)%N) s with
           | (w, x :: r) => Some (w ++ [x], r)
           | (_, []) => None
           end.

(** [.*p] for a literal [p] without line terminators: the greedy star takes
    the rest of the line and gives back units until [p] matches, which is at
    the last occurrence of [p] in the line. *)
Definition dotStarThen (p : jsstring) : matcher :=
  fun s => let (line, r) := span isDot s in
           match splitLast p line with
           | Some (x, l2) => Some (x, l2 ++ r)
           | None => None
           end.

(** Leftmost match: the text before it, the match, the text after it. *)
Fixpoint search (m : matcher) (s : jsstring) : option (jsstring * jsstring * jsstring) :=
  match m s with
  | Some (x, r) => Some ([], x, r)
  | None =>
      match s with
      | [] => None
      | c :: s' => match search m s' with
                   | Some (p, x, r) => Some (c :: p, x, r)
                   | None => None
                   end
      end
  end.

(** GetSubstitution for a pattern without capture groups: [$$] is a dollar,
    [$&] the match, [$`] the text before it, [$'] the text after it; any
    other dollar stands for itself. *)
Fixpoint expand (repl pre matched post : jsstring) : jsstring :=
  match repl with
  | [] => []
  | c :: r =>
      if (c =? dollar)%N then
        match r with
        | d :: r' =>
            if (d =? dollar)%N then dollar :: expand r' pre matched post
            else if (d =? 38)%N then matched ++ expand r' pre matched post
            else if (d =? 96)%N then pre ++ expand r' pre matched post
            else if (d =? 39)%N then post ++ expand r' pre matched post
            else c :: expand r pre matched post
        | [] => [c]
        end
      else c :: expand r pre matched post
  end.

(** [s.replace(pattern, replacement)] without the [g] flag: only the leftmost
    match is replaced; without a match the string is returned as it is. *)
Definition replace (m : matcher) (repl s : jsstring) : jsstring :=
  match search m s with
  | Some (pre, x, post) => pre ++ expand repl pre x post ++ post
  | None => s
  end.

(** [s.replace(/^.../, replacement)]: the pattern can only match at index 0
    (no [m] flag). *)
Definition replaceAtStart (m : matcher) (repl s : jsstring) : jsstring :=
  match m s with
  | Some (x, post) => expand repl [] x post ++ post
  | None => s
  end.

(** [s.replace(/c/g, replacement)] for a one-unit pattern: every occurrence
    is replaced, left to right; [pre] is the text already passed. *)
Fixpoint replaceAllUnit (c : N) (repl pre s : jsstring) : jsstring :=
  match s with
  | [] => []
  | x :: s' =>
      if (x =? c)%N
      then expand repl pre [x] s' ++ replaceAllUnit c repl (pre ++ [x]) s'
      else x :: replaceAllUnit c repl (pre ++ [x]) s'
  end.

Definition noDollar (s : jsstring) : bool := forallb (fun c => negb (c =? dollar)%N) s.

Definition occurs (c : N) (s : jsstring) : bool := existsb (N.eqb c) s.


(** A matcher returns a split of its input. *)
Definition splits (m : matcher) : Prop :=
  forall s x r, m s = Some (x, r) -> s = x ++ r.

(** [search] behind a text [u] that is skipped. *)
Definition prepend (u : jsstring) (o : option (jsstring * jsstring * jsstring))
    : option (jsstring * jsstring * jsstring) :=
  match o with
  | Some (p, x, r) => Some (u ++ p, x, r)
  | None => None
  end.

(** No match starts inside [u] when [u] is followed by [rest]. *)
Fixpoint skippable (m : matcher) (u rest : jsstring) : bool :=
  match u with
  | [] => true
  | _ :: u' => match m (u ++ rest) with
               | None => skippable m u' rest
               | Some _ => false
               end
  end.

(** Text made of lines, each ended by a line feed. *)
Definition unlines (ls : list jsstring) : jsstring := flat_map (fun l => l ++ [nl]) ls.

(** ToString of a boolean, as a template literal interpolates it. *)
Definition boolLit (b : bool) : jsstring := if b then js "true" else js "false".

(** Truthiness of a value that is a string or [undefined]: [undefined] and
    the empty string are falsy. *)
Definition truthy (v : option jsstring) : bool :=
  match v with
  | Some (_ :: _) => true
  | _ => false
  end.

(** A template literal interpolating a possibly undefined value. *)
Definition interpolate (v : option jsstring) : jsstring :=
  match v with
  | Some s => s
  | None => js "undefined"
  end.

(** An [Error] object: its message and, for system errors, its code. *)
Record JsError := mkError {
  message : jsstring;
  stack : option jsstring;
  code : option jsstring
}.

(** [new Error(message)] *)
Definition newError (msg : jsstring) : JsError := mkError msg (Some (js "Error: " ++ msg)) None.

(** Completion of a call: a value is returned or an error is thrown. *)
Inductive Completion (A : Type) : Type :=
| Return (a : A)
| Throw (e : JsError).
Arguments Return {A} a.
Arguments Throw {A} e.

(** ** parseInt

    [parseInt(string)] without a radix: white space is skipped, a sign is
    read, [0x] selects base 16, and the longest run of digits is the value;
    no digit at all gives NaN, modelled by [None].  [undefined] is converted
    to the string undefined first, which has no digit. *)
Definition isStrWhiteSpace (c : N) : bool :=
  ((c =? 9) || (c =? 10) || (c =? 11) || (c =? 12) || (c =? 13) || (c =? 32)
   || (c =? 160) || (c =? 5760) || ((8192 <=? c) && (c <=? 8202))
   || (c =? 8232) || (c =? 8233) || (c =? 8239) || (c =? 8287)
   || (c =? 12288) || (c =? 65279))%N.

Definition digitValue (radix : N) (c : N) : option N :=
  let v := if isDigit c then Some (c - 48)%N
           else if isLower c then Some (c - 97 + 10)%N
           else if isUpper c then Some (c - 65 + 10)%N
           else None in
  match v with
  | Some d => if (d <? radix)%N then Some d else None
  | None => None
  end.

(** The value of the longest run of digits, given the value [acc] of the
    digits already read ([None] when none was read). *)
Fixpoint digits (radix : N) (acc : option N) (s : jsstring) : option N :=
  match s with
  | [] => acc
  | c :: s' =>
      match digitValue radix c with
      | Some d => digits radix (Some (match acc with Some a => a * radix + d | None => d end)%N) s'
      | None => acc
      end
  end.

Definition parseIntString (s : jsstring) : option Z :=
  let s := snd (span isStrWhiteSpace s) in
  let (negative, s) :=
    match s with
    | c :: s' => if (c =? 45)%N then (true, s')
                 else if (c =? 43)%N then (false, s') else (false, s)
    | [] => (false, s)
    end in
  let (radix, s) :=
    match s with
    | z :: x :: s' => if ((z =? 48) && ((x =? 120) || (x =? 88)))%N then (16%N, s') else (10%N, s)
    | _ => (10%N, s)
    end in
  match digits radix None s with
  | Some n => Some (if negative then (- Z.of_N n)%Z else Z.of_N n)
  | None => None
  end.

Definition parseInt (v : option jsstring) : option Z :=
  match v with
  | Some s => parseIntString s
  | None => None
  end.

(** [parseInt(v) || d]: NaN and zero are falsy. *)
Definition parseIntOr (v : option jsstring) (d : Z) : Z :=
  match parseInt v with
  | Some n => if (n =? 0)%Z then d else n
  | None => d
  end.

(** ** path.join, on a POSIX host *)

Definition slash : N := 47.

(** The segments of a path, which its separators delimit. *)
Fixpoint pathSegments (s : jsstring) : list jsstring :=
  match s with
  | [] => [[]]
  | c :: r =>
      if (c =? slash)%N then [] :: pathSegments r
      else match pathSegments r with
           | seg :: segs => (c :: seg) :: segs
           | [] => [[c]]
           end
  end.

Definition isDotSegment (seg : jsstring) : bool :=
  match seg with
  | [c] => (c =? 46)%N
  | _ => false
  end.

Definition isDotDotSegment (seg : jsstring) : bool :=
  match seg with
  | [c; d] => ((c =? 46) && (d =? 46))%N
  | _ => false
  end.

(** [normalizeString]: an empty segment and a [.] are dropped; a [..] takes
    away the segment before it, and when there is none (or only [..]) it is
    kept in a relative path and dropped in an absolute one.  [kept] holds
    the segments kept so far, the last one first. *)
Fixpoint normalizeSegments (allowAboveRoot : bool) (kept segs : list jsstring)
    : list jsstring :=
  match segs with
  | [] => rev kept
  | seg :: rest =>
      let kept' :=
        match seg with
        | [] => kept
        | _ =>
            if isDotSegment seg then kept
            else if isDotDotSegment seg then
              match kept with
              | top :: below =>
                  if isDotDotSegment top
                  then (if allowAboveRoot then seg :: kept else kept)
                  else below
              | [] => if allowAboveRoot then [seg] else []
              end
            else seg :: kept
        end in
      normalizeSegments allowAboveRoot kept' rest
  end.

Fixpoint joinSegments (segs : list jsstring) : jsstring :=
  match segs with
  | [] => []
  | [seg] => seg
  | seg :: rest => seg ++ slash :: joinSegments rest
  end.

(** [path.normalize(path)] *)
Definition pathNormalize (path : jsstring) : jsstring :=
  match path with
  | [] => js "."
  | first :: _ =>
      let isAbsolute := (first =? slash)%N in
      let trailingSeparator := (List.last path 0 =? slash)%N in
      match joinSegments (normalizeSegments (negb isAbsolute) [] (pathSegments path)) with
      | [] => if isAbsolute then [slash]
              else if trailingSeparator then js "./" else js "."
      | p => let p := if trailingSeparator then p ++ [slash] else p in
             if isAbsolute then slash :: p else p
      end
  end.

(** [path.join(dir, name)]: the arguments that are not empty, joined by a
    separator, and the result normalized. *)
Definition pathJoin (dir name : jsstring) : jsstring :=
  match dir, name with
  | [], [] => js "."
  | [], _ => pathNormalize name
  | _, [] => pathNormalize dir
  | _, _ => pathNormalize (dir ++ slash :: name)
  end.

End JS.

(* ===================================================================== *)
(** * services/buildService.js: the project materializer                   *)
(* ===================================================================== *)

Module BuildService.
Import JS.

(** [appConfig] of a build (models/Build.js). *)
Record AppConfig := mkAppConfig {
  websiteUrl : jsstring;
  appName : jsstring;
  packageName : jsstring;
  versionCode : Z;
  versionName : jsstring;
  splashBackground : jsstring;
  splashImage : option jsstring;
  appIcon : option jsstring
}.

(** [features] of a build (models/Build.js): eight boolean flags. *)
Record Features := mkFeatures {
  pullToRefresh : bool;
  progressBar : bool;
  errorPage : bool;
  fileUpload : bool;
  deepLinking : bool;
  swipeRefresh : bool;
  geolocation : bool;
  localStorage : bool
}.

(** The package name check of [createBuild] and of the schema: the whole
    string is a lower-case letter followed by lower-case letters, digits and
    underscores, then one or more times a dot and such a segment again. *)
Fixpoint pkgScan (atSegmentStart dotSeen : bool) (s : jsstring) : bool :=
  match s with
  | [] => negb atSegmentStart && dotSeen
  | c :: s' =>
      if atSegmentStart then isLower c && pkgScan false dotSeen s'
      else if (c =? 46)%N then pkgScan true true s'
      else (isLower c || isDigit c || (c =? 95)%N) && pkgScan false dotSeen s'
  end.

Definition validPackageName (s : jsstring) : bool := pkgScan true false s.

(** The units a valid package name is made of. *)
Definition isPackageUnit (c : N) : bool :=
  isLower c || isDigit c || (c =? 95)%N || (c =? 46)%N.

(** ** escapeXml *)

Definition escapeXml (str : jsstring) : jsstring :=
  replaceAllUnit 39 (js "&apos;") []
    (replaceAllUnit 34 (js "&quot;") []
      (replaceAllUnit 62 (js "&gt;") []
        (replaceAllUnit 60 (js "&lt;") []
          (replaceAllUnit 38 (js "&amp;") [] str)))).

(** What the five special characters are to become; every other unit stays. *)
Definition escapeUnit (c : N) : jsstring :=
  if (c =? 38)%N then js "&amp;"
  else if (c =? 60)%N then js "&lt;"
  else if (c =? 62)%N then js "&gt;"
  else if (c =? 34)%N then js "&quot;"
  else if (c =? 39)%N then js "&apos;"
  else [c].

(** ** updateStringsXml

    The file is read, patched and written back; the patch is the function
    from the text read to the text written. *)

Definition appNameOpen : jsstring := js "<string name=" ++ [dq] ++ js "app_name" ++ [dq] ++ js ">".
Definition appNameClose : jsstring := js "</string>".

(** The pattern of [updateStringsXml]: the opening tag of the [app_name]
    resource, [.*], the closing tag. *)
Definition reAppName : matcher := seqm (lit appNameOpen) (dotStarThen appNameClose).

Definition updateStringsXml (strings : jsstring) (appConfig : AppConfig) : jsstring :=
  replace reAppName (appNameOpen ++ escapeXml (appName appConfig) ++ appNameClose) strings.

(** ** updateAndroidManifest *)











(** ** updateMainActivity *)

(** [/^package .+/] *)
Definition reActivityPackage : matcher := seqm (lit (js "package ")) dotPlus.

Definition websiteUrlConst : jsstring := js "WEBSITE_URL = " ++ [dq].

(** The pattern of the URL constant: [WEBSITE_URL = ], a double quote, [.*],
    a double quote. *)
Definition reWebsiteUrl : matcher := seqm (lit websiteUrlConst) (dotStarThen [dq]).

(** [/NAME = \w+/] *)
Definition reFlag (name : string) : matcher := seqm (lit (js name ++ js " = ")) wordPlus.

Definition setFlag (name : string) (value : bool) (activity : jsstring) : jsstring :=
  replace (reFlag name) (js name ++ js " = " ++ boolLit value) activity.

(** The constants whose literal the function rewrites, with the flag each
    takes its value from, in the order of the source. *)
Definition flagConstants (features : Features) : list (string * bool) :=
  [ ("ENABLE_PULL_TO_REFRESH", pullToRefresh features);
    ("ENABLE_PROGRESS_BAR", progressBar features);
    ("ENABLE_ERROR_PAGE", errorPage features);
    ("ENABLE_FILE_UPLOAD", fileUpload features);
    ("ENABLE_DEEP_LINKING", deepLinking features) ].

Definition watermarkPlaceholder : jsstring := js "// WATERMARK_PLACEHOLDER".

Definition watermarkCode : jsstring :=
  [nl] ++ unlines
  [ js "        // Free version watermark";
    js "        webView.evaluateJavascript(" ++ [dq; dq; dq];
    js "            (function() {";
    js "                const watermark = document.createElement('div');";
    js "                watermark.innerHTML = 'Created with Web2APK';";
    js "                watermark.style.cssText = 'position:fixed;bottom:10px;right:10px;background:rgba(0,0,0,0.7);color:white;padding:5px 10px;border-radius:5px;font-size:12px;z-index:999999;';";
    js "                document.body.appendChild(watermark);";
    js "            })();";
    js "        " ++ [dq; dq; dq] ++ js ", null);" ].

Definition updateMainActivity (activity : jsstring) (appConfig : AppConfig)
    (features : Features) (isPremium : bool) : jsstring :=
  let activity := replaceAtStart reActivityPackage (js "package " ++ packageName appConfig) activity in
  let activity := replace reWebsiteUrl (websiteUrlConst ++ websiteUrl appConfig ++ [dq]) activity in
  let activity := fold_left (fun a nv => setFlag (fst nv) (snd nv) a) (flagConstants features) activity in
  if negb isPremium
  then replace (lit watermarkPlaceholder) watermarkCode activity
  else activity.

End BuildService.

(* ===================================================================== *)
(** * services/buildService.js: the toolchain invoker                      *)
(* ===================================================================== *)

Module Toolchain.
Import JS.

(** What [execSync] does with a command: it returns, or it throws (the
    process could not be run, or it ended with a non-zero status). *)
Inductive ExecOutcome :=
| ExecDone
| ExecRaise (e : JsError).

(** What a call leaves behind: log lines and subprocesses run. *)
Inductive Effect :=
| LogWarn (msg : jsstring)
| LogError (msg : jsstring)
| Exec (command : jsstring).

Definition isExec (e : Effect) : bool :=
  match e with
  | Exec _ => true
  | _ => false
  end.

Section SignAPK.

(** [process.env], the scratch directory, and the subprocess runner. *)
Variable env : gmap string (list N).
Variable TEMP_DIR : jsstring.
Variable execSync : jsstring -> ExecOutcome.

Definition keystoreConfigured : bool :=
  truthy (env !! "KEYSTORE_PATH"%string)
  && truthy (env !! "KEYSTORE_PASSWORD"%string)
  && truthy (env !! "KEY_ALIAS"%string)
  && truthy (env !! "KEY_PASSWORD"%string).

Definition apksignerCommand (signedApkPath unsignedApkPath : jsstring) : jsstring :=
  interpolate (env !! "ANDROID_SDK_ROOT"%string) ++ js "/build-tools/"
    ++ interpolate (env !! "ANDROID_BUILD_TOOLS_VERSION"%string) ++ js "/apksigner sign "
    ++ js "--ks " ++ interpolate (env !! "KEYSTORE_PATH"%string) ++ js " "
    ++ js "--ks-pass pass:" ++ interpolate (env !! "KEYSTORE_PASSWORD"%string) ++ js " "
    ++ js "--ks-key-alias " ++ interpolate (env !! "KEY_ALIAS"%string) ++ js " "
    ++ js "--key-pass pass:" ++ interpolate (env !! "KEY_PASSWORD"%string) ++ js " "
    ++ js "--out " ++ signedApkPath ++ js " "
    ++ unsignedApkPath.

(** [signAPK(unsignedApkPath, buildId)]: the completion of the call and the
    effects it had. *)
Definition signAPK (unsignedApkPath buildId : jsstring) : Completion jsstring * list Effect :=
  let signedApkPath := pathJoin TEMP_DIR (buildId ++ js "-signed.apk") in
  if negb keystoreConfigured then
    (Return unsignedApkPath, [LogWarn (js "Keystore not configured, using unsigned APK")])
  else
    let command := apksignerCommand signedApkPath unsignedApkPath in
    match execSync command with
    | ExecDone => (Return signedApkPath, [Exec command])
    | ExecRaise error =>
        (Return unsignedApkPath,
         [Exec command; LogError (js "APK signing error: " ++ message error)])
    end.

End SignAPK.

End Toolchain.

(* ===================================================================== *)
(** * config/queue.js                                                      *)
(* ===================================================================== *)

Module QueueConfig.
Import JS.

Inductive BackoffType := fixed | exponential.

Record JobOptions := mkJobOptions {
  attempts : Z;
  backoffType : BackoffType;
  backoffDelay : Z;
  removeOnComplete : Z;
  removeOnFail : Z;
  timeout : Z
}.

Record Settings := mkSettings {
  lockDuration : Z;
  stalledInterval : Z;
  maxStalledCount : Z
}.

Record Limiter := mkLimiter {
  max : Z;
  duration : Z
}.

Record QueueOptions := mkQueueOptions {
  defaultJobOptions : JobOptions;
  settings : Settings;
  limiter : Limiter
}.

(** The options object of [new Queue('apk-builds', url, options)]. *)
Definition buildQueueOptions (env : gmap string (list N)) : QueueOptions :=
  {| defaultJobOptions :=
       {| attempts := parseIntOr (env !! "BUILD_QUEUE_ATTEMPTS"%string) 2;
          backoffType := exponential;
          backoffDelay := 2000;
          removeOnComplete := 100;
          removeOnFail := 200;
          timeout := parseIntOr (env !! "BUILD_TIMEOUT_MS"%string) 900000 |};
     settings :=
       {| lockDuration := 900000;
          stalledInterval := 60000;
          maxStalledCount := 1 |};
     limiter :=
       {| max := parseIntOr (env !! "MAX_CONCURRENT_BUILDS"%string) 3;
          duration := 1000 |} |}.

(** [buildQueue.process(handler)] in workers/buildWorker.js registers the
    handler without a concurrency argument: a worker process runs one job at
    a time. *)
Definition workerConcurrency : nat := 1.

End QueueConfig.

(* ===================================================================== *)
(** * models/Build.js                                                      *)
(* ===================================================================== *)

Module BuildModel.
Import JS.

Inductive Status := pending | queued | building | completed | failed | cancelled.

Definition Status_eqb (a b : Status) : bool :=
  match a, b with
  | pending, pending | queued, queued | building, building
  | completed, completed | failed, failed | cancelled, cancelled => true
  | _, _ => false
  end.

(** The fields of the build document that the worker, the queue and the
    cancel request read or write.  Dates are milliseconds since the epoch;
    [None] is [null]. *)
Record Build := mkBuild {
  user : jsstring;
  status : Status;
  progress : Z;
  currentStep : jsstring;
  output_apkPath : option jsstring;
  output_apkSize : option Z;
  output_downloadUrl : option jsstring;
  output_cloudinaryPublicId : option jsstring;
  buildTime_startedAt : option Z;
  buildTime_completedAt : option Z;
  buildTime_duration : option Z;
  error_message : option jsstring;
  error_stack : option jsstring;
  error_code : option jsstring;
  jobId : option jsstring;
  expiresAt : option Z;
  isPremium : bool
}.

(** The paths of the document that are assigned after it is created: by
    the worker, by [cancelBuild], and by [createBuild] itself, which saves
    the job id and the start time once the job is in the queue. *)
Inductive Path :=
| p_status
| p_progress
| p_currentStep
| p_output_apkPath
| p_output_apkSize
| p_output_downloadUrl
| p_output_cloudinaryPublicId
| p_buildTime_completedAt
| p_buildTime_duration
| p_error_message
| p_error_stack
| p_error_code
| p_expiresAt
| p_buildTime_startedAt
| p_jobId.

Definition pathType (p : Path) : Type :=
  match p with
  | p_status => Status
  | p_progress => Z
  | p_currentStep => jsstring
  | p_output_apkPath => option jsstring
  | p_output_apkSize => option Z
  | p_output_downloadUrl => option jsstring
  | p_output_cloudinaryPublicId => option jsstring
  | p_buildTime_completedAt => option Z
  | p_buildTime_duration => option Z
  | p_error_message => option jsstring
  | p_error_stack => option jsstring
  | p_error_code => option jsstring
  | p_expiresAt => option Z
  | p_buildTime_startedAt => option Z
  | p_jobId => option jsstring
  end.

Definition getPath (p : Path) : Build -> pathType p :=
  match p with
  | p_status => status
  | p_progress => progress
  | p_currentStep => currentStep
  | p_output_apkPath => output_apkPath
  | p_output_apkSize => output_apkSize
  | p_output_downloadUrl => output_downloadUrl
  | p_output_cloudinaryPublicId => output_cloudinaryPublicId
  | p_buildTime_completedAt => buildTime_completedAt
  | p_buildTime_duration => buildTime_duration
  | p_error_message => error_message
  | p_error_stack => error_stack
  | p_error_code => error_code
  | p_expiresAt => expiresAt
  | p_buildTime_startedAt => buildTime_startedAt
  | p_jobId => jobId
  end.

Definition putPath (p : Path) : pathType p -> Build -> Build :=
  match p with
  | p_status => fun v b =>
      mkBuild (user b) v (progress b) (currentStep b) (output_apkPath b) (output_apkSize b) (output_downloadUrl b) (output_cloudinaryPublicId b) (buildTime_startedAt b) (buildTime_completedAt b) (buildTime_duration b) (error_message b) (error_stack b) (error_code b) (jobId b) (expiresAt b) (isPremium b)
  | p_progress => fun v b =>
      mkBuild (user b) (status b) v (currentStep b) (output_apkPath b) (output_apkSize b) (output_downloadUrl b) (output_cloudinaryPublicId b) (buildTime_startedAt b) (buildTime_completedAt b) (buildTime_duration b) (error_message b) (error_stack b) (error_code b) (jobId b) (expiresAt b) (isPremium b)
  | p_currentStep => fun v b =>
      mkBuild (user b) (status b) (progress b) v (output_apkPath b) (output_apkSize b) (output_downloadUrl b) (output_cloudinaryPublicId b) (buildTime_startedAt b) (buildTime_completedAt b) (buildTime_duration b) (error_message b) (error_stack b) (error_code b) (jobId b) (expiresAt b) (isPremium b)
  | p_output_apkPath => fun v b =>
      mkBuild (user b) (status b) (progress b) (currentStep b) v (output_apkSize b) (output_downloadUrl b) (output_cloudinaryPublicId b) (buildTime_startedAt b) (buildTime_completedAt b) (buildTime_duration b) (error_message b) (error_stack b) (error_code b) (jobId b) (expiresAt b) (isPremium b)
  | p_output_apkSize => fun v b =>
      mkBuild (user b) (status b) (progress b) (currentStep b) (output_apkPath b) v (output_downloadUrl b) (output_cloudinaryPublicId b) (buildTime_startedAt b) (buildTime_completedAt b) (buildTime_duration b) (error_message b) (error_stack b) (error_code b) (jobId b) (expiresAt b) (isPremium b)
  | p_output_downloadUrl => fun v b =>
      mkBuild (user b) (status b) (progress b) (currentStep b) (output_apkPath b) (output_apkSize b) v (output_cloudinaryPublicId b) (buildTime_startedAt b) (buildTime_completedAt b) (buildTime_duration b) (error_message b) (error_stack b) (error_code b) (jobId b) (expiresAt b) (isPremium b)
  | p_output_cloudinaryPublicId => fun v b =>
      mkBuild (user b) (status b) (progress b) (currentStep b) (output_apkPath b) (output_apkSize b) (output_downloadUrl b) v (buildTime_startedAt b) (buildTime_completedAt b) (buildTime_duration b) (error_message b) (error_stack b) (error_code b) (jobId b) (expiresAt b) (isPremium b)
  | p_buildTime_completedAt => fun v b =>
      mkBuild (user b) (status b) (progress b) (currentStep b) (output_apkPath b) (output_apkSize b) (output_downloadUrl b) (output_cloudinaryPublicId b) (buildTime_startedAt b) v (buildTime_duration b) (error_message b) (error_stack b) (error_code b) (jobId b) (expiresAt b) (isPremium b)
  | p_buildTime_duration => fun v b =>
      mkBuild (user b) (status b) (progress b) (currentStep b) (output_apkPath b) (output_apkSize b) (output_downloadUrl b) (output_cloudinaryPublicId b) (buildTime_startedAt b) (buildTime_completedAt b) v (error_message b) (error_stack b) (error_code b) (jobId b) (expiresAt b) (isPremium b)
  | p_error_message => fun v b =>
      mkBuild (user b) (status b) (progress b) (currentStep b) (output_apkPath b) (output_apkSize b) (output_downloadUrl b) (output_cloudinaryPublicId b) (buildTime_startedAt b) (buildTime_completedAt b) (buildTime_duration b) v (error_stack b) (error_code b) (jobId b) (expiresAt b) (isPremium b)
  | p_error_stack => fun v b =>
      mkBuild (user b) (status b) (progress b) (currentStep b) (output_apkPath b) (output_apkSize b) (output_downloadUrl b) (output_cloudinaryPublicId b) (buildTime_startedAt b) (buildTime_completedAt b) (buildTime_duration b) (error_message b) v (error_code b) (jobId b) (expiresAt b) (isPremium b)
  | p_error_code => fun v b =>
      mkBuild (user b) (status b) (progress b) (currentStep b) (output_apkPath b) (output_apkSize b) (output_downloadUrl b) (output_cloudinaryPublicId b) (buildTime_startedAt b) (buildTime_completedAt b) (buildTime_duration b) (error_message b) (error_stack b) v (jobId b) (expiresAt b) (isPremium b)
  | p_expiresAt => fun v b =>
      mkBuild (user b) (status b) (progress b) (currentStep b) (output_apkPath b) (output_apkSize b) (output_downloadUrl b) (output_cloudinaryPublicId b) (buildTime_startedAt b) (buildTime_completedAt b) (buildTime_duration b) (error_message b) (error_stack b) (error_code b) (jobId b) v (isPremium b)
  | p_buildTime_startedAt => fun v b =>
      mkBuild (user b) (status b) (progress b) (currentStep b) (output_apkPath b) (output_apkSize b) (output_downloadUrl b) (output_cloudinaryPublicId b) v (buildTime_completedAt b) (buildTime_duration b) (error_message b) (error_stack b) (error_code b) (jobId b) (expiresAt b) (isPremium b)
  | p_jobId => fun v b =>
      mkBuild (user b) (status b) (progress b) (currentStep b) (output_apkPath b) (output_apkSize b) (output_downloadUrl b) (output_cloudinaryPublicId b) (buildTime_startedAt b) (buildTime_completedAt b) (buildTime_duration b) (error_message b) (error_stack b) (error_code b) v (expiresAt b) (isPremium b)
  end.

Definition units_eqb (a b : jsstring) : bool := bool_decide (a = b).
Definition opt_eqb {A} (eqb : A -> A -> bool) (a b : option A) : bool :=
  match a, b with
  | Some x, Some y => eqb x y
  | None, None => true
  | _, _ => false
  end.

Definition eqPath (p : Path) : pathType p -> pathType p -> bool :=
  match p with
  | p_status => Status_eqb
  | p_progress => Z.eqb
  | p_currentStep => units_eqb
  | p_output_apkPath => opt_eqb units_eqb
  | p_output_apkSize => opt_eqb Z.eqb
  | p_output_downloadUrl => opt_eqb units_eqb
  | p_output_cloudinaryPublicId => opt_eqb units_eqb
  | p_buildTime_completedAt => opt_eqb Z.eqb
  | p_buildTime_duration => opt_eqb Z.eqb
  | p_error_message => opt_eqb units_eqb
  | p_error_stack => opt_eqb units_eqb
  | p_error_code => opt_eqb units_eqb
  | p_expiresAt => opt_eqb Z.eqb
  | p_buildTime_startedAt => opt_eqb Z.eqb
  | p_jobId => opt_eqb units_eqb
  end.

Definition Path_eqb (p q : Path) : bool :=
  match p, q with
  | p_status, p_status => true
  | p_progress, p_progress => true
  | p_currentStep, p_currentStep => true
  | p_output_apkPath, p_output_apkPath => true
  | p_output_apkSize, p_output_apkSize => true
  | p_output_downloadUrl, p_output_downloadUrl => true
  | p_output_cloudinaryPublicId, p_output_cloudinaryPublicId => true
  | p_buildTime_completedAt, p_buildTime_completedAt => true
  | p_buildTime_duration, p_buildTime_duration => true
  | p_error_message, p_error_message => true
  | p_error_stack, p_error_stack => true
  | p_error_code, p_error_code => true
  | p_expiresAt, p_expiresAt => true
  | p_buildTime_startedAt, p_buildTime_startedAt => true
  | p_jobId, p_jobId => true
  | _, _ => false
  end.

(** ** Documents

    A document is the copy of a stored record that one request or one job
    holds in memory, together with the paths assigned since it was loaded or
    saved.  Assigning the value a path already has leaves it unmodified. *)
Record Doc := mkDoc {
  fields : Build;
  modified : list Path
}.

Definition hydrate (b : Build) : Doc := mkDoc b [].

Definition assign (p : Path) (v : pathType p) (d : Doc) : Doc :=
  if eqPath p (getPath p (fields d)) v then d
  else mkDoc (putPath p v (fields d)) (p :: modified d).

(** [save()] sends the modified paths, and only those, to the stored
    record. *)
Definition writePaths (ps : list Path) (src dst : Build) : Build :=
  fold_right (fun p b => putPath p (getPath p src) b) dst ps.

Definition isModified (p : Path) (d : Doc) : bool := existsb (Path_eqb p) (modified d).

(** ** Methods of the schema, up to the [save()] that ends each of them *)

(** [updateProgress(progress, step)] *)
Definition updateProgress_assign (progress : Z) (step : jsstring) (d : Doc) : Doc :=
  assign p_currentStep step (assign p_progress progress d).

Definition dayMs : Z := 24 * 60 * 60 * 1000.

(** [markCompleted(apkPath, apkSize, downloadUrl, cloudinaryPublicId = null)] *)
Definition markCompleted_assign (env : gmap string (list N)) (now : Z)
    (apkPath : jsstring) (apkSize : Z) (downloadUrl : jsstring)
    (cloudinaryPublicId : option jsstring) (d : Doc) : Doc :=
  let d := assign p_status completed d in
  let d := assign p_progress 100%Z d in
  let d := assign p_currentStep (js "Build completed successfully") d in
  let d := assign p_output_apkPath (Some apkPath) d in
  let d := assign p_output_apkSize (Some apkSize) d in
  let d := assign p_output_downloadUrl (Some downloadUrl) d in
  let d := assign p_output_cloudinaryPublicId cloudinaryPublicId d in
  let d := assign p_buildTime_completedAt (Some now) d in
  let d := assign p_buildTime_duration
             (Some (now - default 0 (buildTime_startedAt (fields d)))%Z) d in
  let retentionDays :=
    if isPremium (fields d)
    then parseIntOr (env !! "APK_RETENTION_DAYS_PRO"%string) 365
    else parseIntOr (env !! "APK_RETENTION_DAYS_FREE"%string) 1 in
  assign p_expiresAt (Some (now + retentionDays * dayMs)%Z) d.

(** [markFailed(error)] *)
Definition markFailed_assign (now : Z) (error : JsError) (d : Doc) : Doc :=
  let d := assign p_status failed d in
  let d := assign p_error_message
             (Some (match message error with [] => js "Build failed" | m => m end)) d in
  let d := assign p_error_stack
             (match stack error with Some (c :: s) => Some (c :: s) | _ => None end) d in
  let d := assign p_error_code
             (Some (match code error with Some (c :: s) => c :: s | _ => js "BUILD_ERROR" end)) d in
  let d := assign p_buildTime_completedAt (Some now) d in
  assign p_buildTime_duration
    (Some (now - default 0 (buildTime_startedAt (fields d)))%Z) d.

End BuildModel.

(* ===================================================================== *)
(** * controllers/buildController.js: cancelBuild                          *)
(* ===================================================================== *)

Module Controller.
Import JS BuildModel.

(** Where a job is in the queue. *)
Inductive JobState := jobWaiting | jobActive | jobDelayed | jobCompleted | jobFailed.

(** Modelled from the spec: [job.remove()] of the queue library, which is not
    under src/.  Section 4.1: Remove cancels a job that has not yet started
    running; no-op/error if already running.  [None] is an error thrown. *)
Definition removeJob (j : JobState) : option unit :=
  match j with
  | jobActive => None
  | _ => Some tt
  end.

Definition cancellable (s : Status) : bool :=
  match s with
  | pending | queued | building => true
  | _ => false
  end.

(** ** cancelBuild, part by part

    The handler reads the record, makes its checks on the document it read,
    waits for the queue, and then saves; other writers of the record may
    come in between.  The parts are given one by one, and [cancelBuild] is
    the request that meets no other writer. *)

(** The record is read and the checks are made on what was read: the status
    of the refusal, or the record as read. *)
Definition cancelRead (reqUser : jsstring) (stored : option Build) : Z + Build :=
  match stored with
  | None => inl 404%Z
  | Some b =>
      let build := hydrate b in
      if negb (units_eqb (user (fields build)) reqUser) then inl 403%Z
      else if negb (cancellable (status (fields build))) then inl 400%Z
      else inr b
  end.

(** The job of the document read is taken out of the queue; an error of the
    queue is logged and the request goes on. *)
Definition cancelRemove (read : Build) (job : option JobState) : option JobState :=
  match jobId (fields (hydrate read)), job with
  | Some _, Some j => match removeJob j with
                      | Some _ => None
                      | None => job
                      end
  | _, _ => job
  end.

(** Status and step are assigned on the document read. *)
Definition cancelAssign (read : Build) : Doc :=
  let build := hydrate read in
  let build := assign p_status cancelled build in
  assign p_currentStep (js "Build cancelled by user") build.

(** The document is saved: its modified paths are written to the record as
    it is stored by then, with no further check. *)
Definition cancelSave (read : Build) (stored : option Build) : option Build :=
  match stored with
  | Some b => Some (writePaths (modified (cancelAssign read)) (fields (cancelAssign read)) b)
  | None => None
  end.

(** [cancelBuild] for a request that no other writer of the record comes
    across: the HTTP status of the response, the stored record and the job
    afterwards ([None]: no such record, no such job). *)
Definition cancelBuild (reqUser : jsstring) (stored : option Build) (job : option JobState)
    : Z * option Build * option JobState :=
  match cancelRead reqUser stored with
  | inl refusal => (refusal, stored, job)
  | inr read => (200%Z, cancelSave read stored, cancelRemove read job)
  end.

End Controller.

(* ===================================================================== *)
(** * workers/buildWorker.js and buildAPK                                  *)
(* ===================================================================== *)

Module Worker.
Import JS BuildModel Toolchain Controller.

(** The file and process operations of [buildAPK], each of which may throw. *)
Inductive IoStage :=
| ioMkdirProject | ioCopyTemplate | ioManifest | ioBuildGradle | ioStringsXml
| ioAppIcon | ioSplashScreen | ioMainActivity | ioChmodGradlew | ioGradle
| ioPublish | ioRemoveProject.

(** What one build attempt meets outside the program: the environment, the
    clock, the outcome of every file and process operation, and the size of
    the artifact. *)
Record World := mkWorld {
  env : gmap string (list N);
  TEMP_DIR : jsstring;
  BUILD_OUTPUT_DIR : jsstring;
  now : Z;
  io : IoStage -> option JsError;
  execSync : jsstring -> ExecOutcome;
  artifactSize : Z
}.

(** What the request handlers do to the record while the worker waits for
    an operation on the store:
    - nothing;
    - a cancel request goes through from its read to its save;
    - a cancel request reads the record and makes its checks, and stays in
      flight;
    - the request in flight at the given place saves;
    - [createBuild], which has created the record and added the job, saves
      the job id and the start time (buildController.js, lines 118 to 121);
    - two of these, one after the other. *)
Inductive UserAction :=
| userIdle
| userCancel (reqUser : jsstring)
| userCancelRead (reqUser : jsstring)
| userCancelSave (i : nat)
| userCreateSave (job : jsstring) (startedAt : Z)
| userThen (first next : UserAction).

(** The state a job handler runs in: the stored record, the handler's own
    [build] document, the user actions still to come, what has been
    observed so far, and the cancel requests in flight, each with the record
    as it read it. *)
Record WState := mkWState {
  store : option Build;
  doc : option Doc;
  schedule : list UserAction;
  statusHistory : list Status;
  progressWrites : list Z;
  jobProgress : list Z;
  workspace : bool;
  effects : list Effect;
  inFlight : list Build
}.

Definition setStore (v : option Build) (s : WState) : WState :=
  mkWState v (doc s) (schedule s) (statusHistory s) (progressWrites s) (jobProgress s) (workspace s) (effects s) (inFlight s).
Definition setDoc (v : option Doc) (s : WState) : WState :=
  mkWState (store s) v (schedule s) (statusHistory s) (progressWrites s) (jobProgress s) (workspace s) (effects s) (inFlight s).
Definition setSchedule (v : list UserAction) (s : WState) : WState :=
  mkWState (store s) (doc s) v (statusHistory s) (progressWrites s) (jobProgress s) (workspace s) (effects s) (inFlight s).
Definition setStatusHistory (v : list Status) (s : WState) : WState :=
  mkWState (store s) (doc s) (schedule s) v (progressWrites s) (jobProgress s) (workspace s) (effects s) (inFlight s).
Definition setProgressWrites (v : list Z) (s : WState) : WState :=
  mkWState (store s) (doc s) (schedule s) (statusHistory s) v (jobProgress s) (workspace s) (effects s) (inFlight s).
Definition setJobProgress (v : list Z) (s : WState) : WState :=
  mkWState (store s) (doc s) (schedule s) (statusHistory s) (progressWrites s) v (workspace s) (effects s) (inFlight s).
Definition setWorkspace (v : bool) (s : WState) : WState :=
  mkWState (store s) (doc s) (schedule s) (statusHistory s) (progressWrites s) (jobProgress s) v (effects s) (inFlight s).
Definition setEffects (v : list Effect) (s : WState) : WState :=
  mkWState (store s) (doc s) (schedule s) (statusHistory s) (progressWrites s) (jobProgress s) (workspace s) v (inFlight s).
Definition setInFlight (v : list Build) (s : WState) : WState :=
  mkWState (store s) (doc s) (schedule s) (statusHistory s) (progressWrites s) (jobProgress s) (workspace s) (effects s) v.

(** ** The monad of asynchronous code: state and exceptions *)

Definition M (A : Type) : Type := WState -> Completion A * WState.

#[global] Instance M_ret : MRet M := fun A a s => (Return a, s).

#[global] Instance M_bind : MBind M := fun A B k m s =>
  match m s with
  | (Return a, s') => k a s'
  | (Throw e, s') => (Throw e, s')
  end.

Definition throw {A} (e : JsError) : M A := fun s => (Throw e, s).

(** [try { body } catch (error) { handler }] *)
Definition tryCatch {A} (body : M A) (handler : JsError -> M A) : M A := fun s =>
  match body s with
  | (Throw e, s') => handler e s'
  | r => r
  end.

Definition getState : M WState := fun s => (Return s, s).
Definition modifyState (f : WState -> WState) : M unit := fun s => (Return tt, f s).

(** ** The store *)

Definition recordStatus (s : WState) : WState :=
  match store s with
  | Some b => setStatusHistory (statusHistory s ++ [status b]) s
  | None => s
  end.

(** What a user action does to the state.  A cancel request that goes
    through from its read to its save meets the job running, so that its
    removal fails and is logged; one in flight saves to the record as it is
    stored by then. *)
Fixpoint act (a : UserAction) (s : WState) : WState :=
  match a with
  | userIdle => s
  | userCancel reqUser =>
      match cancelBuild reqUser (store s) (Some jobActive) with
      | (200%Z, stored, _) => recordStatus (setStore stored s)
      | _ => s
      end
  | userCancelRead reqUser =>
      match cancelRead reqUser (store s) with
      | inr read => setInFlight (inFlight s ++ [read]) s
      | inl _ => s
      end
  | userCancelSave i =>
      match inFlight s !! i with
      | Some read =>
          let s := setInFlight (delete i (inFlight s)) s in
          match store s with
          | Some _ => recordStatus (setStore (cancelSave read (store s)) s)
          | None => s
          end
      | None => s
      end
  | userCreateSave job startedAt =>
      match store s with
      | Some b =>
          recordStatus
            (setStore (Some (putPath p_buildTime_startedAt (Some startedAt)
                               (putPath p_jobId (Some job) b))) s)
      | None => s
      end
  | userThen first next => act next (act first s)
  end.

(** Every [await] on the store lets the next user action in first. *)
Definition tick : M unit := fun s =>
  match schedule s with
  | [] => (Return tt, s)
  | a :: rest => (Return tt, act a (setSchedule rest s))
  end.

(** [Build.findOne({ buildId })] *)
Definition findOne : M (option Doc) :=
  tick;; s ← getState; mret (hydrate <$> store s).

(** [document.save()]: the modified paths are written to the stored record. *)
Definition save (d : Doc) : M Doc :=
  tick;; s ← getState;
  match store s with
  | None => throw (newError (js "No document found"))
  | Some b =>
      let b' := writePaths (modified d) (fields d) b in
      modifyState (fun s =>
        let s := recordStatus (setStore (Some b') s) in
        if isModified p_progress d
        then setProgressWrites (progressWrites s ++ [progress (fields d)]) s
        else s);;
      mret (mkDoc (fields d) [])
  end.

(** The handler's [build] variable. *)
Definition bindBuild (d : Doc) : M unit := modifyState (setDoc (Some d)).

Definition onBuild (f : Doc -> Doc) : M unit :=
  modifyState (fun s => setDoc (f <$> doc s) s).

Definition saveBuild : M unit :=
  s ← getState;
  match doc s with
  | Some d => d' ← save d; modifyState (setDoc (Some d'))
  | None => mret tt
  end.

(** ** buildAPK *)

Record BuildResult := mkBuildResult {
  apkPath : jsstring;
  apkSize : Z;
  downloadUrl : jsstring
}.

Definition ioStep (w : World) (st : IoStage) : M unit :=
  match io w st with
  | None => mret tt
  | Some e => throw e
  end.

Definition logEffects (l : list Effect) : M unit :=
  modifyState (fun s => setEffects (effects s ++ l) s).

Definition mkdirProject (w : World) : M unit :=
  ioStep w ioMkdirProject;; modifyState (setWorkspace true).

Definition removeProject (w : World) : M unit :=
  ioStep w ioRemoveProject;; modifyState (setWorkspace false).

(** [buildWithGradle]: a failure of the build command, or a missing
    artifact, is thrown again as a new error. *)
Definition buildWithGradle (w : World) (projectDir : jsstring) : M jsstring :=
  ioStep w ioChmodGradlew;;
  match io w ioGradle with
  | None => mret (pathJoin projectDir (js "app/build/outputs/apk/release/app-release-unsigned.apk"))
  | Some e =>
      logEffects [LogError (js "Gradle build error: " ++ message e)];;
      throw (newError (js "Build failed: " ++ message e))
  end.

Definition sign (w : World) (unsignedApkPath buildId : jsstring) : M jsstring :=
  let (c, effs) := signAPK (env w) (TEMP_DIR w) (execSync w) unsignedApkPath buildId in
  logEffects effs;;
  match c with
  | Return p => mret p
  | Throw e => throw e
  end.

Definition buildAPK (w : World) (buildId : jsstring)
    (updateProgress : Z -> jsstring -> M unit) : M BuildResult :=
  let projectDir := pathJoin (TEMP_DIR w) buildId in
  tryCatch
    (updateProgress 15%Z (js "Creating project structure...");;
     mkdirProject w;;
     updateProgress 20%Z (js "Copying Android template...");;
     ioStep w ioCopyTemplate;;
     updateProgress 30%Z (js "Configuring app manifest...");;
     ioStep w ioManifest;;
     updateProgress 40%Z (js "Configuring build scripts...");;
     ioStep w ioBuildGradle;;
     updateProgress 45%Z (js "Setting app name...");;
     ioStep w ioStringsXml;;
     updateProgress 50%Z (js "Processing app icon...");;
     ioStep w ioAppIcon;;
     updateProgress 55%Z (js "Creating splash screen...");;
     ioStep w ioSplashScreen;;
     updateProgress 60%Z (js "Configuring WebView...");;
     ioStep w ioMainActivity;;
     updateProgress 70%Z (js "Building APK (this may take a few minutes)...");;
     apkPath ← buildWithGradle w projectDir;
     updateProgress 90%Z (js "Signing APK...");;
     signedApkPath ← sign w apkPath buildId;
     updateProgress 95%Z (js "Finalizing...");;
     ioStep w ioPublish;;
     removeProject w;;
     mret (mkBuildResult (pathJoin (BUILD_OUTPUT_DIR w) (buildId ++ js ".apk"))
                         (artifactSize w)
                         (js "/downloads/" ++ buildId ++ js ".apk")))
    (fun error =>
       tryCatch (removeProject w)
                (fun cleanupError => logEffects [LogError (js "Cleanup error: " ++ message cleanupError)]);;
       throw error).

(** ** The job handler of [buildQueue.process] *)

(** The progress callback of the handler: [build.updateProgress] on the
    handler's document, then [job.progress]. *)
Definition updateProgress (progress : Z) (step : jsstring) : M unit :=
  onBuild (updateProgress_assign progress step);;
  saveBuild;;
  modifyState (fun s => setJobProgress (jobProgress s ++ [progress]) s).

Definition processJob (w : World) (buildId : jsstring) : M BuildResult :=
  tryCatch
    (found ← findOne;
     match found with
     | None => throw (newError (js "Build not found in database"))
     | Some build =>
         bindBuild build;;
         onBuild (assign p_status building);;
         onBuild (assign p_progress 10%Z);;
         onBuild (assign p_currentStep (js "Preparing build environment..."));;
         saveBuild;;
         result ← buildAPK w buildId updateProgress;
         onBuild (markCompleted_assign (env w) (now w)
                    (apkPath result) (apkSize result) (downloadUrl result) None);;
         saveBuild;;
         mret result
     end)
    (fun error =>
       found ← findOne;
       match found with
       | Some build => save (markFailed_assign (now w) error build);; mret tt
       | None => mret tt
       end;;
       throw error).

End Worker.

(* ===================================================================== *)
(** * What is observed of a build attempt                                  *)
(* ===================================================================== *)

Module WorkerSpec.
Import JS BuildModel Toolchain Controller Worker.

(** No value of the list is below its predecessor. *)
Fixpoint nondecreasing (l : list Z) : bool :=
  match l with
  | a :: (b :: _) as t => (a <=? b)%Z && nondecreasing t
  | _ => true
  end.


(** Partial correctness of a computation of the monad, with one
    postcondition for a value returned and one for an error thrown. *)
Definition triple {A} (P : WState -> Prop) (m : M A)
    (Q : A -> WState -> Prop) (E : JsError -> WState -> Prop) : Prop :=
  forall s, P s -> match m s with
                   | (Return a, s') => Q a s'
                   | (Throw e, s') => E e s'
                   end.

(** The record with the fields put back to one value that the request
    handlers write while a job runs: the status and the step ([cancelBuild]),
    the job id and the start time ([createBuild]). *)
Definition beyondUser (b : Build) : Build :=
  putPath p_status pending
    (putPath p_currentStep []
       (putPath p_jobId None (putPath p_buildTime_startedAt None b))).

(** What the request handlers can do to a stored record: the status stays
    or becomes [cancelled]; the step, the job id and the start time may
    change; every other field stays. *)
Definition userWrote (b b' : Build) : Prop :=
  (status b' = status b \/ status b' = cancelled) /\ beyondUser b' = beyondUser b.

(** What a user action can do to the state between two steps of the
    handler: the handler's document and the progress values written stay,
    and a record that exists is written to as above. *)
Definition ticked (s s' : WState) : Prop :=
  doc s' = doc s /\ progressWrites s' = progressWrites s
  /\ match store s, store s' with
     | Some b, Some b' => userWrote b b'
     | None, None => True
     | _, _ => False
     end.

(** The record exists, and its status is the one the handler wrote first,
    or [cancelled]. *)
Definition Building (s : WState) : Prop :=
  exists b, store s = Some b /\ (status b = building \/ status b = cancelled).

(** The record exists, and the progress values written since [pw0] do not
    decrease, starting from [lo]. *)
Definition Logged (pw0 : list Z) (lo : Z) (s : WState) : Prop :=
  Building s
  /\ exists ws, progressWrites s = pw0 ++ ws /\ nondecreasing (lo :: ws) = true.

(** Moreover the handler holds a saved document with status [building] and
    progress [k], and no value written exceeds [k]. *)
Definition Tracking (pw0 : list Z) (lo k : Z) (s : WState) : Prop :=
  Building s
  /\ (exists d, doc s = Some d /\ status (fields d) = building
                /\ progress (fields d) = k /\ modified d = [])
  /\ exists ws, progressWrites s = pw0 ++ ws /\ nondecreasing (lo :: ws) = true
                /\ Forall (fun x => (x <= k)%Z) (lo :: ws).

(** One of the file or process operations of the attempt failed. *)
Definition ioFailed (w : World) : Prop := exists st, io w st <> None.

(** What holds when an error reaches a catch block. *)
Definition Caught (w : World) (pw0 : list Z) (lo : Z) (e : JsError) (s : WState) : Prop :=
  Logged pw0 lo s /\ ioFailed w.

(** The handler holds the document [d], made from the record [b] it has
    just read; nothing was written yet. *)
Definition Holding (pw0 : list Z) (b : Build) (d : Doc) (s : WState) : Prop :=
  doc s = Some d /\ store s = Some b /\ progressWrites s = pw0.

(** The state after an attempt that returned, and after one that threw. *)
Definition Completed (w : World) (pw0 : list Z) (lo : Z) (s : WState) : Prop :=
  (exists b, store s = Some b /\ status b = completed /\ progress b = 100%Z)
  /\ io w ioGradle = None
  /\ exists ws, progressWrites s = pw0 ++ ws /\ nondecreasing (lo :: ws) = true.

Definition Failed (w : World) (pw0 : list Z) (lo : Z) (s : WState) : Prop :=
  (exists b, store s = Some b /\ status b = failed)
  /\ ioFailed w
  /\ exists ws, progressWrites s = pw0 ++ ws /\ nondecreasing (lo :: ws) = true.

(** The progress values an attempt wrote: those of [s'] beyond those of
    [s], none of them below its predecessor, the first one not below
    [lo]. *)
Definition writesFrom (lo : Z) (s s' : WState) : Prop :=
  exists ws, progressWrites s' = progressWrites s ++ ws /\ nondecreasing (lo :: ws) = true.

End WorkerSpec.

(* ===================================================================== *)
(** * android-template: MainActivity.kt                                    *)
(* ===================================================================== *)

Module Template.
Import JS.

(** Lines 2 to 21 of the activity source: the imports, the class header. *)
Definition activityPreamble : list jsstring :=
  [ [];
    js "import android.annotation.SuppressLint";
    js "import android.app.Activity";
    js "import android.app.DownloadManager";
    js "import android.content.Context";
    js "import android.content.Intent";
    js "import android.graphics.Bitmap";
    js "import android.net.Uri";
    js "import android.os.Bundle";
    js "import android.os.Environment";
    js "import android.view.View";
    js "import android.webkit.*";
    js "import android.widget.ProgressBar";
    js "import androidx.activity.result.contract.ActivityResultContracts";
    js "import androidx.appcompat.app.AppCompatActivity";
    js "import androidx.swiperefreshlayout.widget.SwipeRefreshLayout";
    [];
    js "class MainActivity : AppCompatActivity() {";
    [];
    js "    // Configuration - These will be replaced during build" ].

(** Lines 22 to 27: the constants the build replaces, for given literals. *)
Definition activityConfig (url pullToRefresh progressBar errorPage fileUpload deepLinking : jsstring)
    : list jsstring :=
  [ js "    private val WEBSITE_URL = " ++ [dq] ++ url ++ [dq];
    js "    private val ENABLE_PULL_TO_REFRESH = " ++ pullToRefresh;
    js "    private val ENABLE_PROGRESS_BAR = " ++ progressBar;
    js "    private val ENABLE_ERROR_PAGE = " ++ errorPage;
    js "    private val ENABLE_FILE_UPLOAD = " ++ fileUpload;
    js "    private val ENABLE_DEEP_LINKING = " ++ deepLinking ].

(** Lines 1 to 28, for a given package and given constants. *)
Definition activityHead (package url pullToRefresh progressBar errorPage fileUpload deepLinking : jsstring)
    : jsstring :=
  unlines ([js "package " ++ package] ++ activityPreamble
           ++ activityConfig url pullToRefresh progressBar errorPage fileUpload deepLinking
           ++ [[]]).

(** Lines 29 to 252: the rest of the class. *)
Definition activityBodyLines : list jsstring :=
  [ js "    private lateinit var webView: WebView";
    js "    private lateinit var swipeRefresh: SwipeRefreshLayout";
    js "    private lateinit var progressBar: ProgressBar";
    [];
    js "    private var fileUploadCallback: ValueCallback<Array<Uri>>? = null";
    [];
    js "    private val fileChooserLauncher = registerForActivityResult(";
    js "        ActivityResultContracts.StartActivityForResult()";
    js "    ) { result ->";
    js "        val results = if (result.resultCode == Activity.RESULT_OK) {";
    js "            WebChromeClient.FileChooserParams.parseResult(result.resultCode, result.data)";
    js "        } else null";
    js "        fileUploadCallback?.onReceiveValue(results)";
    js "        fileUploadCallback = null";
    js "    }";
    [];
    js "    @SuppressLint(" ++ [dq] ++ js "SetJavaScriptEnabled" ++ [dq] ++ js ")";
    js "    override fun onCreate(savedInstanceState: Bundle?) {";
    js "        super.onCreate(savedInstanceState)";
    js "        setContentView(R.layout.activity_main)";
    [];
    js "        webView      = findViewById(R.id.webView)";
    js "        swipeRefresh = findViewById(R.id.swipeRefresh)";
    js "        progressBar  = findViewById(R.id.progressBar)";
    [];
    js "        if (ENABLE_PULL_TO_REFRESH) {";
    js "            swipeRefresh.setOnRefreshListener { webView.reload() }";
    js "            swipeRefresh.setColorSchemeResources(";
    js "                android.R.color.holo_blue_bright,";
    js "                android.R.color.holo_green_light,";
    js "                android.R.color.holo_orange_light,";
    js "                android.R.color.holo_red_light";
    js "            )";
    js "        } else {";
    js "            swipeRefresh.isEnabled = false";
    js "        }";
    [];
    js "        if (!ENABLE_PROGRESS_BAR) progressBar.visibility = View.GONE";
    [];
    js "        configureWebView()";
    [];
    js "        val url = if (ENABLE_DEEP_LINKING && intent.data != null) {";
    js "            intent.data.toString()";
    js "        } else {";
    js "            WEBSITE_URL";
    js "        }";
    js "        webView.loadUrl(url)";
    js "    }";
    [];
    js "    @SuppressLint(" ++ [dq] ++ js "SetJavaScriptEnabled" ++ [dq] ++ js ")";
    js "    private fun configureWebView() {";
    js "        webView.settings.apply {";
    js "            javaScriptEnabled                  = true";
    js "            domStorageEnabled                  = true";
    js "            databaseEnabled                    = true";
    js "            setSupportZoom(true)";
    js "            builtInZoomControls                = false";
    js "            loadWithOverviewMode               = true";
    js "            useWideViewPort                    = true";
    js "            javaScriptCanOpenWindowsAutomatically = true";
    js "            mediaPlaybackRequiresUserGesture   = false";
    js "            allowFileAccess                    = true";
    js "            allowContentAccess                 = true";
    js "            setGeolocationEnabled(true)";
    js "            cacheMode                          = WebSettings.LOAD_DEFAULT";
    js "            mixedContentMode                   = WebSettings.MIXED_CONTENT_ALWAYS_ALLOW";
    js "        }";
    [];
    js "        webView.webViewClient = object : WebViewClient() {";
    [];
    js "            override fun shouldOverrideUrlLoading(view: WebView?, request: WebResourceRequest?): Boolean {";
    js "                val url = request?.url?.toString() ?: return false";
    js "                if (url.startsWith(" ++ [dq] ++ js "tel:" ++ [dq] ++ js ") || url.startsWith(" ++ [dq] ++ js "mailto:" ++ [dq] ++ js ") ||";
    js "                    url.startsWith(" ++ [dq] ++ js "sms:" ++ [dq] ++ js ")  || url.startsWith(" ++ [dq] ++ js "whatsapp:" ++ [dq] ++ js ")";
    js "                ) {";
    js "                    return try {";
    js "                        startActivity(Intent(Intent.ACTION_VIEW, Uri.parse(url)))";
    js "                        true";
    js "                    } catch (e: Exception) {";
    js "                        false";
    js "                    }";
    js "                }";
    js "                return false";
    js "            }";
    [];
    js "            override fun onPageStarted(view: WebView?, url: String?, favicon: Bitmap?) {";
    js "                super.onPageStarted(view, url, favicon)";
    js "                if (ENABLE_PROGRESS_BAR) progressBar.visibility = View.VISIBLE";
    js "            }";
    [];
    js "            override fun onPageFinished(view: WebView?, url: String?) {";
    js "                super.onPageFinished(view, url)";
    js "                if (ENABLE_PROGRESS_BAR) progressBar.visibility = View.GONE";
    js "                swipeRefresh.isRefreshing = false";
    js "            }";
    [];
    js "            override fun onReceivedError(";
    js "                view: WebView?,";
    js "                request: WebResourceRequest?,";
    js "                error: WebResourceError?";
    js "            ) {";
    js "                super.onReceivedError(view, request, error)";
    js "                if (ENABLE_ERROR_PAGE && request?.isForMainFrame == true) showErrorPage()";
    js "            }";
    js "        }";
    [];
    js "        webView.webChromeClient = object : WebChromeClient() {";
    [];
    js "            override fun onProgressChanged(view: WebView?, newProgress: Int) {";
    js "                super.onProgressChanged(view, newProgress)";
    js "                if (ENABLE_PROGRESS_BAR) {";
    js "                    progressBar.progress   = newProgress";
    js "                    progressBar.visibility = if (newProgress == 100) View.GONE else View.VISIBLE";
    js "                }";
    js "            }";
    [];
    js "            override fun onShowFileChooser(";
    js "                webView: WebView?,";
    js "                filePathCallback: ValueCallback<Array<Uri>>?,";
    js "                fileChooserParams: FileChooserParams?";
    js "            ): Boolean {";
    js "                if (!ENABLE_FILE_UPLOAD) return false";
    js "                fileUploadCallback?.onReceiveValue(null)";
    js "                fileUploadCallback = filePathCallback";
    js "                val intent = fileChooserParams?.createIntent() ?: return false";
    js "                return try {";
    js "                    fileChooserLauncher.launch(intent)";
    js "                    true";
    js "                } catch (e: Exception) {";
    js "                    fileUploadCallback = null";
    js "                    false";
    js "                }";
    js "            }";
    [];
    js "            override fun onGeolocationPermissionsShowPrompt(";
    js "                origin: String?,";
    js "                callback: GeolocationPermissions.Callback?";
    js "            ) {";
    js "                callback?.invoke(origin, true, false)";
    js "            }";
    [];
    js "            override fun onConsoleMessage(consoleMessage: ConsoleMessage?): Boolean {";
    js "                consoleMessage?.let {";
    js "                    android.util.Log.d(" ++ [dq] ++ js "WebView" ++ [dq] ++ js ",";
    js "                        " ++ [dq] ++ js "${it.message()} -- From line ${it.lineNumber()} of ${it.sourceId()}" ++ [dq] ++ js ")";
    js "                }";
    js "                return true";
    js "            }";
    js "        }";
    [];
    js "        webView.setDownloadListener { url, userAgent, contentDisposition, mimeType, _ ->";
    js "            val filename = URLUtil.guessFileName(url, contentDisposition, mimeType)";
    js "            val request  = DownloadManager.Request(Uri.parse(url)).apply {";
    js "                setMimeType(mimeType)";
    js "                addRequestHeader(" ++ [dq] ++ js "User-Agent" ++ [dq] ++ js ", userAgent)";
    js "                setDescription(" ++ [dq] ++ js "Downloading file..." ++ [dq] ++ js ")";
    js "                setTitle(filename)";
    js "                allowScanningByMediaScanner()";
    js "                setNotificationVisibility(DownloadManager.Request.VISIBILITY_VISIBLE_NOTIFY_COMPLETED)";
    js "                setDestinationInExternalPublicDir(Environment.DIRECTORY_DOWNLOADS, filename)";
    js "            }";
    js "            val dm = getSystemService(Context.DOWNLOAD_SERVICE) as DownloadManager";
    js "            dm.enqueue(request)";
    js "        }";
    js "    }";
    [];
    js "    private fun showErrorPage() {";
    js "        val errorHtml = " ++ [dq; dq; dq];
    js "            <!DOCTYPE html>";
    js "            <html>";
    js "            <head>";
    js "                <meta charset=" ++ [dq] ++ js "UTF-8" ++ [dq] ++ js ">";
    js "                <meta name=" ++ [dq] ++ js "viewport" ++ [dq] ++ js " content=" ++ [dq] ++ js "width=device-width, initial-scale=1.0" ++ [dq] ++ js ">";
    js "                <style>";
    js "                    body {";
    js "                        font-family: -apple-system, BlinkMacSystemFont, 'Segoe UI', Roboto, sans-serif;";
    js "                        display: flex; justify-content: center; align-items: center;";
    js "                        height: 100vh; margin: 0;";
    js "                        background: linear-gradient(135deg, #667eea 0%, #764ba2 100%);";
    js "                        color: white; text-align: center; padding: 20px; box-sizing: border-box;";
    js "                    }";
    js "                    .error-container { max-width: 400px; }";
    js "                    .wifi-icon { font-size: 64px; margin-bottom: 20px; }";
    js "                    h1 { font-size: 72px; margin: 0; font-weight: 700; }";
    js "                    h2 { font-size: 24px; margin: 20px 0; font-weight: 500; }";
    js "                    p  { font-size: 16px; opacity: 0.9; line-height: 1.6; }";
    js "                    button {";
    js "                        background: white; color: #667eea; border: none;";
    js "                        padding: 15px 30px; font-size: 16px; font-weight: 600;";
    js "                        border-radius: 25px; cursor: pointer; margin-top: 20px;";
    js "                        box-shadow: 0 4px 15px rgba(0,0,0,0.2);";
    js "                    }";
    js "                </style>";
    js "            </head>";
    js "            <body>";
    js "                <div class=" ++ [dq] ++ js "error-container" ++ [dq] ++ js ">";
    js "                    <div class=" ++ [dq] ++ js "wifi-icon" ++ [dq] ++ js ">" ++ [55357%N; 56545%N] ++ js "</div>";
    js "                    <h1>Oops!</h1>";
    js "                    <h2>No Internet Connection</h2>";
    js "                    <p>Please check your internet connection and try again.</p>";
    js "                    <button onclick=" ++ [dq] ++ js "location.reload()" ++ [dq] ++ js ">Try Again</button>";
    js "                </div>";
    js "            </body>";
    js "            </html>";
    js "        " ++ [dq; dq; dq] ++ js ".trimIndent()";
    js "        webView.loadDataWithBaseURL(null, errorHtml, " ++ [dq] ++ js "text/html" ++ [dq] ++ js ", " ++ [dq] ++ js "UTF-8" ++ [dq] ++ js ", null)";
    js "    }";
    [];
    js "    @Deprecated(" ++ [dq] ++ js "Deprecated in Java" ++ [dq] ++ js ")";
    js "    override fun onBackPressed() {";
    js "        if (webView.canGoBack()) webView.goBack() else super.onBackPressed()";
    js "    }";
    [];
    js "    override fun onNewIntent(intent: Intent?) {";
    js "        super.onNewIntent(intent)";
    js "        if (ENABLE_DEEP_LINKING && intent?.data != null) {";
    js "            webView.loadUrl(intent.data.toString())";
    js "        }";
    js "    }";
    [];
    js "    override fun onPause()   { super.onPause();   webView.onPause()   }";
    js "    override fun onResume()  { super.onResume();  webView.onResume()  }";
    js "    override fun onDestroy() { super.onDestroy(); webView.destroy()   }";
    js "}" ].

Definition activityBody : jsstring := unlines activityBodyLines.

(** The activity source of the template as it is shipped. *)
Definition mainActivityTemplate : jsstring :=
  activityHead (js "com.web2apk.template") (js "https://example.com")
               (js "true") (js "true") (js "true") (js "false") (js "false")
  ++ activityBody.

(** The head of the activity source, cut at the package name and at the
    URL. *)
Definition headToUrl : jsstring :=
  unlines activityPreamble ++ js "    private val WEBSITE_URL = " ++ [dq].

Definition headFlags (pullToRefresh progressBar errorPage fileUpload deepLinking : jsstring)
    : jsstring :=
  js "    private val ENABLE_PULL_TO_REFRESH = " ++ pullToRefresh ++ [nl]
  ++ js "    private val ENABLE_PROGRESS_BAR = " ++ progressBar ++ [nl]
  ++ js "    private val ENABLE_ERROR_PAGE = " ++ errorPage ++ [nl]
  ++ js "    private val ENABLE_FILE_UPLOAD = " ++ fileUpload ++ [nl]
  ++ js "    private val ENABLE_DEEP_LINKING = " ++ deepLinking ++ [nl]
  ++ [nl].

Definition headPre : jsstring := unlines activityPreamble ++ js "    private val ".

End Template.

(* ===================================================================== *)
(** * The job queue                                                        *)
(* ===================================================================== *)

Module Queue.
Import JS BuildModel Controller Worker QueueConfig.

(** ** Retries *)

(** Modelled from the spec: the backoff strategy of the queue library, which
    is not under src/.  Section 4.1: exponential backoff (base delay doubling
    per attempt).  [attemptsMade] counts the attempts that have failed, so
    the first retry waits the base delay. *)
Definition retryDelay (o : JobOptions) (attemptsMade : nat) : Z :=
  match backoffType o with
  | fixed => backoffDelay o
  | exponential => backoffDelay o * 2 ^ (Z.of_nat attemptsMade - 1)
  end.

(** What became of a job: how its last attempt completed, how many times the
    handler ran, the delays waited between the attempts, the final state. *)
Record JobRun := mkJobRun {
  outcome : Completion BuildResult;
  runs : nat;
  delays : list Z;
  final : WState
}.

(** Modelled from the spec: the retry rule of the queue library, which is
    not under src/.  Section 4.1: a job that raises during execution is
    retried up to MaxAttempts; after exhausting attempts the job is marked
    failed and is not retried further.  [more] is the number of attempts
    left after this one; attempt number [attemptsMade] meets the world
    [worlds attemptsMade]. *)
Fixpoint attemptsLoop (o : JobOptions) (more attemptsMade : nat) (worlds : nat -> World)
    (buildId : jsstring) (s : WState) : JobRun :=
  match processJob (worlds attemptsMade) buildId s with
  | (Return r, s') => mkJobRun (Return r) 1 [] s'
  | (Throw e, s') =>
      match more with
      | O => mkJobRun (Throw e) 1 [] s'
      | S more' =>
          let r := attemptsLoop o more' (S attemptsMade) worlds buildId s' in
          mkJobRun (outcome r) (S (runs r)) (retryDelay o (S attemptsMade) :: delays r) (final r)
      end
  end.

Definition runJob (o : JobOptions) (worlds : nat -> World) (buildId : jsstring) (s : WState)
    : JobRun :=
  attemptsLoop o (Z.to_nat (attempts o) - 1) 0 worlds buildId s.

(** Attempt number [i] of a job when every attempt before it raised: the
    state it starts in, and how it completes. *)
Fixpoint attemptState (worlds : nat -> World) (buildId : jsstring) (s : WState) (i : nat)
    : WState :=
  match i with
  | O => s
  | S i' => snd (processJob (worlds i') buildId (attemptState worlds buildId s i'))
  end.

Definition attempt (worlds : nat -> World) (buildId : jsstring) (s : WState) (i : nat)
    : Completion BuildResult * WState :=
  processJob (worlds i) buildId (attemptState worlds buildId s i).

Definition raises {A} (c : Completion A) : bool :=
  match c with
  | Throw _ => true
  | Return _ => false
  end.

(** The state of a job in the queue after its run. *)
Definition jobStateAfter (r : JobRun) : JobState :=
  match outcome r with
  | Return _ => jobCompleted
  | Throw _ => jobFailed
  end.

(** ** Admission *)

(** The queue as the admission rule sees it: the jobs waiting, in the order
    they will be served, the jobs a worker is running, and the number of
    jobs started in the current limiter window. *)
Record Admission := mkAdmission {
  waiting : list (jsstring * Z);
  active : list jsstring;
  startedInWindow : Z
}.

Inductive Event :=
| evAdd (jobId : jsstring) (priority : Z)
| evAdmit
| evFinish (jobId : jsstring)
| evWindowElapsed.

(** A lower priority value is served first; equal priorities in order of
    arrival. *)
Fixpoint insertByPriority (j : jsstring * Z) (l : list (jsstring * Z)) : list (jsstring * Z) :=
  match l with
  | [] => [j]
  | k :: l' => if (snd j <? snd k)%Z then j :: l else k :: insertByPriority j l'
  end.

Definition known (jobId : jsstring) (q : Admission) : bool :=
  existsb (fun k => units_eqb (fst k) jobId) (waiting q) || existsb (units_eqb jobId) (active q).

(** Modelled from the spec: the admission rule of the queue library, which
    is not under src/.  Section 5: a fixed-size pool of worker executions
    processes the queue; section 4.1: Enqueue is idempotent per build id, and
    additional ready jobs remain queued until a running job completes or
    fails.  The size of the pool ([concurrency]: the jobs the worker
    processes take between them) and the limiter ([max] jobs started per
    [duration] milliseconds) are what the source passes to the library. *)
Definition step (concurrency : nat) (lim : Limiter) (q : Admission) (e : Event) : Admission :=
  match e with
  | evAdd jobId priority =>
      if known jobId q then q
      else mkAdmission (insertByPriority (jobId, priority) (waiting q)) (active q) (startedInWindow q)
  | evAdmit =>
      match waiting q with
      | (jobId, _) :: rest =>
          if (length (active q) <? concurrency)%nat && (startedInWindow q <? max lim)%Z
          then mkAdmission rest (jobId :: active q) (startedInWindow q + 1)
          else q
      | [] => q
      end
  | evFinish jobId =>
      mkAdmission (waiting q) (List.filter (fun k => negb (units_eqb k jobId)) (active q)) (startedInWindow q)
  | evWindowElapsed =>
      mkAdmission (waiting q) (active q) 0
  end.

Definition emptyQueue : Admission := mkAdmission [] [] 0.

Definition runQueue (concurrency : nat) (lim : Limiter) (events : list Event) : Admission :=
  fold_left (step concurrency lim) events emptyQueue.

(** The build queue of the repository, served by [workers] processes that
    run workers/buildWorker.js: the limiter of config/queue.js, and for every
    process the concurrency of the handler it registers. *)
Definition buildQueue (env : gmap string (list N)) (workers : nat) (events : list Event)
    : Admission :=
  runQueue (workers * workerConcurrency) (limiter (buildQueueOptions env)) events.

End Queue.

(* ===================================================================== *)
(** * Sample inputs                                                        *)
(* ===================================================================== *)

Module Samples.
Import JS BuildService BuildModel Toolchain Controller Worker Queue.

(** The configuration of the scenario of section 8 of the specification. *)
Definition demoConfig : AppConfig :=
  {| websiteUrl := js "https://example.com";
     appName := js "Demo";
     packageName := js "com.acme.demo";
     versionCode := 1;
     versionName := js "1.0.0";
     splashBackground := js "#112233";
     splashImage := None;
     appIcon := None |}.

(** The defaults of the schema. *)
Definition defaultFeatures : Features :=
  {| pullToRefresh := true; progressBar := true; errorPage := true;
     fileUpload := false; deepLinking := false; swipeRefresh := true;
     geolocation := false; localStorage := true |}.














(** A string resource file of the usual shape. *)
Definition stringsHead : jsstring := unlines [ js "<resources>" ] ++ js "    ".
Definition stringsTail : jsstring := [nl] ++ unlines [ js "</resources>" ].

Definition sampleStrings : jsstring :=
  stringsHead ++ (appNameOpen ++ js "Web2APK" ++ appNameClose) ++ stringsTail.

(** Hosts: one without keystore settings, one with a keystore on which
    every subprocess fails, one on which the build command fails. *)
Definition bareWorld : World :=
  mkWorld ∅ (js "/app/temp") (js "/app/builds") 0 (fun _ => None) (fun _ => ExecDone) 0.

Definition keystoreEnv : gmap string (list N) :=
  <["KEYSTORE_PATH"%string := js "/keys/release.jks"]>
  (<["KEYSTORE_PASSWORD"%string := js "secret"]>
  (<["KEY_ALIAS"%string := js "release"]>
  (<["KEY_PASSWORD"%string := js "secret"]> ∅))).

Definition failingSigner : World :=
  mkWorld keystoreEnv (js "/app/temp") (js "/app/builds") 0 (fun _ => None)
          (fun _ => ExecRaise (newError (js "Command failed"))) 0.

Definition fineWorld : World :=
  mkWorld ∅ (js "/app/temp") (js "/app/builds") 5000 (fun _ => None) (fun _ => ExecDone) 4096.

Definition gradleFails : World :=
  mkWorld ∅ (js "/app/temp") (js "/app/builds") 5000
          (fun st => match st with
                     | ioGradle => Some (newError (js "Command failed: ./gradlew clean assembleRelease"))
                     | _ => None
                     end)
          (fun _ => ExecDone) 4096.

(** A record as [createBuild] leaves it, and the state a job starts in. *)
Definition freshBuild : Build :=
  {| user := js "u1"; status := queued; progress := 0; currentStep := js "Initializing...";
     output_apkPath := None; output_apkSize := None; output_downloadUrl := None;
     output_cloudinaryPublicId := None;
     buildTime_startedAt := Some 1000%Z; buildTime_completedAt := None;
     buildTime_duration := None;
     error_message := None; error_stack := None; error_code := None;
     jobId := Some (js "b1"); expiresAt := None; isPremium := false |}.

Definition startState (sched : list UserAction) : WState :=
  mkWState (Some freshBuild) None sched [] [] [] false [] [].


(** A record as [createBuild] has created it, before it saves the job id
    and the start time; the save comes while the handler waits for its
    second store operation. *)
Definition unstartedBuild : Build :=
  putPath p_jobId None (putPath p_buildTime_startedAt None freshBuild).

Definition createSavesLate : list UserAction :=
  [userIdle; userCreateSave (js "b1") 1000%Z].

Definition unstartedState : WState :=
  mkWState (Some unstartedBuild) None createSavesLate [] [] [] false [] [].

(** A cancel request has read the record before the job started and has
    not saved yet. *)
Definition cancelInFlight : WState :=
  mkWState (Some freshBuild) None [] [] [] [] false [] [freshBuild].

(** The build command fails in the first attempt only. *)
Definition failsOnce (attempt : nat) : World :=
  match attempt with
  | O => gradleFails
  | S _ => fineWorld
  end.


(** Five builds are submitted at once, then the queue admits what it can. *)
Definition fiveBuilds : list Event :=
  [ evAdd (js "b1") 10; evAdd (js "b2") 10; evAdd (js "b3") 1; evAdd (js "b4") 10;
    evAdd (js "b5") 10; evAdmit; evAdmit; evAdmit; evAdmit; evAdmit ].



End Samples.

(* ===================================================================== *)
(** * middleware/validation.js: the patterns of the build request          *)
(* ===================================================================== *)

Module Validation.
Import JS BuildService.

(** The class of the app name pattern: letters, digits, [\s], hyphen and
    underscore.  [\s] is white space and line terminators, the units
    [parseInt] skips. *)
Definition isAppNameUnit (c : N) : bool :=
  isLower c || isUpper c || isDigit c || isStrWhiteSpace c || (c =? 45)%N || (c =? 95)%N.

(** The pattern of [body('appName').matches(...)]: one or more units of the
    class, from the start of the string to its end. *)
Definition appNamePattern (s : jsstring) : bool :=
  match s with
  | [] => false
  | _ => forallb isAppNameUnit s
  end.

Definition isHexDigit (c : N) : bool :=
  isDigit c || ((65 <=? c) && (c <=? 70))%N || ((97 <=? c) && (c <=? 102))%N.

(** The pattern of [body('splashBackground').matches(...)]: a hash sign and
    six hexadecimal digits. *)
Definition splashBackgroundPattern (s : jsstring) : bool :=
  match s with
  | c :: r => (c =? 35)%N && (length r =? 6)%nat && forallb isHexDigit r
  | [] => false
  end.

(** The pattern of [body('packageName').matches(...)] is the one of
    [createBuild] and of the schema. *)
Definition packageNamePattern (s : jsstring) : bool := validPackageName s.

End Validation.

(* ===================================================================== *)
(** * services/buildService.js: the patches of build.gradle and colors.xml *)
(* ===================================================================== *)

Module BuildPatches.
Import JS BuildService.

(** ToString of a number that is an integer. *)
Definition numberToString (n : Z) : jsstring := js (NilZero.string_of_int (Z.to_int n)).

(** [\s+] *)
Definition spacePlus : matcher :=
  fun s => match span isStrWhiteSpace s with
           | ([], _) => None
           | (w, r) => Some (w, r)
           end.

(** [\d+] *)
Definition digitPlus : matcher :=
  fun s => match span isDigit s with
           | ([], _) => None
           | (w, r) => Some (w, r)
           end.

(** A keyword, [\s+], and a value in double quotes that holds none. *)
Definition reQuotedSetting (keyword : string) : matcher :=
  seqm (lit (js keyword)) (seqm spacePlus (seqm (lit [dq]) (notUnitStarThen dq))).

Definition reApplicationId : matcher := reQuotedSetting "applicationId".
Definition reVersionName : matcher := reQuotedSetting "versionName".

(** [versionCode], [\s+], [\d+] *)
Definition reVersionCode : matcher := seqm (lit (js "versionCode")) (seqm spacePlus digitPlus).

Definition applicationIdSetting (appConfig : AppConfig) : jsstring :=
  js "applicationId " ++ [dq] ++ packageName appConfig ++ [dq].

(** [appConfig.versionCode || 1]: zero is falsy. *)
Definition versionCodeSetting (appConfig : AppConfig) : jsstring :=
  js "versionCode "
  ++ numberToString (if (versionCode appConfig =? 0)%Z then 1 else versionCode appConfig).

(** [appConfig.versionName || '1.0.0']: the empty string is falsy. *)
Definition versionNameSetting (appConfig : AppConfig) : jsstring :=
  js "versionName " ++ [dq]
  ++ match versionName appConfig with [] => js "1.0.0" | v => v end ++ [dq].

(** [updateBuildGradle]: from the text read to the text written. *)
Definition updateBuildGradle (gradle : jsstring) (appConfig : AppConfig) : jsstring :=
  let gradle := replace reApplicationId (applicationIdSetting appConfig) gradle in
  let gradle := replace reVersionCode (versionCodeSetting appConfig) gradle in
  let gradle := replace reVersionName (versionNameSetting appConfig) gradle in
  gradle.

(** ** processSplashScreen *)

Definition colorOpen : jsstring :=
  js "<color name=" ++ [dq] ++ js "splash_background" ++ [dq] ++ js ">".
Definition colorClose : jsstring := js "</color>".

Definition reSplashColor : matcher := seqm (lit colorOpen) (dotStarThen colorClose).

(** A call of the image library: the file read, the box it is resized to,
    whether it is fitted inside the box, and the PNG file written. *)
Record Resize := mkResize {
  input : jsstring;
  width : Z;
  height : Z;
  fitInside : bool;
  toFile : jsstring
}.

(** [appConfig.splashBackground || '#FFFFFF'] *)
Definition splashColor (appConfig : AppConfig) : jsstring :=
  match splashBackground appConfig with [] => js "#FFFFFF" | c => c end.

(** [processSplashScreen]: the text written to colors.xml, and the image
    written when a splash image was uploaded. *)
Definition processSplashScreen (projectDir colors : jsstring) (appConfig : AppConfig)
    : jsstring * option Resize :=
  let colors := replace reSplashColor (colorOpen ++ splashColor appConfig ++ colorClose) colors in
  (colors,
   match splashImage appConfig with
   | Some (c :: p) =>
       Some (mkResize (c :: p) 512 512 true
                      (pathJoin projectDir (js "app/src/main/res/drawable/splash_logo.png")))
   | _ => None
   end).

(** ** processAppIcon *)

Definition iconSizes : list (string * Z) :=
  [ ("mipmap-mdpi", 48); ("mipmap-hdpi", 72); ("mipmap-xhdpi", 96);
    ("mipmap-xxhdpi", 144); ("mipmap-xxxhdpi", 192) ]%Z.

(** [processAppIcon]: the images written, none when no icon was uploaded. *)
Definition processAppIcon (projectDir : jsstring) (iconPath : option jsstring) : list Resize :=
  match iconPath with
  | Some (c :: p) =>
      map (fun fs =>
             mkResize (c :: p) (snd fs) (snd fs) false
                      (pathJoin projectDir
                         (js "app/src/main/res/" ++ js (fst fs) ++ js "/ic_launcher.png")))
          iconSizes
  | _ => []
  end.

End BuildPatches.

(* ===================================================================== *)
(** * controllers/buildController.js: the package name of a new build      *)
(* ===================================================================== *)

Module PackageNames.
Import JS BuildService.

(** [toLowerCase] on the units an app name is made of once the request has
    passed validation: the letters A to Z go to a to z; digits, white space,
    hyphen and underscore have no other case. *)
Definition toLowerCaseUnit (c : N) : N := if isUpper c then (c + 32)%N else c.
Definition toLowerCase (s : jsstring) : jsstring := map toLowerCaseUnit s.

(** The package name generated from the app name: every unit that is not a
    lower-case letter or a digit is dropped ([replace] with the [g] flag and
    an empty replacement). *)
Definition autoPackageName (appName : jsstring) : jsstring :=
  js "com.web2apk." ++ List.filter (fun c => isLower c || isDigit c) (toLowerCase appName).

(** [packageName || ...]: a missing or empty package name is generated. *)
Definition finalPackageName (packageName : option jsstring) (appName : jsstring) : jsstring :=
  match packageName with
  | Some (c :: p) => c :: p
  | _ => autoPackageName appName
  end.

End PackageNames.

(* ===================================================================== *)
(** * models/User.js: the monthly build allowance                          *)
(* ===================================================================== *)

Module UserModel.
Import JS.

Inductive Plan := free | pro.

(** The fields of the user document that the build allowance reads or
    writes.  Dates are milliseconds since the epoch. *)
Record User := mkUser {
  plan : Plan;
  buildsThisMonth : Z;
  totalBuilds : Z;
  lastBuildDate : option Z;
  monthResetDate : Z
}.

(** [getMonth] and [getFullYear] of a date, in the time zone of the host. *)
Record Calendar := mkCalendar {
  getMonth : Z -> Z;
  getFullYear : Z -> Z
}.

Section Allowance.

Variable env : gmap string (list N).
Variable calendar : Calendar.

Definition maxBuilds (u : User) : Z :=
  match plan u with
  | pro => parseIntOr (env !! "MAX_PRO_BUILDS_PER_MONTH"%string) 999
  | free => parseIntOr (env !! "MAX_FREE_BUILDS_PER_MONTH"%string) 3
  end.

(** [canBuild()] at the time [now]: the answer, and the document, whose
    counter the method resets when the month has changed. *)
Definition canBuild (now : Z) (u : User) : bool * User :=
  let u :=
    if negb (getMonth calendar now =? getMonth calendar (monthResetDate u))%Z
       || negb (getFullYear calendar now =? getFullYear calendar (monthResetDate u))%Z
    then mkUser (plan u) 0 (totalBuilds u) (lastBuildDate u) now
    else u in
  ((buildsThisMonth u <? maxBuilds u)%Z, u).

(** [incrementBuildCount()] at the time [now], which ends in [save()]. *)
Definition incrementBuildCount (now : Z) (u : User) : User :=
  mkUser (plan u) (buildsThisMonth u + 1) (totalBuilds u + 1) (Some now) (monthResetDate u).

(** [getRemainingBuilds()] *)
Definition getRemainingBuilds (u : User) : Z :=
  Z.max 0 (maxBuilds u - buildsThisMonth u).

(** [createBuild] as far as the user document goes.  The handler works on
    the user document that the [protect] middleware loaded for the request;
    it asks [canBuild()], and on a refusal answers 403 with the number
    [getRemainingBuilds()] gives.  [rest] tells how the steps that follow
    end (the SDK check, the package name check, the creation of the record
    and of the job, the save of the record, and at last
    [incrementBuildCount()] with its save): [Some later] when all of them go
    through, [later] being the time at which [incrementBuildCount()] runs,
    and the handler then answers 201; [None] when one of them answers an
    error or throws, and then the user document is not saved.  The result:
    whether the request was answered 201, the number of remaining builds
    reported on a refusal, and the stored user afterwards. *)
Definition createBuild_usage (now : Z) (rest : option Z) (stored : User)
    : bool * option Z * User :=
  let (ok, doc) := canBuild now stored in
  if negb ok then (false, Some (getRemainingBuilds doc), stored)
  else match rest with
       | Some later => (true, None, incrementBuildCount later doc)
       | None => (false, None, stored)
       end.

(** A series of requests of one user, handled one after the other, each
    with its time and the outcome of its later steps: the number of requests
    answered 201 and the stored user at the end. *)
Fixpoint createBuilds (requests : list (Z * option Z)) (stored : User) : nat * User :=
  match requests with
  | [] => (O, stored)
  | (now, rest) :: requests' =>
      let '(accepted, _, stored') := createBuild_usage now rest stored in
      let (n, final) := createBuilds requests' stored' in
      ((if accepted then S n else n), final)
  end.

End Allowance.

End UserModel.

(* ===================================================================== *)
(** * models/Build.js: expiry, downloads and the expiry sweep              *)
(* ===================================================================== *)

Module BuildRecords.
Import JS BuildService BuildModel.

(** A stored build document: the fields the worker deals with ([core]) and
    the ones the request handlers and the sweep read or write. *)
Record Stored := mkStored {
  core : Build;
  buildId : jsstring;
  appConfig : AppConfig;
  isDeleted : bool;
  stats_downloadCount : Z;
  stats_lastDownloadAt : option Z;
  createdAt : Z
}.

Definition setCore (v : Build) (b : Stored) : Stored :=
  mkStored v (buildId b) (appConfig b) (isDeleted b) (stats_downloadCount b)
           (stats_lastDownloadAt b) (createdAt b).

Definition setIsDeleted (v : bool) (b : Stored) : Stored :=
  mkStored (core b) (buildId b) (appConfig b) v (stats_downloadCount b)
           (stats_lastDownloadAt b) (createdAt b).

(** [isExpired()] at the time [now] *)
Definition isExpired (now : Z) (b : Stored) : bool :=
  match expiresAt (core b) with
  | None => false
  | Some e => (now >? e)%Z
  end.

(** [incrementDownloadCount()], which ends in [save()]. *)
Definition incrementDownloadCount (now : Z) (b : Stored) : Stored :=
  mkStored (core b) (buildId b) (appConfig b) (isDeleted b) (stats_downloadCount b + 1)
           (Some now) (createdAt b).

(** The [durationFormatted] virtual: [None] is [null]. *)
Definition durationFormatted (b : Stored) : option jsstring :=
  match buildTime_duration (core b) with
  | None => None
  | Some d =>
      if (d =? 0)%Z then None
      else
        let seconds := (d / 1000)%Z in
        let minutes := (seconds / 60)%Z in
        let remainingSeconds := Z.rem seconds 60 in
        Some (if (minutes >? 0)%Z
              then BuildPatches.numberToString minutes ++ js "m "
                   ++ BuildPatches.numberToString remainingSeconds ++ js "s"
              else BuildPatches.numberToString seconds ++ js "s")
  end.

(** ** Files

    The files on the disk of the host, and the ones that cannot be removed
    although they exist. *)
Record Disk := mkDisk {
  files : gset (list N);
  undeletable : gset (list N)
}.

(** [fs.unlink(path)]: [None] when it throws (no such file, or no
    permission), the disk afterwards otherwise. *)
Definition unlink (path : jsstring) (disk : Disk) : option Disk :=
  if bool_decide (path ∈ files disk) && negb (bool_decide (path ∈ undeletable disk))
  then Some (mkDisk (files disk ∖ {[ path ]}) (undeletable disk))
  else None.

(** [fs.access(path)] succeeds. *)
Definition access (path : jsstring) (disk : Disk) : bool := bool_decide (path ∈ files disk).

(** [try { await fs.unlink(path) } catch (error) { logger.warn(...) }] for a
    path that may be [null] or empty. *)
Definition tryUnlink (path : option jsstring) (disk : Disk) : Disk :=
  match path with
  | Some (c :: p) => match unlink (c :: p) disk with
                     | Some disk' => disk'
                     | None => disk
                     end
  | _ => disk
  end.

(** The filter of [cleanupExpired]: [expiresAt] before [now], not deleted. *)
Definition sweepable (now : Z) (b : Stored) : bool :=
  match expiresAt (core b) with
  | Some e => (e <? now)%Z && negb (isDeleted b)
  | None => false
  end.

(** The body of the loop of [cleanupExpired] for one build found: the file
    is removed and the document marked deleted and saved; when the removal
    throws, the error is logged and the document is left as it is. *)
Definition sweepOne (b : Stored) (disk : Disk) : Stored * Disk :=
  match output_apkPath (core b) with
  | Some (c :: p) =>
      match unlink (c :: p) disk with
      | Some disk' => (setIsDeleted true b, disk')
      | None => (b, disk)
      end
  | _ => (setIsDeleted true b, disk)
  end.

(** The collection after the sweep, in its order, and the disk. *)
Fixpoint sweep (now : Z) (builds : list Stored) (disk : Disk) : list Stored * Disk :=
  match builds with
  | [] => ([], disk)
  | b :: builds' =>
      let (b', disk') := if sweepable now b then sweepOne b disk else (b, disk) in
      let (rest, disk'') := sweep now builds' disk' in
      (b' :: rest, disk'')
  end.

(** [cleanupExpired()]: the number of builds found, the collection and the
    disk afterwards. *)
Definition cleanupExpired (now : Z) (builds : list Stored) (disk : Disk)
    : Z * list Stored * Disk :=
  let (builds', disk') := sweep now builds disk in
  (Z.of_nat (length (List.filter (sweepable now) builds)), builds', disk').

End BuildRecords.

(* ===================================================================== *)
(** * controllers/buildController.js: status, download, listing, deletion  *)
(* ===================================================================== *)

Module Handlers.
Import JS BuildService BuildModel BuildRecords.

(** What a handler answers: an error passed to [next] with its status and
    message, a JSON body sent with status 200 (the handlers below differ in
    what it holds), a redirect, or a file sent under a name. *)
Inductive Answer (A : Type) : Type :=
| appError (statusCode : Z) (msg : jsstring)
| json (body : A)
| redirect (url : jsstring)
| download (path filename : jsstring).
Arguments appError {A} statusCode msg.
Arguments json {A} body.
Arguments redirect {A} url.
Arguments download {A} path filename.

Definition statusCodeOf {A} (a : Answer A) : Z :=
  match a with
  | appError c _ => c
  | json _ => 200
  | redirect _ => 302
  | download _ _ => 200
  end.

(** The fields of the answer of [getBuildStatus] that come from the worker. *)
Record StatusBody := mkStatusBody {
  sb_status : Status;
  sb_progress : Z;
  sb_currentStep : jsstring;
  sb_downloadUrl : option jsstring;
  sb_error : option jsstring;
  sb_durationFormatted : option jsstring;
  sb_expiresAt : option Z
}.

(** [getBuildStatus] *)
Definition getBuildStatus (reqUser : jsstring) (stored : option Stored) : Answer StatusBody :=
  match stored with
  | None => appError 404 (js "Build not found")
  | Some build =>
      if negb (units_eqb (user (core build)) reqUser)
      then appError 403 (js "Not authorized to access this build")
      else json (mkStatusBody (status (core build)) (progress (core build))
                              (currentStep (core build)) (output_downloadUrl (core build))
                              (error_message (core build)) (durationFormatted build)
                              (expiresAt (core build)))
  end.

(** [downloadAPK] at the time [now]: the answer and the stored document
    afterwards.  The callback of [res.download], which reports a failure of
    the transfer, is left out. *)
Definition downloadAPK (reqUser : jsstring) (now : Z) (disk : Disk) (stored : option Stored)
    : Answer unit * option Stored :=
  match stored with
  | None => (appError 404 (js "Build not found"), stored)
  | Some build =>
      if negb (units_eqb (user (core build)) reqUser)
      then (appError 403 (js "Not authorized to download this build"), stored)
      else if negb (Status_eqb (status (core build)) completed)
      then (appError 400 (js "Build is not completed yet"), stored)
      else if isExpired now build
      then (appError 410 (js "Build has expired"), stored)
      else
        let build := incrementDownloadCount now build in
        (match output_apkPath (core build) with
         | Some (c :: p) =>
             match startsWith (js "https://") (c :: p) with
             | Some _ => redirect (c :: p)
             | None =>
                 if access (c :: p) disk
                 then download (c :: p) (appName (appConfig build) ++ js ".apk")
                 else appError 404 (js "APK file not found on server")
             end
         | _ => appError 404 (js "APK file not found")
         end,
         Some build)
  end.

(** [deleteBuild]: the answer, the stored document and the disk afterwards. *)
Definition deleteBuild (reqUser : jsstring) (disk : Disk) (stored : option Stored)
    : Answer unit * option Stored * Disk :=
  match stored with
  | None => (appError 404 (js "Build not found"), stored, disk)
  | Some build =>
      if negb (units_eqb (user (core build)) reqUser)
      then (appError 403 (js "Not authorized to delete this build"), stored, disk)
      else
        let disk := tryUnlink (output_apkPath (core build)) disk in
        let disk := tryUnlink (appIcon (appConfig build)) disk in
        let disk := tryUnlink (splashImage (appConfig build)) disk in
        (json tt, Some (setIsDeleted true build), disk)
  end.

(** ** getUserBuilds *)

(** [sort({ createdAt: -1 })]: newest first; builds created at the same time
    stay in the order of the collection. *)
Fixpoint insertNewestFirst (b : Stored) (l : list Stored) : list Stored :=
  match l with
  | [] => [b]
  | k :: l' => if (createdAt k <? createdAt b)%Z then b :: l else k :: insertNewestFirst b l'
  end.

Definition newestFirst (l : list Stored) : list Stored :=
  fold_right insertNewestFirst [] l.

(** The documents [{ user, isDeleted: false }] selects. *)
Definition buildsOf (reqUser : jsstring) (builds : list Stored) : list Stored :=
  List.filter (fun b => units_eqb (user (core b)) reqUser && negb (isDeleted b)) builds.

Record ListedBuild := mkListedBuild {
  lb_buildId : jsstring;
  lb_status : Status;
  lb_progress : Z;
  lb_downloadCount : Z;
  lb_isExpired : bool
}.

Record Listing := mkListing {
  count : Z;
  total : Z;
  pages : Z;
  currentPage : Z;
  builds : list ListedBuild
}.

Definition listed (now : Z) (b : Stored) : ListedBuild :=
  mkListedBuild (buildId b) (status (core b)) (progress (core b)) (stats_downloadCount b)
                (isExpired now b).

(** [getUserBuilds] with the query parameters [page] and [limit], as far as
    the fields above go.  With a page or a limit below 1 the query asks the
    database for a negative skip or limit; what the database does then is
    not in the sources, and the model has no answer ([None]). *)
Definition getUserBuilds (reqUser : jsstring) (now : Z) (queryPage queryLimit : option jsstring)
    (collection : list Stored) : option Listing :=
  let page := parseIntOr queryPage 1 in
  let limit := parseIntOr queryLimit 10 in
  let skip := ((page - 1) * limit)%Z in
  if (page <? 1)%Z || (limit <? 1)%Z then None
  else
    let found := take (Z.to_nat limit) (drop (Z.to_nat skip)
                   (newestFirst (buildsOf reqUser collection))) in
    let total := Z.of_nat (length (buildsOf reqUser collection)) in
    Some (mkListing (Z.of_nat (length found)) total
                    ((total + limit - 1) / limit)%Z
                    page
                    (map (listed now) found)).

End Handlers.

(* ===================================================================== *)
(** * routes/userRoutes.js: the statistics of a user                       *)
(* ===================================================================== *)

Module UserRoutes.
Import JS BuildModel UserModel BuildRecords Handlers.

(** [Build.countDocuments(filter)] *)
Definition countDocuments (filter : Stored -> bool) (collection : list Stored) : Z :=
  Z.of_nat (length (List.filter filter collection)).

(** The [usage] part of the answer of [getUserStats]. *)
Record Usage := mkUsage {
  usage_buildsThisMonth : Z;
  usage_remainingBuilds : Z;
  usage_totalBuilds : Z;
  usage_completedBuilds : Z;
  usage_failedBuilds : Z;
  usage_activeBuilds : Z
}.

(** [getUserStats], for the user document [u] that the [protect] middleware
    loaded and the collection of builds as it is during the request. *)
Definition getUserStats (env : gmap string (list N)) (reqUser : jsstring) (u : User)
    (collection : list Stored) : Usage :=
  let totalBuilds :=
    countDocuments (fun b => units_eqb (user (core b)) reqUser
                             && negb (isDeleted b)) collection in
  let completedBuilds :=
    countDocuments (fun b => units_eqb (user (core b)) reqUser
                             && Status_eqb (status (core b)) completed
                             && negb (isDeleted b)) collection in
  let failedBuilds :=
    countDocuments (fun b => units_eqb (user (core b)) reqUser
                             && Status_eqb (status (core b)) failed
                             && negb (isDeleted b)) collection in
  let activeBuilds :=
    countDocuments (fun b => units_eqb (user (core b)) reqUser
                             && existsb (Status_eqb (status (core b))) [pending; queued; building]
                             && negb (isDeleted b)) collection in
  mkUsage (buildsThisMonth u) (getRemainingBuilds env u)
          totalBuilds completedBuilds failedBuilds activeBuilds.

End UserRoutes.

(* ===================================================================== *)
(** * middleware/errorHandler.js                                           *)
(* ===================================================================== *)

Module ErrorHandler.
Import JS BuildModel.

(** [err.code]: absent, a number (the database driver's) or a string (the
    upload middleware's). *)
Inductive ErrCode := noCode | numCode (n : Z) | strCode (s : jsstring).

(** The properties of an error that [errorHandler] reads: [err_keyValue]
    holds the keys of [err.keyValue] and [err_errors] the messages of the
    values of [err.errors]; [None] is [undefined]. *)
Record Err := mkErr {
  err_name : jsstring;
  err_message : jsstring;
  err_statusCode : option Z;
  err_code : ErrCode;
  err_keyValue : option (list jsstring);
  err_errors : option (list jsstring)
}.

(** [new AppError(message, statusCode)]: an [Error], whose name is Error. *)
Definition AppError (message : jsstring) (statusCode : Z) : Err :=
  mkErr (js "Error") message (Some statusCode) noCode None None.

(** [Array.prototype.join] *)
Definition join (sep : jsstring) (l : list jsstring) : jsstring :=
  match l with
  | [] => []
  | x :: rest => x ++ flat_map (fun y => sep ++ y) rest
  end.

Record Response := mkResponse {
  res_status : Z;
  res_message : jsstring
}.

Definition hasName (err : Err) (n : string) : bool := units_eqb (err_name err) (js n).

Definition hasCode (err : Err) (c : string) : bool :=
  match err_code err with
  | strCode s => units_eqb s (js c)
  | _ => false
  end.

Definition isDuplicateKey (err : Err) : bool :=
  match err_code err with
  | numCode n => (n =? 11000)%Z
  | _ => false
  end.

(** [errorHandler]: the status and the message of the response; [None] when
    the handler itself throws a TypeError ([Object.keys] or [Object.values]
    of [undefined]).  The [error] variable is the pair of its message and
    its status code. *)
Definition errorHandler (err : Err) : option Response :=
  let error :=
    (err_message err,
     match err_statusCode err with
     | Some c => if (c =? 0)%Z then 500%Z else c
     | None => 500%Z
     end) in
  let error := if hasName err "CastError" then (js "Resource not found", 404%Z) else error in
  error ← (if isDuplicateKey err
           then match err_keyValue err with
                | None => None
                | Some keys =>
                    let field := match keys with k :: _ => k | [] => js "undefined" end in
                    Some (field ++ js " already exists", 400%Z)
                end
           else Some error);
  error ← (if hasName err "ValidationError"
           then match err_errors err with
                | None => None
                | Some errors => Some (join (js ", ") errors, 400%Z)
                end
           else Some error);
  let error := if hasName err "JsonWebTokenError" then (js "Invalid token", 401%Z) else error in
  let error := if hasName err "TokenExpiredError" then (js "Token expired", 401%Z) else error in
  let error :=
    if hasName err "MulterError"
    then if hasCode err "LIMIT_FILE_SIZE" then (js "File too large", 400%Z)
         else if hasCode err "LIMIT_UNEXPECTED_FILE" then (js "Unexpected file field", 400%Z)
         else (err_message err, 400%Z)
    else error in
  Some (mkResponse (if (snd error =? 0)%Z then 500%Z else snd error)
                   (match fst error with [] => js "Server Error" | m => m end)).

End ErrorHandler.

(* ===================================================================== *)
(** * What the properties speak of                                         *)
(* ===================================================================== *)

Module Observations.
Import JS BuildService BuildModel Toolchain Controller Worker WorkerSpec UserModel BuildRecords
       Handlers ErrorHandler.

(** The five characters [escapeXml] replaces. *)
Definition isXmlSpecial (c : N) : bool :=
  ((c =? 38) || (c =? 60) || (c =? 62) || (c =? 34) || (c =? 39))%N.

(** A letter or a digit. *)
Definition isAlnum (c : N) : bool := isLower c || isUpper c || isDigit c.

(** A digit or a minus sign. *)
Definition isDecimalUnit (c : N) : bool := isDigit c || (c =? 45)%N.

(** A segment of a package name: a lower-case letter, then lower-case
    letters, digits and underscores. *)
Definition isSegmentUnit (c : N) : bool := isLower c || isDigit c || (c =? 95)%N.

Definition isSegment (s : jsstring) : bool :=
  match s with
  | c :: r => isLower c && forallb isSegmentUnit r
  | [] => false
  end.

(** Segments joined by dots. *)
Fixpoint joinDots (segments : list jsstring) : jsstring :=
  match segments with
  | [] => []
  | [x] => x
  | x :: rest => x ++ 46%N :: joinDots rest
  end.

(** Whether the month of the user's counter is the month [m] of the year
    [y]. *)
Definition counterIn (calendar : Calendar) (m y : Z) (u : User) : bool :=
  (getMonth calendar (monthResetDate u) =? m)%Z
  && (getFullYear calendar (monthResetDate u) =? y)%Z.

(** The builds a user has left in the month [m] of the year [y]. *)
Definition budget (env : gmap string (list N)) (calendar : Calendar) (m y : Z) (u : User) : Z :=
  if counterIn calendar m y u then Z.max 0 (maxBuilds env u - buildsThisMonth u)
  else Z.max 0 (maxBuilds env u).

(** The days an artifact is kept, as [markCompleted] reads them. *)
Definition retentionDays (env : gmap string (list N)) (premium : bool) : Z :=
  if premium then parseIntOr (env !! "APK_RETENTION_DAYS_PRO"%string) 365
  else parseIntOr (env !! "APK_RETENTION_DAYS_FREE"%string) 1.

(** The checks of [downloadAPK]: the build is the user's, completed, and not
    expired. *)
Definition downloadable (reqUser : jsstring) (now : Z) (b : Stored) : bool :=
  units_eqb (user (core b)) reqUser
  && Status_eqb (status (core b)) completed
  && negb (isExpired now b).

(** The query parameter of the page after [i] pages: its number in
    decimal. *)
Definition decimalPage (i : nat) : option jsstring :=
  Some (BuildPatches.numberToString (Z.of_nat (S i))).

(** The builds on the page that the query [queryPage i] asks for. *)
Definition pageOf (reqUser : jsstring) (now : Z) (collection : list Stored)
    (queryLimit : option jsstring) (queryPage : nat -> option jsstring) (i : nat)
    : list ListedBuild :=
  match getUserBuilds reqUser now (queryPage i) queryLimit collection with
  | Some l => builds l
  | None => []
  end.

(** What [cleanupExpired] has done to one build, given the disk before and
    after the sweep: a build the filter does not select is left alone; one
    it selects is marked deleted and has no artifact on the disk any more,
    or is left as it is because its artifact could not be removed (it was
    not there, or it was protected). *)
Definition swept (now : Z) (disk disk' : Disk) (b b' : Stored) : Prop :=
  if sweepable now b
  then (b' = setIsDeleted true b
        /\ forall c p, output_apkPath (core b) = Some (c :: p) -> (c :: p) ∉ files disk')
       \/ (b' = b
           /\ exists c p, output_apkPath (core b) = Some (c :: p)
                          /\ ((c :: p) ∉ files disk' \/ (c :: p) ∈ undeletable disk))
  else b' = b.

(** Every file or process operation of the list went through. *)
Definition passed (w : World) (l : list IoStage) (s : WState) : Prop :=
  Forall (fun st => io w st = None) l.

(** The paths that a progress update and a cancel request assign. *)
Definition isStepPath (p : Path) : bool :=
  match p with
  | p_status | p_progress | p_currentStep => true
  | _ => false
  end.

(** The paths that are written while a job runs: those of a progress update
    and a cancel request, and the job id and the start time, which
    [createBuild] saves once the job is in the queue. *)
Definition isLivePath (p : Path) : bool :=
  match p with
  | p_status | p_progress | p_currentStep | p_jobId | p_buildTime_startedAt => true
  | _ => false
  end.

(** A record apart from its status, progress, step, job id and start
    time. *)
Definition beyondLive (b : Build) : Build := putPath p_progress 0%Z (beyondUser b).

(** The start times that [createBuild] saves in the course of a user
    action. *)
Fixpoint startTimes (a : UserAction) : list (option Z) :=
  match a with
  | userCreateSave _ startedAt => [Some startedAt]
  | userThen first next => startTimes first ++ startTimes next
  | _ => []
  end.

(** The start times a record can hold while a job runs on the state [s]:
    the one it has, and those the schedule saves. *)
Definition startTimesFrom (b : Build) (s : WState) : list (option Z) :=
  buildTime_startedAt b :: flat_map startTimes (schedule s).

(** The record [b] with the start time [started]. *)
Definition startedWith (started : option Z) (b : Build) : Build :=
  putPath p_buildTime_startedAt started b.

(** The stored record is the record [b], apart from status, progress, step,
    job id and start time; its start time is one of [starts], and so are
    those the schedule will save. *)
Definition Kept (starts : list (option Z)) (b : Build) (s : WState) : Prop :=
  incl (flat_map startTimes (schedule s)) starts
  /\ exists b0, store s = Some b0 /\ beyondLive b0 = beyondLive b
                /\ In (buildTime_startedAt b0) starts.

(** Moreover the handler holds a document of which the same is true, with
    the start time [started], and on which nothing but status, progress and
    step was assigned since it was loaded or saved. *)
Definition Synced (starts : list (option Z)) (b : Build) (started : option Z) (s : WState)
    : Prop :=
  Kept starts b s
  /\ exists d, doc s = Some d /\ forallb isStepPath (modified d) = true
               /\ beyondLive (fields d) = beyondLive b
               /\ buildTime_startedAt (fields d) = started.

(** The document [d] and the record [b0] hold the same at every path that
    was not assigned on [d], the paths written while a job runs apart, and
    neither the job id nor the start time was assigned on [d]. *)
Definition Agree (d : Doc) (b0 : Build) : Prop :=
  (forall q, isLivePath q = false -> isModified q d = false ->
             getPath q (fields d) = getPath q b0)
  /\ isModified p_jobId d = false
  /\ isModified p_buildTime_startedAt d = false
  /\ user (fields d) = user b0
  /\ isPremium (fields d) = isPremium b0.

(** A computation that touches neither the stored record, nor the handler's
    document, nor the schedule. *)
Definition quiet {A} (m : M A) : Prop :=
  forall s, doc (snd (m s)) = doc s /\ store (snd (m s)) = store s
            /\ schedule (snd (m s)) = schedule s.

(** An error that a handler passes to [next] reaches the client with its
    status and its message, and the status is one of those listed. *)
Definition delivered {A} (statuses : list Z) (a : Answer A) : Prop :=
  match a with
  | appError c msg =>
      errorHandler (AppError msg c) = Some (mkResponse c msg) /\ In c statuses
  | _ => True
  end.

End Observations.

(* ===================================================================== *)
(** * More sample inputs                                                   *)
(* ===================================================================== *)

Module Fixtures.
Import JS BuildService BuildModel UserModel BuildRecords Handlers Samples.

(** A calendar of months of thirty days, twelve to the year. *)
Definition thirtyDays : Calendar :=
  mkCalendar (fun t => (t / 2592000000) mod 12)%Z (fun t => 1970 + t / 31104000000)%Z.

(** A user on the free plan who has not built yet. *)
Definition newUser : User := mkUser free 0 0 None 0.

(** Four requests in the first month, each of which would go through. *)
Definition fourRequests : list (Z * option Z) :=
  [ (1000, Some 1100); (2000, Some 2100); (3000, Some 3100); (4000, Some 4100) ]%Z.


(** A build file of the usual shape (the one of the template is not part of
    the sources at hand), cut at its three settings. *)
Definition gradleHead : jsstring :=
  unlines [ js "android {"; js "    defaultConfig {" ] ++ js "        ".

Definition gradleIndent : jsstring := [nl] ++ js "        ".

Definition gradleTail : jsstring := [nl] ++ unlines [ js "    }"; js "}" ].

Definition sampleGradle : jsstring :=
  gradleHead ++ (js "applicationId " ++ [dq] ++ js "com.web2apk.template" ++ [dq])
  ++ gradleIndent ++ js "versionCode 1"
  ++ gradleIndent ++ (js "versionName " ++ [dq] ++ js "1.0" ++ [dq])
  ++ gradleTail.

(** A colour resource file of the usual shape. *)
Definition colorsHead : jsstring := unlines [ js "<resources>" ] ++ js "    ".
Definition colorsTail : jsstring := [nl] ++ unlines [ js "</resources>" ].

Definition sampleColors : jsstring :=
  colorsHead ++ (BuildPatches.colorOpen ++ js "#FFFFFF" ++ BuildPatches.colorClose) ++ colorsTail.

(** The build of [freshBuild], completed at the time 5000 with its artifact
    in the output directory, and a disk that holds the artifact. *)
Definition artifactPath : jsstring := js "/app/builds/b1.apk".

Definition completedBuild : Stored :=
  {| core := fields (markCompleted_assign ∅ 5000 artifactPath 4096 (js "/downloads/b1.apk")
                                          None (hydrate freshBuild));
     buildId := js "b1";
     appConfig := demoConfig;
     isDeleted := false;
     stats_downloadCount := 0;
     stats_lastDownloadAt := None;
     createdAt := 900 |}.

Definition sampleDisk : Disk := mkDisk {[ artifactPath ]} ∅.

(** Three builds of the user u1, one of them deleted, and one of another
    user. *)
Definition storedAt (id : string) (owner : string) (deleted : bool) (created : Z) : Stored :=
  {| core := mkBuild (js owner) queued 0 (js "Initializing...") None None None None
                     (Some created) None None None None None (Some (js id)) None false;
     buildId := js id;
     appConfig := demoConfig;
     isDeleted := deleted;
     stats_downloadCount := 0;
     stats_lastDownloadAt := None;
     createdAt := created |}.

Definition sampleCollection : list Stored :=
  [ storedAt "b1" "u1" false 100; storedAt "b2" "u2" false 200;
    storedAt "b3" "u1" true 300; storedAt "b4" "u1" false 400;
    storedAt "b5" "u1" false 500 ].

End Fixtures.

(* ===================================================================== *)
(** * Properties: JavaScript strings                                       *)
(* ===================================================================== *)

Module JSFacts.
Import JS.

#[local] Arguments N.eqb : simpl never.

Lemma noDollar_app a b : noDollar (a ++ b) = noDollar a && noDollar b.
Proof. unfold noDollar. apply forallb_app. Qed.

(** A replacement text without a dollar is inserted as it is. *)
Lemma expand_noDollar repl pre x post :
  noDollar repl = true -> expand repl pre x post = repl.
Proof.
  induction repl as [|c r IH]; intros H; [reflexivity|].
  simpl in H. apply andb_true_iff in H as [Hc Hr].
  simpl. destruct (c =? dollar)%N; [discriminate|].
  f_equal. auto.
Qed.

Lemma replaceAllUnit_noDollar c repl pre s :
  noDollar repl = true ->
  replaceAllUnit c repl pre s = flat_map (fun x => if (x =? c)%N then repl else [x]) s.
Proof.
  intros H. revert pre. induction s as [|x s IH]; intros pre; [reflexivity|].
  simpl. destruct (x =? c)%N.
  - rewrite expand_noDollar by assumption. f_equal. apply IH.
  - simpl. f_equal. apply IH.
Qed.


(** ** Matchers return a split of their input *)

Lemma startsWith_app p s r : startsWith p s = Some r -> s = p ++ r.
Proof.
  revert s. induction p as [|a p IH]; intros s H.
  - simpl in H. injection H as ->. reflexivity.
  - destruct s as [|b s]; [discriminate|]. simpl in H.
    destruct (N.eqb_spec a b); [|discriminate]. subst. simpl. f_equal. auto.
Qed.

Lemma startsWith_refl p r : startsWith p (p ++ r) = Some r.
Proof.
  induction p as [|a p IH]; [reflexivity|]. simpl. rewrite N.eqb_refl. exact IH.
Qed.

Lemma span_app f s : fst (span f s) ++ snd (span f s) = s.
Proof.
  induction s as [|c s IH]; [reflexivity|]. simpl.
  destruct (f c); [|reflexivity].
  destruct (span f s) as [a b]. simpl in *. congruence.
Qed.


Lemma splitLast_app p s x r : splitLast p s = Some (x, r) -> s = x ++ r.
Proof.
  revert x r. induction s as [|c s IH]; intros x r H.
  - simpl in H. destruct p; [|discriminate]. injection H as <- <-. reflexivity.
  - simpl in H. destruct (splitLast p s) as [[a b]|].
    + injection H as <- <-. simpl. f_equal. auto.
    + destruct (startsWith p (c :: s)) as [r'|] eqn:E; [|discriminate].
      injection H as <- <-. apply startsWith_app. exact E.
Qed.

Lemma lit_splits p : splits (lit p).
Proof.
  intros s x r H. unfold lit in H.
  destruct (startsWith p s) as [r'|] eqn:E; [|discriminate].
  injection H as <- <-. apply startsWith_app. exact E.
Qed.

Lemma seqm_splits m1 m2 : splits m1 -> splits m2 -> splits (seqm m1 m2).
Proof.
  intros H1 H2 s x r H. unfold seqm in H.
  destruct (m1 s) as [[a ra]|] eqn:E1; [|discriminate].
  destruct (m2 ra) as [[b rb]|] eqn:E2; [|discriminate].
  injection H as <- <-. rewrite (H1 _ _ _ E1), (H2 _ _ _ E2), app_assoc. reflexivity.
Qed.

Lemma wordPlus_splits : splits wordPlus.
Proof.
  intros s x r H. unfold wordPlus in H.
  pose proof (span_app isWord s) as Hs.
  destruct (span isWord s) as [[|w ws] b]; [discriminate|].
  injection H as <- <-. symmetry. exact Hs.
Qed.

Lemma dotPlus_splits : splits dotPlus.
Proof.
  intros s x r H. unfold dotPlus in H.
  pose proof (span_app isDot s) as Hs.
  destruct (span isDot s) as [[|w ws] b]; [discriminate|].
  injection H as <- <-. symmetry. exact Hs.
Qed.

Lemma notUnitStarThen_splits c : splits (notUnitStarThen c).
Proof.
  intros s x r H. unfold notUnitStarThen in H.
  pose proof (span_app (fun x => negb (x =? c)%N) s) as Hs.
  destruct (span (fun x => negb (x =? c)%N) s) as [w [|y b]]; [discriminate|].
  injection H as <- <-. simpl in Hs. rewrite <- app_assoc. symmetry. exact Hs.
Qed.

Lemma dotStarThen_splits p : splits (dotStarThen p).
Proof.
  intros s x r H. unfold dotStarThen in H.
  pose proof (span_app isDot s) as Hs.
  destruct (span isDot s) as [line b].
  destruct (splitLast p line) as [[a l2]|] eqn:E; [|discriminate].
  injection H as <- <-. apply splitLast_app in E. simpl in Hs.
  rewrite app_assoc, <- E. symmetry. exact Hs.
Qed.

(** ** The leftmost match *)

Lemma search_splits m s p x r :
  splits m -> search m s = Some (p, x, r) -> s = p ++ x ++ r /\ m (x ++ r) = Some (x, r).
Proof.
  intros Hm. revert p. induction s as [|c s IH]; intros p H; simpl in H.
  - destruct (m []) as [[a b]|] eqn:E; [|discriminate].
    injection H as <- <- <-. pose proof (Hm _ _ _ E) as Hs. simpl.
    rewrite <- Hs. auto.
  - destruct (m (c :: s)) as [[a b]|] eqn:E.
    + injection H as <- <- <-. pose proof (Hm _ _ _ E) as Hs. simpl.
      rewrite <- Hs. auto.
    + destruct (search m s) as [[[p' x'] r']|] eqn:E'; [|discriminate].
      injection H as <- <- <-. destruct (IH _ eq_refl) as [-> Hx]. auto.
Qed.

(** A replacement without a dollar takes the place of the leftmost match. *)
Lemma replace_found m repl s p x r :
  search m s = Some (p, x, r) -> noDollar repl = true ->
  replace m repl s = p ++ repl ++ r.
Proof.
  intros H Hd. unfold replace. rewrite H, expand_noDollar by assumption. reflexivity.
Qed.

Lemma replace_none m repl s : search m s = None -> replace m repl s = s.
Proof. intros H. unfold replace. rewrite H. reflexivity. Qed.



Lemma search_skip m u rest :
  skippable m u rest = true -> search m (u ++ rest) = prepend u (search m rest).
Proof.
  induction u as [|c u IH]; intros H.
  - simpl. destruct (search m rest) as [[[p x] r]|]; reflexivity.
  - simpl in H. change ((c :: u) ++ rest) with (c :: (u ++ rest)) in *.
    cbn [search]. destruct (m (c :: u ++ rest)); [discriminate|].
    rewrite (IH H). destruct (search m rest) as [[[p x] r]|]; reflexivity.
Qed.

(** A text [u] in which a unit [c0] of the literal [p] does not occur, and
    which is followed by a unit that does not occur in [p], contains no
    start of a match of [p]. *)
Lemma startsWith_absent p c0 u rest :
  occurs c0 p = true -> occurs c0 u = false ->
  match rest with [] => True | r0 :: _ => occurs r0 p = false end ->
  u <> [] -> startsWith p (u ++ rest) = None.
Proof.
  revert u. induction p as [|a p IH]; intros u Hp Hu Hr Hne; [discriminate|].
  destruct u as [|b u]; [congruence|]. simpl.
  destruct (N.eqb_spec a b) as [->|]; [|reflexivity].
  unfold occurs in Hp, Hu. simpl in Hp, Hu.
  apply orb_false_iff in Hu as [Hb Hu]. rewrite Hb in Hp. simpl in Hp.
  destruct u as [|b' u].
  - simpl. destruct p as [|a' p]; [discriminate|].
    destruct rest as [|r0 rest]; [reflexivity|].
    unfold occurs in Hr. simpl in Hr.
    apply orb_false_iff in Hr as [_ Hr]. apply orb_false_iff in Hr as [Hr _].
    simpl. rewrite N.eqb_sym, Hr. reflexivity.
  - apply IH; [exact Hp | exact Hu | | discriminate].
    destruct rest as [|r0 rest]; [exact I|].
    unfold occurs in Hr. simpl in Hr. apply orb_false_iff in Hr as [_ Hr]. exact Hr.
Qed.

Lemma skippable_absent p tail c0 u rest :
  occurs c0 p = true -> occurs c0 u = false ->
  match rest with [] => True | r0 :: _ => occurs r0 p = false end ->
  skippable (seqm (lit p) tail) u rest = true.
Proof.
  intros Hp Hu Hr. induction u as [|b u IH]; [reflexivity|].
  cbn [skippable]. unfold seqm at 1, lit at 1.
  rewrite (startsWith_absent p c0 (b :: u) rest Hp Hu Hr) by discriminate.
  apply IH. unfold occurs in Hu. simpl in Hu. apply orb_false_iff in Hu as [_ Hu]. exact Hu.
Qed.

Lemma skippable_absent_lit p c0 u rest :
  occurs c0 p = true -> occurs c0 u = false ->
  match rest with [] => True | r0 :: _ => occurs r0 p = false end ->
  skippable (lit p) u rest = true.
Proof.
  intros Hp Hu Hr. induction u as [|b u IH]; [reflexivity|].
  cbn [skippable]. unfold lit at 1.
  rewrite (startsWith_absent p c0 (b :: u) rest Hp Hu Hr) by discriminate.
  apply IH. unfold occurs in Hu. simpl in Hu. apply orb_false_iff in Hu as [_ Hu]. exact Hu.
Qed.

(** A replacement without a dollar, behind a text no match starts in. *)
Lemma replace_skip m repl u rest :
  skippable m u rest = true -> noDollar repl = true ->
  replace m repl (u ++ rest) = u ++ replace m repl rest.
Proof.
  intros Hs Hd. unfold replace. rewrite (search_skip _ _ _ Hs).
  destruct (search m rest) as [[[p x] r]|]; simpl; [|reflexivity].
  rewrite !expand_noDollar by assumption. rewrite <- app_assoc. reflexivity.
Qed.

Lemma replace_skip_found m repl u rest p x r :
  skippable m u rest = true -> search m rest = Some (p, x, r) -> noDollar repl = true ->
  replace m repl (u ++ rest) = u ++ p ++ repl ++ r.
Proof.
  intros Hs Hf Hd. rewrite replace_skip by assumption.
  rewrite (replace_found _ _ _ _ _ _ Hf Hd). reflexivity.
Qed.

Lemma unlines_app a b : unlines (a ++ b) = unlines a ++ unlines b.
Proof. apply flat_map_app. Qed.

End JSFacts.

(* ===================================================================== *)
(** * Properties: the project materializer                                 *)
(* ===================================================================== *)

Module BuildServiceFacts.
Import JS JSFacts BuildService.

#[local] Arguments N.eqb : simpl never.
#[local] Arguments N.leb : simpl never.

(** ** Package names *)


Lemma pkgScan_units a d s : pkgScan a d s = true -> forallb isPackageUnit s = true.
Proof.
  revert a d. induction s as [|c s IH]; intros a d H; [reflexivity|].
  simpl in H. simpl. unfold isPackageUnit at 1.
  destruct a.
  - apply andb_true_iff in H as [Hc H]. rewrite Hc. simpl. eauto.
  - destruct (c =? 46)%N.
    + rewrite !orb_true_r. simpl. eauto.
    + apply andb_true_iff in H as [Hc H].
      apply orb_true_iff in Hc as [Hc|Hc].
      * rewrite Hc. simpl. eauto.
      * rewrite Hc, !orb_true_r. simpl. eauto.
Qed.

Ltac unit_class :=
  unfold isPackageUnit, isWord, isLower, isUpper, isDigit, dollar, dq, nl in *;
  repeat match goal with
  | H : _ && _ = true |- _ => apply andb_true_iff in H as [? ?]
  | H : _ || _ = true |- _ => apply orb_true_iff in H as [?|?]
  | H : (_ <=? _)%N = true |- _ => apply N.leb_le in H
  | H : (_ =? _)%N = true |- _ => apply N.eqb_eq in H
  end.

Lemma packageUnit_not c c0 :
  isPackageUnit c = true -> isPackageUnit c0 = false -> (c0 =? c)%N = false.
Proof.
  intros H H0. destruct (N.eqb_spec c0 c) as [->|]; [congruence|reflexivity].
Qed.

Lemma packageUnits_absent c0 s :
  forallb isPackageUnit s = true -> isPackageUnit c0 = false -> occurs c0 s = false.
Proof.
  intros H H0. induction s as [|c s IH]; [reflexivity|].
  simpl in H. apply andb_true_iff in H as [Hc H].
  unfold occurs. simpl. rewrite (packageUnit_not c c0 Hc H0). simpl. apply IH. exact H.
Qed.

Lemma occurs_noDollar s : occurs dollar s = false -> noDollar s = true.
Proof.
  induction s as [|c s IH]; intros H; [reflexivity|].
  unfold occurs in H. simpl in H. apply orb_false_iff in H as [Hc H].
  simpl. rewrite N.eqb_sym, Hc. simpl. apply IH. exact H.
Qed.


Lemma validPackageName_units s :
  validPackageName s = true -> forallb isPackageUnit s = true.
Proof. apply pkgScan_units. Qed.

Lemma validPackageName_noDollar s : validPackageName s = true -> noDollar s = true.
Proof.
  intros H. apply occurs_noDollar.
  apply packageUnits_absent; [apply validPackageName_units; exact H | reflexivity].
Qed.

(** ** escapeXml: every unit is escaped on its own, and once *)

Lemma escape_chain_unit c :
  flat_map (fun x => if (x =? 39)%N then js "&apos;" else [x])
   (flat_map (fun x => if (x =? 34)%N then js "&quot;" else [x])
    (flat_map (fun x => if (x =? 62)%N then js "&gt;" else [x])
     (flat_map (fun x => if (x =? 60)%N then js "&lt;" else [x])
      (if (c =? 38)%N then js "&amp;" else [c]))))
  = escapeUnit c.
Proof.
  unfold escapeUnit.
  destruct (N.eqb_spec c 38) as [->|H38]; [reflexivity|].
  cbn [flat_map app].
  destruct (N.eqb_spec c 60) as [->|H60]; [reflexivity|].
  cbn [flat_map app].
  destruct (N.eqb_spec c 62) as [->|H62]; [reflexivity|].
  cbn [flat_map app].
  destruct (N.eqb_spec c 34) as [->|H34]; [reflexivity|].
  cbn [flat_map app].
  destruct (N.eqb_spec c 39) as [->|H39]; reflexivity.
Qed.

(** [escapeXml] maps the five special characters to their entities and
    leaves every other unit alone: the ampersands it writes itself are not
    escaped again. *)
Lemma escapeXml_pointwise str : escapeXml str = flat_map escapeUnit str.
Proof.
  unfold escapeXml. rewrite !replaceAllUnit_noDollar by reflexivity.
  induction str as [|c str IH]; [reflexivity|].
  cbn [flat_map]. rewrite !flat_map_app, IH, escape_chain_unit. reflexivity.
Qed.

Lemma escapeXml_app a b : escapeXml (a ++ b) = escapeXml a ++ escapeXml b.
Proof. rewrite !escapeXml_pointwise. apply flat_map_app. Qed.

Lemma escapeUnit_noDollar c : (c =? dollar)%N = false -> noDollar (escapeUnit c) = true.
Proof.
  intros H. unfold escapeUnit.
  repeat match goal with |- context [if ?b then _ else _] => destruct b; [reflexivity|] end.
  simpl. rewrite H. reflexivity.
Qed.

Lemma escapeXml_noDollar str : noDollar str = true -> noDollar (escapeXml str) = true.
Proof.
  rewrite escapeXml_pointwise. induction str as [|c str IH]; intros H; [reflexivity|].
  simpl in H. apply andb_true_iff in H as [Hc H].
  cbn [flat_map]. rewrite noDollar_app, IH by assumption.
  rewrite escapeUnit_noDollar; [reflexivity|]. destruct (c =? dollar)%N; [discriminate|reflexivity].
Qed.

(** ** updateStringsXml *)

(** For an app name without a dollar sign the resource takes the escaped
    name as its value. *)
Lemma updateStringsXml_plain strings cfg p x r :
  search reAppName strings = Some (p, x, r) ->
  noDollar (appName cfg) = true ->
  updateStringsXml strings cfg
  = p ++ appNameOpen ++ flat_map escapeUnit (appName cfg) ++ appNameClose ++ r.
Proof.
  intros Hs Hd. unfold updateStringsXml.
  rewrite (replace_found _ _ _ _ _ _ Hs).
  - rewrite escapeXml_pointwise, <- !app_assoc. reflexivity.
  - rewrite !noDollar_app, escapeXml_noDollar by assumption. reflexivity.
Qed.

(** ** updateAndroidManifest *)




End BuildServiceFacts.

(* ===================================================================== *)
(** * Properties: the activity source                                      *)
(* ===================================================================== *)

Module ActivityFacts.
Import JS JSFacts BuildService BuildServiceFacts Template.

#[local] Arguments N.eqb : simpl never.


Lemma activityHead_cut package url f1 f2 f3 f4 f5 rest :
  activityHead package url f1 f2 f3 f4 f5 ++ rest
  = js "package " ++ package ++ nl :: headToUrl ++ url
      ++ dq :: nl :: headFlags f1 f2 f3 f4 f5 ++ rest.
Proof.
  unfold activityHead, headToUrl, headFlags, activityConfig.
  rewrite !unlines_app. unfold unlines at 1 3 4. cbn [flat_map].
  rewrite <- !app_assoc. cbn [app]. rewrite <- ?app_assoc. reflexivity.
Qed.

Lemma headToUrl_cut : headToUrl = headPre ++ websiteUrlConst.
Proof. unfold headToUrl, headPre, websiteUrlConst. rewrite <- !app_assoc. reflexivity. Qed.

Lemma replace_skip_cons m repl c u rest :
  skippable m (c :: u) rest = true -> noDollar repl = true ->
  replace m repl (c :: u ++ rest) = c :: u ++ replace m repl rest.
Proof. intros Hs Hd. apply (replace_skip m repl (c :: u) rest Hs Hd). Qed.

(** No match of a pattern that begins with a literal holding a unit foreign
    to package names starts inside a valid package name. *)
Lemma skip_package_name (p : jsstring) tail pkg r0 rest :
  validPackageName pkg = true ->
  existsb (fun c => negb (isPackageUnit c) && occurs c p) p = true ->
  occurs r0 p = false ->
  skippable (seqm (lit p) tail) pkg (r0 :: rest) = true.
Proof.
  intros Hv Hp Hr. apply existsb_exists in Hp as (c0 & Hin & Hc).
  apply andb_true_iff in Hc as [Hc Ho]. apply negb_true_iff in Hc.
  apply (skippable_absent p tail c0); [exact Ho| |exact Hr].
  apply packageUnits_absent; [apply validPackageName_units; exact Hv | exact Hc].
Qed.

(** Nor inside a URL without a space, when the literal holds one. *)
Lemma skip_url (p : jsstring) tail url rest :
  occurs 32 url = false ->
  occurs 32 p = true -> occurs dq p = false ->
  skippable (seqm (lit p) tail) url (dq :: rest) = true.
Proof. intros Hu Hp Hq. apply (skippable_absent p tail 32); assumption. Qed.

(** *** The steps of [updateMainActivity] on the template, one by one *)

Lemma step_package pkg T :
  noDollar pkg = true ->
  replaceAtStart reActivityPackage (js "package " ++ pkg)
    (js "package " ++ js "com.web2apk.template" ++ nl :: T)
  = js "package " ++ pkg ++ nl :: T.
Proof.
  intros Hd. unfold replaceAtStart.
  assert (reActivityPackage (js "package " ++ js "com.web2apk.template" ++ nl :: T)
          = Some (js "package com.web2apk.template", nl :: T)) as -> by (vm_compute; reflexivity).
  rewrite expand_noDollar.
  - rewrite <- app_assoc. reflexivity.
  - rewrite noDollar_app, Hd. reflexivity.
Qed.

Lemma step_url pkg url T :
  validPackageName pkg = true -> noDollar url = true ->
  replace reWebsiteUrl (websiteUrlConst ++ url ++ [dq])
    (js "package " ++ pkg ++ nl :: headToUrl ++ js "https://example.com" ++ dq :: nl :: T)
  = js "package " ++ pkg ++ nl :: headToUrl ++ url ++ dq :: nl :: T.
Proof.
  intros Hv Hd.
  assert (noDollar (websiteUrlConst ++ url ++ [dq]) = true) as Hr
    by (rewrite !noDollar_app, Hd; reflexivity).
  rewrite replace_skip; [|vm_compute; reflexivity|exact Hr].
  rewrite replace_skip; [|apply skip_package_name; [exact Hv|reflexivity|reflexivity]|exact Hr].
  rewrite headToUrl_cut.
  rewrite (replace_found _ _ _ (nl :: headPre)
             (websiteUrlConst ++ js "https://example.com" ++ [dq]) (nl :: T)); [| |exact Hr].
  - rewrite <- !app_assoc. reflexivity.
  - vm_compute. reflexivity.
Qed.

Ltac flag_step Hv Hu :=
  unfold setFlag, reFlag;
  rewrite !activityHead_cut;
  rewrite replace_skip; [|vm_compute; reflexivity|vm_compute; reflexivity];
  rewrite replace_skip;
    [|apply skip_package_name; [exact Hv|reflexivity|reflexivity]|vm_compute; reflexivity];
  rewrite (replace_skip_cons _ _ nl headToUrl); [|vm_compute; reflexivity|vm_compute; reflexivity];
  rewrite replace_skip; [|apply skip_url; [exact Hu|reflexivity|reflexivity]|vm_compute; reflexivity];
  do 4 f_equal; vm_compute; reflexivity.

Lemma step_flag1 pkg url rest (b1 : bool) :
  validPackageName pkg = true -> occurs 32 url = false ->
  setFlag "ENABLE_PULL_TO_REFRESH" b1
    (activityHead pkg url (js "true") (js "true") (js "true") (js "false") (js "false") ++ rest)
  = activityHead pkg url (boolLit b1) (js "true") (js "true") (js "false") (js "false") ++ rest.
Proof. intros Hv Hu. destruct b1; flag_step Hv Hu. Qed.

Lemma step_flag2 pkg url rest (b1 b2 : bool) :
  validPackageName pkg = true -> occurs 32 url = false ->
  setFlag "ENABLE_PROGRESS_BAR" b2
    (activityHead pkg url (boolLit b1) (js "true") (js "true") (js "false") (js "false") ++ rest)
  = activityHead pkg url (boolLit b1) (boolLit b2) (js "true") (js "false") (js "false") ++ rest.
Proof. intros Hv Hu. destruct b1, b2; flag_step Hv Hu. Qed.

Lemma step_flag3 pkg url rest (b1 b2 b3 : bool) :
  validPackageName pkg = true -> occurs 32 url = false ->
  setFlag "ENABLE_ERROR_PAGE" b3
    (activityHead pkg url (boolLit b1) (boolLit b2) (js "true") (js "false") (js "false") ++ rest)
  = activityHead pkg url (boolLit b1) (boolLit b2) (boolLit b3) (js "false") (js "false") ++ rest.
Proof. intros Hv Hu. destruct b1, b2, b3; flag_step Hv Hu. Qed.

Lemma step_flag4 pkg url rest (b1 b2 b3 b4 : bool) :
  validPackageName pkg = true -> occurs 32 url = false ->
  setFlag "ENABLE_FILE_UPLOAD" b4
    (activityHead pkg url (boolLit b1) (boolLit b2) (boolLit b3) (js "false") (js "false") ++ rest)
  = activityHead pkg url (boolLit b1) (boolLit b2) (boolLit b3) (boolLit b4) (js "false") ++ rest.
Proof. intros Hv Hu. destruct b1, b2, b3, b4; flag_step Hv Hu. Qed.

Lemma step_flag5 pkg url rest (b1 b2 b3 b4 b5 : bool) :
  validPackageName pkg = true -> occurs 32 url = false ->
  setFlag "ENABLE_DEEP_LINKING" b5
    (activityHead pkg url (boolLit b1) (boolLit b2) (boolLit b3) (boolLit b4) (js "false") ++ rest)
  = activityHead pkg url (boolLit b1) (boolLit b2) (boolLit b3) (boolLit b4) (boolLit b5) ++ rest.
Proof. intros Hv Hu. destruct b1, b2, b3, b4, b5; flag_step Hv Hu. Qed.

(** The placeholder is not found in the patched head: the search goes on in
    what follows it. *)
Lemma step_watermark pkg url rest (b1 b2 b3 b4 b5 : bool) :
  validPackageName pkg = true -> occurs 32 url = false ->
  replace (lit watermarkPlaceholder) watermarkCode
    (activityHead pkg url (boolLit b1) (boolLit b2) (boolLit b3) (boolLit b4) (boolLit b5) ++ rest)
  = activityHead pkg url (boolLit b1) (boolLit b2) (boolLit b3) (boolLit b4) (boolLit b5)
    ++ replace (lit watermarkPlaceholder) watermarkCode rest.
Proof.
  intros Hv Hu. rewrite !activityHead_cut.
  destruct b1, b2, b3, b4, b5;
  (rewrite replace_skip; [|vm_compute; reflexivity|vm_compute; reflexivity]);
  (rewrite replace_skip;
     [|apply skippable_absent_lit with (c0 := 87%N);
       [reflexivity
       |apply packageUnits_absent; [apply validPackageName_units; exact Hv|reflexivity]
       |reflexivity]
      |vm_compute; reflexivity]);
  (rewrite (replace_skip_cons _ _ nl headToUrl); [|vm_compute; reflexivity|vm_compute; reflexivity]);
  (rewrite replace_skip;
     [|apply skippable_absent_lit with (c0 := 32%N); [reflexivity|exact Hu|reflexivity]
      |vm_compute; reflexivity]);
  match goal with
  | |- context [replace ?m ?r (dq :: nl :: ?u ++ rest)] =>
      change (dq :: nl :: u ++ rest) with ((dq :: nl :: u) ++ rest);
      rewrite (replace_skip m r (dq :: nl :: u) rest); [|vm_compute; reflexivity|vm_compute; reflexivity]
  end;
  reflexivity.
Qed.

(** The body of the shipped activity source holds no watermark placeholder. *)
Lemma activityBody_no_placeholder :
  search (lit watermarkPlaceholder) activityBody = None.
Proof. vm_compute. reflexivity. Qed.

End ActivityFacts.

(* ===================================================================== *)
(** * The claims about the project materializer                            *)
(* ===================================================================== *)

Module Materializer.
Import JS JSFacts BuildService BuildServiceFacts Template ActivityFacts Samples.

#[local] Arguments N.eqb : simpl never.

(** ** The runtime-configuration patch *)

(** [updateMainActivity] on the activity source of the template, whatever
    follows its first 28 lines. *)
Lemma updateMainActivity_on_template rest cfg features isPremium :
  validPackageName (packageName cfg) = true ->
  occurs dollar (websiteUrl cfg) = false ->
  occurs 32 (websiteUrl cfg) = false ->
  updateMainActivity
    (activityHead (js "com.web2apk.template") (js "https://example.com")
                  (js "true") (js "true") (js "true") (js "false") (js "false") ++ rest)
    cfg features isPremium
  = activityHead (packageName cfg) (websiteUrl cfg)
                 (boolLit (pullToRefresh features)) (boolLit (progressBar features))
                 (boolLit (errorPage features)) (boolLit (fileUpload features))
                 (boolLit (deepLinking features))
    ++ (if isPremium then rest else replace (lit watermarkPlaceholder) watermarkCode rest).
Proof.
  intros Hv Hd Hs. unfold updateMainActivity, flagConstants. cbv zeta. cbn [fold_left fst snd].
  rewrite activityHead_cut.
  rewrite step_package by (apply validPackageName_noDollar; exact Hv).
  rewrite step_url by (first [exact Hv | apply occurs_noDollar; exact Hd]).
  rewrite <- activityHead_cut.
  rewrite step_flag1, step_flag2, step_flag3, step_flag4, step_flag5 by assumption.
  destruct isPremium; cbn [negb]; [reflexivity|].
  apply step_watermark; assumption.
Qed.




(** The activity source shipped with the template has no watermark
    placeholder: a non-premium build gets the same source as a premium
    one. *)
Lemma shipped_template_without_watermark cfg features :
  validPackageName (packageName cfg) = true ->
  occurs dollar (websiteUrl cfg) = false ->
  occurs 32 (websiteUrl cfg) = false ->
  updateMainActivity mainActivityTemplate cfg features false
  = updateMainActivity mainActivityTemplate cfg features true.
Proof.
  intros Hv Hd Hs. unfold mainActivityTemplate.
  rewrite !updateMainActivity_on_template by assumption.
  apply (f_equal (app _)). apply replace_none. exact activityBody_no_placeholder.
Qed.

(** ** The manifest patch *)






End Materializer.

(* ===================================================================== *)
(** * The claims about signing                                             *)
(* ===================================================================== *)

Module Signing.
Import JS Toolchain Worker Samples.

(** C8.  For every artifact path: when one of the four keystore settings
    (path, password, key alias, key password) is missing or empty, [signAPK]
    returns the unsigned path it was given, throws nothing and runs no
    subprocess, and the signing stage of [buildAPK] hands that path on to the
    next stage without an error. *)
Theorem signAPK_unconfigured (w : World) (unsignedApkPath buildId : jsstring) (s : WState) :
  truthy (env w !! "KEYSTORE_PATH"%string) = false
  \/ truthy (env w !! "KEYSTORE_PASSWORD"%string) = false
  \/ truthy (env w !! "KEY_ALIAS"%string) = false
  \/ truthy (env w !! "KEY_PASSWORD"%string) = false ->
  fst (signAPK (env w) (TEMP_DIR w) (execSync w) unsignedApkPath buildId) = Return unsignedApkPath
  /\ existsb isExec (snd (signAPK (env w) (TEMP_DIR w) (execSync w) unsignedApkPath buildId)) = false
  /\ fst (sign w unsignedApkPath buildId s) = Return unsignedApkPath.
Proof.
  intros H.
  assert (keystoreConfigured (env w) = false) as Hk.
  { unfold keystoreConfigured.
    destruct H as [H|[H|[H|H]]]; rewrite H; rewrite ?andb_false_r; reflexivity. }
  unfold sign, signAPK. rewrite Hk. cbn. auto.
Qed.


Lemma signAPK_unconfigured_witness :
  (truthy (env bareWorld !! "KEYSTORE_PATH"%string) = false
   \/ truthy (env bareWorld !! "KEYSTORE_PASSWORD"%string) = false
   \/ truthy (env bareWorld !! "KEY_ALIAS"%string) = false
   \/ truthy (env bareWorld !! "KEY_PASSWORD"%string) = false)
  /\ fst (signAPK (env bareWorld) (TEMP_DIR bareWorld) (execSync bareWorld)
                  (js "/app/temp/b1/app-release-unsigned.apk") (js "b1"))
     = Return (js "/app/temp/b1/app-release-unsigned.apk").
Proof.
  split; [left; reflexivity|].
  exact (proj1 (signAPK_unconfigured bareWorld (js "/app/temp/b1/app-release-unsigned.apk") (js "b1")
                  (mkWState None None [] [] [] [] false [] []) (or_introl eq_refl))).
Defined.

(** C9.  For every call of the signing step with the four keystore settings
    present: when the signing subprocess fails, [signAPK] catches the error,
    logs it and returns the unsigned path it was given; the signing stage of
    [buildAPK] goes on with that path and throws nothing. *)
Theorem signAPK_subprocess_failure (w : World) (unsignedApkPath buildId : jsstring)
    (s : WState) (error : JsError) :
  keystoreConfigured (env w) = true ->
  execSync w (apksignerCommand (env w) (pathJoin (TEMP_DIR w) (buildId ++ js "-signed.apk"))
                               unsignedApkPath) = ExecRaise error ->
  signAPK (env w) (TEMP_DIR w) (execSync w) unsignedApkPath buildId
  = (Return unsignedApkPath,
     [Exec (apksignerCommand (env w) (pathJoin (TEMP_DIR w) (buildId ++ js "-signed.apk"))
                             unsignedApkPath);
      LogError (js "APK signing error: " ++ message error)])
  /\ fst (sign w unsignedApkPath buildId s) = Return unsignedApkPath.
Proof.
  intros Hk He. unfold sign, signAPK. rewrite Hk. cbn [negb]. rewrite He. cbn. auto.
Qed.


Lemma signAPK_subprocess_failure_witness :
  keystoreConfigured (env failingSigner) = true
  /\ fst (signAPK (env failingSigner) (TEMP_DIR failingSigner) (execSync failingSigner)
                  (js "/app/temp/b1/app-release-unsigned.apk") (js "b1"))
     = Return (js "/app/temp/b1/app-release-unsigned.apk").
Proof.
  split; [vm_compute; reflexivity|].
  exact (f_equal fst (proj1 (signAPK_subprocess_failure failingSigner
           (js "/app/temp/b1/app-release-unsigned.apk") (js "b1")
           (mkWState None None [] [] [] [] false [] []) (newError (js "Command failed"))
           eq_refl eq_refl))).
Defined.

End Signing.

(* ===================================================================== *)
(** * Properties: the job handler                                          *)
(* ===================================================================== *)

Module WorkerFacts.
Import JS BuildModel Toolchain Controller Worker WorkerSpec.

(** ** Rules for the monad *)

Section Rules.
Context {A B : Type}.

Lemma triple_ret (a : A) (Q : A -> WState -> Prop) E : triple (Q a) (mret a) Q E.
Proof. intros s H. exact H. Qed.

Lemma triple_throw (e : JsError) (Q : A -> WState -> Prop) (E : JsError -> WState -> Prop) :
  triple (E e) (throw e) Q E.
Proof. intros s H. exact H. Qed.

Lemma triple_bind P (m : M A) (k : A -> M B) R Q E :
  triple P m R E -> (forall a, triple (R a) (k a) Q E) -> triple P (m ≫= k) Q E.
Proof.
  intros Hm Hk s HP. specialize (Hm s HP). unfold mbind, M_bind.
  destruct (m s) as [[a|e] s']; [apply Hk; exact Hm | exact Hm].
Qed.

Lemma triple_tryCatch P (body : M A) handler (Q : A -> WState -> Prop) E' E :
  triple P body Q E' -> (forall e, triple (E' e) (handler e) Q E) ->
  triple P (tryCatch body handler) Q E.
Proof.
  intros Hb Hh s HP. specialize (Hb s HP). unfold tryCatch.
  destruct (body s) as [[a|e] s']; [exact Hb | apply Hh; exact Hb].
Qed.

Lemma triple_conseq (P P' : WState -> Prop) (m : M A) (Q Q' : A -> WState -> Prop)
    (E E' : JsError -> WState -> Prop) :
  triple P' m Q' E' -> (forall s, P s -> P' s) -> (forall a s, Q' a s -> Q a s) ->
  (forall e s, E' e s -> E e s) -> triple P m Q E.
Proof.
  intros H HP HQ HE s Hs. specialize (H s (HP s Hs)).
  destruct (m s) as [[a|e] s']; auto.
Qed.

End Rules.

(** Sequencing is associative. *)
Lemma triple_bind_assoc {A B C} P (m1 : M A) (m2 : M B) (k : B -> M C) R Q E :
  triple P (m1 ≫= (fun _ => m2)) R E -> (forall a, triple (R a) (k a) Q E) ->
  triple P (m1 ≫= (fun _ => m2 ≫= k)) Q E.
Proof.
  intros H Hk s HP. specialize (H s HP). unfold mbind, M_bind in *.
  destruct (m1 s) as [[a|e] s1]; [|exact H].
  destruct (m2 s1) as [[b|e] s2]; [apply Hk; exact H|exact H].
Qed.

Lemma triple_modify f (Q : unit -> WState -> Prop) E :
  triple (fun s => Q tt (f s)) (modifyState f) Q E.
Proof. intros s H. exact H. Qed.

Lemma triple_get (Q : WState -> WState -> Prop) E :
  triple (fun s => Q s s) getState Q E.
Proof. intros s H. exact H. Qed.


(** ** Documents *)

Lemma Status_eqb_eq a b : Status_eqb a b = true <-> a = b.
Proof. destruct a, b; simpl; split; intros H; congruence. Qed.

Lemma status_putPath p v b :
  status (putPath p v b) = (match p as q return pathType q -> Status with
                            | p_status => fun v => v
                            | _ => fun _ => status b
                            end) v.
Proof. destruct p; reflexivity. Qed.

Lemma progress_putPath p v b :
  progress (putPath p v b) = (match p as q return pathType q -> Z with
                              | p_progress => fun v => v
                              | _ => fun _ => progress b
                              end) v.
Proof. destruct p; reflexivity. Qed.

Lemma status_writePaths ps src dst :
  status (writePaths ps src dst)
  = if existsb (Path_eqb p_status) ps then status src else status dst.
Proof.
  induction ps as [|p ps IH]; [reflexivity|].
  cbn [writePaths fold_right existsb]. fold (writePaths ps src dst).
  rewrite status_putPath. destruct p; cbn [Path_eqb orb]; try exact IH; reflexivity.
Qed.

Lemma progress_writePaths ps src dst :
  progress (writePaths ps src dst)
  = if existsb (Path_eqb p_progress) ps then progress src else progress dst.
Proof.
  induction ps as [|p ps IH]; [reflexivity|].
  cbn [writePaths fold_right existsb]. fold (writePaths ps src dst).
  rewrite progress_putPath. destruct p; cbn [Path_eqb orb]; try exact IH; reflexivity.
Qed.

Lemma Path_eqb_refl p : Path_eqb p p = true.
Proof. destruct p; reflexivity. Qed.

(** Assigning a status: the document has it afterwards, and the path is
    modified unless the document had it before. *)
Lemma assign_status v d :
  status (fields (assign p_status v d)) = v
  /\ progress (fields (assign p_status v d)) = progress (fields d)
  /\ (isModified p_status (assign p_status v d) = true \/ status (fields d) = v)
  /\ isModified p_progress (assign p_status v d) = isModified p_progress d.
Proof.
  unfold assign. cbn [eqPath getPath].
  destruct (Status_eqb (status (fields d)) v) eqn:E.
  - apply Status_eqb_eq in E. auto.
  - cbn. auto.
Qed.

Lemma assign_progress v d :
  progress (fields (assign p_progress v d)) = v
  /\ status (fields (assign p_progress v d)) = status (fields d)
  /\ isModified p_status (assign p_progress v d) = isModified p_status d
  /\ isModified p_progress (assign p_progress v d)
     = (isModified p_progress d || negb (progress (fields d) =? v)%Z).
Proof.
  unfold assign. cbn [eqPath getPath].
  destruct (Z.eqb_spec (progress (fields d)) v) as [->|Hne].
  - rewrite orb_false_r. auto.
  - repeat split; cbn; rewrite ?orb_true_r; reflexivity.
Qed.

(** Assigning any other path leaves status and progress, and whether they
    are modified, as they are. *)
Lemma assign_other p v d :
  p <> p_status -> p <> p_progress ->
  status (fields (assign p v d)) = status (fields d)
  /\ progress (fields (assign p v d)) = progress (fields d)
  /\ isModified p_status (assign p v d) = isModified p_status d
  /\ isModified p_progress (assign p v d) = isModified p_progress d.
Proof.
  intros H1 H2. unfold assign. destruct (eqPath p (getPath p (fields d)) v); [auto|].
  destruct p; try congruence; cbn; auto.
Qed.


(** ** User actions *)

Lemma beyondUser_putPath p v b :
  match p with
  | p_status | p_currentStep | p_jobId | p_buildTime_startedAt => True
  | _ => False
  end ->
  beyondUser (putPath p v b) = beyondUser b.
Proof. destruct p; intros []; reflexivity. Qed.

Lemma userWrote_refl b : userWrote b b.
Proof. split; [left|]; reflexivity. Qed.

Lemma userWrote_trans b1 b2 b3 : userWrote b1 b2 -> userWrote b2 b3 -> userWrote b1 b3.
Proof.
  intros [H1 E1] [H2 E2]. split; [|congruence].
  destruct H2 as [H2|H2]; [rewrite H2; exact H1|right; exact H2].
Qed.

Lemma userWrote_progress b b' : userWrote b b' -> progress b' = progress b.
Proof. intros [_ H]. exact (f_equal progress H). Qed.

(** The save of a cancel request, whatever it read: status and step are the
    only paths it can write, and the status it writes is [cancelled]. *)
Lemma cancelSave_wrote read b :
  userWrote b (writePaths (modified (cancelAssign read)) (fields (cancelAssign read)) b).
Proof.
  unfold cancelAssign, assign, hydrate. cbv zeta. cbn [eqPath getPath fields modified].
  destruct (Status_eqb (status read) cancelled); cbn [eqPath getPath fields modified];
    destruct (units_eqb _ _); cbn [modified fields writePaths fold_right];
    (split; [first [left; reflexivity|right; reflexivity]|reflexivity]).
Qed.

Lemma ticked_refl s : ticked s s.
Proof.
  split; [reflexivity|]. split; [reflexivity|].
  destruct (store s); [apply userWrote_refl|exact I].
Qed.

Lemma ticked_trans s1 s2 s3 : ticked s1 s2 -> ticked s2 s3 -> ticked s1 s3.
Proof.
  intros (Hd1 & Hw1 & H1) (Hd2 & Hw2 & H2).
  split; [congruence|]. split; [congruence|].
  destruct (store s1), (store s2), (store s3); try contradiction; [|exact I].
  eapply userWrote_trans; eassumption.
Qed.

(** A request handler writes the record. *)
Lemma ticked_write s b b' :
  store s = Some b -> userWrote b b' -> ticked s (recordStatus (setStore (Some b') s)).
Proof.
  intros Hb H. unfold ticked, recordStatus. cbn [store setStore].
  cbn [doc progressWrites setStatusHistory setStore store]. rewrite Hb. auto.
Qed.

Lemma act_ticked a s : ticked s (act a s).
Proof.
  revert s. induction a as [|reqUser|reqUser|i|job startedAt|first IH1 next IH2]; intros s;
    cbn [act].
  - apply ticked_refl.
  - unfold cancelBuild, cancelRead.
    destruct (store s) as [b|] eqn:Eb; [|apply ticked_refl].
    destruct (negb (units_eqb (user (fields (hydrate b))) reqUser)); [apply ticked_refl|].
    destruct (negb (cancellable (status (fields (hydrate b))))); [apply ticked_refl|].
    unfold cancelSave. apply (ticked_write s b); [exact Eb|apply cancelSave_wrote].
  - destruct (cancelRead reqUser (store s)); [apply ticked_refl|].
    unfold ticked. cbn [doc progressWrites store setInFlight].
    split; [reflexivity|]. split; [reflexivity|].
    destruct (store s); [apply userWrote_refl|exact I].
  - destruct (inFlight s !! i) as [read|]; [|apply ticked_refl].
    cbv zeta. cbn [store setInFlight].
    destruct (store s) as [b|] eqn:Eb.
    + unfold cancelSave.
      pose proof (ticked_write (setInFlight (delete i (inFlight s)) s) b _ Eb
                    (cancelSave_wrote read b)) as H.
      unfold ticked in *. cbn [doc progressWrites store setInFlight] in H. rewrite Eb in *.
      exact H.
    + unfold ticked. cbn [doc progressWrites store setInFlight]. rewrite Eb. auto.
  - destruct (store s) as [b|] eqn:Eb; [|apply ticked_refl].
    apply (ticked_write s b); [exact Eb|].
    split; [left; reflexivity|reflexivity].
  - eapply ticked_trans; [apply IH1|apply IH2].
Qed.

Lemma tick_run s : exists s', tick s = (Return tt, s') /\ ticked s s'.
Proof.
  unfold tick. destruct (schedule s) as [|a rest].
  - eexists. split; [reflexivity|apply ticked_refl].
  - eexists. split; [reflexivity|].
    pose proof (act_ticked a (setSchedule rest s)) as H.
    unfold ticked in *. cbn [doc progressWrites store setSchedule] in H. exact H.
Qed.

Lemma markCompleted_assign_spec env now apkPath apkSize downloadUrl cloudinaryPublicId d :
  status (fields d) = building -> progress (fields d) = 95%Z -> modified d = [] ->
  let d' := markCompleted_assign env now apkPath apkSize downloadUrl cloudinaryPublicId d in
  status (fields d') = completed /\ progress (fields d') = 100%Z
  /\ isModified p_status d' = true /\ isModified p_progress d' = true.
Proof.
  intros Hs Hp Hm. unfold markCompleted_assign. cbv zeta.
  repeat match goal with
  | |- context [assign ?p ?v ?x] =>
      lazymatch p with
      | p_status => fail
      | p_progress => fail
      | _ => destruct (assign_other p v x) as (-> & -> & -> & ->); [discriminate..|]
      end
  end.
  destruct (assign_progress 100%Z (assign p_status completed d)) as (-> & -> & -> & ->).
  destruct (assign_status completed d) as (-> & -> & Hmod & ->).
  rewrite Hp. cbn [Z.eqb Pos.eqb negb]. rewrite orb_true_r.
  destruct Hmod as [->|Hc]; [auto|congruence].
Qed.

Lemma markFailed_assign_spec now error d :
  let d' := markFailed_assign now error d in
  status (fields d') = failed
  /\ (isModified p_status d' = true \/ status (fields d) = failed)
  /\ isModified p_progress d' = isModified p_progress d.
Proof.
  unfold markFailed_assign. cbv zeta.
  repeat match goal with
  | |- context [assign ?p ?v ?x] =>
      lazymatch p with
      | p_status => fail
      | _ => destruct (assign_other p v x) as (-> & _ & -> & ->); [discriminate..|]
      end
  end.
  destruct (assign_status failed d) as (-> & _ & Hmod & ->). auto.
Qed.

Lemma updateProgress_assign_spec k' step d :
  status (fields d) = building -> modified d = [] ->
  let d' := updateProgress_assign k' step d in
  status (fields d') = building /\ progress (fields d') = k'
  /\ isModified p_progress d' = negb (progress (fields d) =? k')%Z.
Proof.
  intros Hs Hm. unfold updateProgress_assign. cbv zeta.
  destruct (assign_other p_currentStep step (assign p_progress k' d)) as (-> & -> & _ & ->);
    [discriminate..|].
  destruct (assign_progress k' d) as (-> & -> & _ & ->).
  unfold isModified. rewrite Hm. cbn. auto.
Qed.

(** ** Running the store operations *)

Lemma findOne_run s :
  exists s', findOne s = (Return (hydrate <$> store s'), s') /\ ticked s s'.
Proof.
  unfold findOne, mbind, M_bind. destruct (tick_run s) as (s' & -> & Ht).
  exists s'. split; [reflexivity|exact Ht].
Qed.

Lemma ticked_wrote s s' b :
  ticked s s' -> store s = Some b -> exists b', store s' = Some b' /\ userWrote b b'.
Proof.
  intros (_ & _ & H) Hb. rewrite Hb in H. destruct (store s'); [eauto|contradiction].
Qed.

Lemma ticked_store s s' : ticked s s' -> is_Some (store s) -> is_Some (store s').
Proof.
  intros Ht [b Hb]. destruct (ticked_wrote _ _ _ Ht Hb) as (b' & -> & _). eauto.
Qed.

Lemma Building_store s : Building s -> is_Some (store s).
Proof. intros (b & -> & _). eauto. Qed.

Lemma Building_ticked s s' : ticked s s' -> Building s -> Building s'.
Proof.
  intros Ht (b & Hb & Hs). destruct (ticked_wrote _ _ _ Ht Hb) as (b' & Hb' & [Hs' _]).
  exists b'. split; [exact Hb'|]. destruct Hs' as [->| ->]; auto.
Qed.

(** A document with status [building] is saved. *)
Lemma Building_saved d s b s' :
  Building s -> store s = Some b -> status (fields d) = building ->
  store s' = Some (writePaths (modified d) (fields d) b) -> Building s'.
Proof.
  intros (b0 & Hb0 & Hs0) Hb Hd Hs'. rewrite Hb in Hb0. injection Hb0 as <-.
  eexists. split; [exact Hs'|]. rewrite status_writePaths.
  destruct (existsb _ _); [left; exact Hd|exact Hs0].
Qed.

Lemma save_run d s :
  is_Some (store s) ->
  exists s1 b s',
    ticked s s1 /\ store s1 = Some b
    /\ save d s = (Return (mkDoc (fields d) []), s')
    /\ store s' = Some (writePaths (modified d) (fields d) b)
    /\ doc s' = doc s
    /\ progressWrites s'
       = progressWrites s ++ (if isModified p_progress d then [progress (fields d)] else []).
Proof.
  intros Hs. unfold save, mbind, M_bind. destruct (tick_run s) as (s1 & -> & Ht).
  destruct (ticked_store _ _ Ht Hs) as [b Hb].
  unfold getState. rewrite Hb. unfold modifyState, mret, M_ret.
  exists s1, b. eexists. split; [exact Ht|]. split; [exact Hb|]. split; [reflexivity|].
  destruct Ht as (Hd & Hw & _).
  unfold recordStatus. cbn [store setStore].
  destruct (isModified p_progress d); cbn; rewrite ?Hd, ?Hw, ?app_nil_r; auto.
Qed.

(** ** Invariants of a build attempt *)


Lemma Tracking_Logged pw0 lo k s : Tracking pw0 lo k s -> Logged pw0 lo s.
Proof. intros (H & _ & ws & Hw & Hn & _). split; eauto. Qed.

Lemma nondecreasing_snoc a l k k' :
  nondecreasing (a :: l) = true -> Forall (fun x => (x <= k)%Z) (a :: l) -> (k <= k')%Z ->
  nondecreasing (a :: l ++ [k']) = true /\ Forall (fun x => (x <= k')%Z) (a :: l ++ [k']).
Proof.
  revert a. induction l as [|b l IH]; intros a Hn Hf Hk.
  - apply Forall_cons_iff in Hf as [Ha _]. cbn.
    split; [rewrite andb_true_r; apply Z.leb_le; lia|].
    repeat constructor; lia.
  - cbn [nondecreasing] in Hn. apply andb_true_iff in Hn as [Hab Hn].
    apply Forall_cons_iff in Hf as [Ha Hf].
    destruct (IH b Hn Hf Hk) as [Hn' Hf'].
    split.
    + cbn [app nondecreasing]. rewrite Hab. exact Hn'.
    + constructor; [lia|exact Hf'].
Qed.

Lemma Forall_le_weaken k k' (l : list Z) :
  (k <= k')%Z -> Forall (fun x => (x <= k)%Z) l -> Forall (fun x => (x <= k')%Z) l.
Proof. intros Hk H. induction H; constructor; [lia|assumption]. Qed.

Lemma saveBuild_run d s :
  doc s = Some d -> is_Some (store s) ->
  exists s1 b s',
    ticked s s1 /\ store s1 = Some b
    /\ saveBuild s = (Return tt, s')
    /\ store s' = Some (writePaths (modified d) (fields d) b)
    /\ doc s' = Some (mkDoc (fields d) [])
    /\ progressWrites s'
       = progressWrites s ++ (if isModified p_progress d then [progress (fields d)] else []).
Proof.
  intros Hd Hs. unfold saveBuild, mbind, M_bind, getState. rewrite Hd.
  destruct (save_run d s Hs) as (s1 & b & s' & Ht & Hb & -> & Hst & Hdoc & Hw).
  exists s1, b. eexists. split; [exact Ht|]. split; [exact Hb|]. split; [reflexivity|].
  cbn. auto.
Qed.

Lemma updateProgress_triple pw0 lo k k' step E :
  (k <= k')%Z ->
  triple (Tracking pw0 lo k) (updateProgress k' step) (fun _ => Tracking pw0 lo k') E.
Proof.
  intros Hk s (Hst & (d & Hd & Hs & Hp & Hm) & (ws & Hw & Hn & Hf)).
  unfold updateProgress, mbind, M_bind, onBuild, modifyState.
  set (s1 := setDoc (updateProgress_assign k' step <$> doc s) s).
  destruct (updateProgress_assign_spec k' step d Hs Hm) as (Hs' & Hp' & Hmod).
  destruct (saveBuild_run (updateProgress_assign k' step d) s1) as
    (s2 & b & s3 & Ht & Hb & -> & Hst3 & Hd3 & Hw3).
  { subst s1. cbn. rewrite Hd. reflexivity. }
  { apply Building_store. exact Hst. }
  unfold Tracking. cbn [store doc progressWrites setJobProgress].
  split.
  { apply (Building_saved (updateProgress_assign k' step d) s2 b);
      [apply (Building_ticked s1); [exact Ht|exact Hst]|exact Hb|exact Hs'|].
    unfold Building. cbn [store setJobProgress]. exact Hst3. }
  split; [eexists; split; [exact Hd3|]; cbn; auto|].
  rewrite Hw3, Hmod, Hp, Hp'. subst s1. cbn [progressWrites setDoc]. rewrite Hw.
  destruct (Z.eqb_spec k k') as [->|Hne]; cbn [negb].
  - exists ws. rewrite app_nil_r. auto.
  - exists (ws ++ [k']). rewrite app_assoc. split; [reflexivity|].
    apply (nondecreasing_snoc lo ws k k'); assumption.
Qed.

Section Attempt.
Variable w : World.
Variable pw0 : list Z.
Variable lo : Z.



Lemma triple_pure_pre {A} (F : Prop) P (m : M A) Q E :
  (F -> triple P m Q E) -> triple (fun s => P s /\ F) m Q E.
Proof. intros H s [HP HF]. apply H; assumption. Qed.

Lemma ioStep_triple k st :
  triple (Tracking pw0 lo k) (ioStep w st) (fun _ => Tracking pw0 lo k) (Caught w pw0 lo).
Proof.
  intros s H. unfold ioStep. destruct (io w st) eqn:Eio; cbn.
  - split; [eapply Tracking_Logged; exact H | exists st; congruence].
  - exact H.
Qed.

Lemma mkdirProject_triple k :
  triple (Tracking pw0 lo k) (mkdirProject w) (fun _ => Tracking pw0 lo k) (Caught w pw0 lo).
Proof.
  unfold mkdirProject. eapply triple_bind; [apply ioStep_triple|]. intros u s H. exact H.
Qed.

Lemma removeProject_triple k :
  triple (Tracking pw0 lo k) (removeProject w) (fun _ => Tracking pw0 lo k) (Caught w pw0 lo).
Proof.
  unfold removeProject. eapply triple_bind; [apply ioStep_triple|]. intros u s H. exact H.
Qed.

Lemma buildWithGradle_triple k projectDir :
  triple (Tracking pw0 lo k) (buildWithGradle w projectDir)
         (fun _ s => Tracking pw0 lo k s /\ io w ioGradle = None) (Caught w pw0 lo).
Proof.
  unfold buildWithGradle. eapply triple_bind; [apply ioStep_triple|]. intros u s H.
  destruct (io w ioGradle) eqn:Eio; cbn.
  - split; [eapply Tracking_Logged; exact H | exists ioGradle; congruence].
  - auto.
Qed.

Lemma signAPK_returns env dir exec unsignedApkPath buildId :
  exists p effs, signAPK env dir exec unsignedApkPath buildId = (Return p, effs).
Proof.
  unfold signAPK. destruct (negb (keystoreConfigured env)); [eauto|].
  destruct (exec _); eauto.
Qed.

Lemma sign_triple k unsignedApkPath buildId E :
  triple (Tracking pw0 lo k) (sign w unsignedApkPath buildId) (fun _ => Tracking pw0 lo k) E.
Proof.
  intros s H. unfold sign.
  destruct (signAPK_returns (env w) (TEMP_DIR w) (execSync w) unsignedApkPath buildId)
    as (p & effs & ->).
  cbn. exact H.
Qed.

Lemma buildAPK_triple buildId :
  triple (Tracking pw0 lo 10) (buildAPK w buildId updateProgress)
         (fun _ s => Tracking pw0 lo 95 s /\ io w ioGradle = None) (Caught w pw0 lo).
Proof.
  unfold buildAPK. cbv zeta.
  eapply triple_tryCatch with (E' := (Caught w pw0 lo)).
  - do 8 (eapply triple_bind; [apply updateProgress_triple; lia|intros ?];
          eapply triple_bind;
            [first [apply mkdirProject_triple | apply ioStep_triple]|intros ?]).
    eapply triple_bind; [apply updateProgress_triple; lia|intros ?].
    eapply triple_bind; [apply buildWithGradle_triple|intros apkPath].
    apply triple_pure_pre. intros Hg.
    eapply triple_bind; [apply updateProgress_triple; lia|intros ?].
    eapply triple_bind; [apply sign_triple|intros signedApkPath].
    eapply triple_bind; [apply updateProgress_triple; lia|intros ?].
    eapply triple_bind; [apply ioStep_triple|intros ?].
    eapply triple_bind; [apply removeProject_triple|intros ?].
    intros s H. cbn. auto.
  - intros e s [HL HF]. unfold tryCatch, mbind, M_bind, removeProject, ioStep, throw, logEffects,
      modifyState, mret, M_ret.
    destruct (io w ioRemoveProject); cbn; split; assumption.
Qed.

End Attempt.



Lemma ticked_progress s s' b :
  ticked s s' -> store s = Some b -> exists b', store s' = Some b' /\ progress b' = progress b.
Proof.
  intros Ht Hb. destruct (ticked_wrote _ _ _ Ht Hb) as (b' & Hb' & Hw).
  exists b'. split; [exact Hb'|apply userWrote_progress; exact Hw].
Qed.

Section Handler.
Variable w : World.
Variable pw0 : list Z.
Variable lo : Z.


Lemma triple_exists_pre {A X} (P : X -> WState -> Prop) (m : M A) Q E :
  (forall x, triple (P x) m Q E) -> triple (fun s => exists x, P x s) m Q E.
Proof. intros H s [x Hx]. apply (H x). exact Hx. Qed.

Lemma findOne_triple p0 E :
  triple (fun s => (exists b, store s = Some b /\ progress b = p0) /\ progressWrites s = pw0)
         findOne
         (fun found s => exists b1, (store s = Some b1 /\ progress b1 = p0 /\ progressWrites s = pw0)
                                    /\ found = Some (hydrate b1))
         E.
Proof.
  intros s [(b & Hb & Hp) Hw]. destruct (findOne_run s) as (s1 & -> & Ht).
  destruct (ticked_progress _ _ _ Ht Hb) as (b1 & Hb1 & Hp1).
  exists b1. rewrite Hb1. destruct Ht as (_ & -> & _). repeat split; auto. congruence.
Qed.

Lemma bindBuild_triple b1 E :
  triple (fun s => store s = Some b1 /\ progressWrites s = pw0)
         (bindBuild (hydrate b1)) (fun _ => Holding pw0 b1 (hydrate b1)) E.
Proof. intros s [Hb Hw]. cbn. unfold Holding. cbn. rewrite Hb. eauto. Qed.

Lemma onBuild_triple f b d E :
  triple (Holding pw0 b d) (onBuild f) (fun _ => Holding pw0 b (f d)) E.
Proof. intros s (Hd & Hs & Hw). cbn. unfold Holding. cbn. rewrite Hd. auto. Qed.

(** The first save of the handler: the record is building at progress 10,
    unless a cancel request wrote its status meanwhile. *)
Lemma first_save_triple b0 d E :
  status (fields d) = building -> progress (fields d) = 10%Z ->
  (isModified p_status d = true \/ status b0 = building) ->
  (lo <= 10)%Z ->
  triple (Holding pw0 b0 d) saveBuild (fun _ => Tracking pw0 lo 10) E.
Proof.
  intros Hs Hp Hmod Hlo s (Hd & Hst & Hw).
  destruct (saveBuild_run d s Hd) as (s1 & b & s' & Ht & Hb & -> & Hst' & Hd' & Hw');
    [rewrite Hst; eauto|].
  split.
  { eexists. split; [exact Hst'|]. rewrite status_writePaths.
    destruct Hmod as [Hmod|Hb0].
    - unfold isModified in Hmod. rewrite Hmod. left. exact Hs.
    - destruct (existsb _ _); [left; exact Hs|].
      destruct (ticked_wrote _ _ _ Ht Hst) as (b' & Hb' & [[Hs'|Hs'] _]);
        rewrite Hb in Hb'; injection Hb' as <-; [left; congruence|right; exact Hs']. }
  split; [eexists; split; [exact Hd'|]; cbn; auto|].
  rewrite Hw', Hw, Hp.
  destruct (isModified p_progress d).
  - exists [10%Z]. split; [reflexivity|]. split.
    + cbn. rewrite andb_true_r. apply Z.leb_le. exact Hlo.
    + repeat constructor; lia.
  - exists []. rewrite app_nil_r. split; [reflexivity|]. split; [reflexivity|].
    repeat constructor. exact Hlo.
Qed.



(** The last save of a successful attempt, for any assignment [f] that
    makes a building document at progress 95 a completed one at 100. *)
Lemma finish_triple (f : Doc -> Doc) E :
  (forall d, status (fields d) = building -> progress (fields d) = 95%Z -> modified d = [] ->
             status (fields (f d)) = completed /\ progress (fields (f d)) = 100%Z
             /\ isModified p_status (f d) = true /\ isModified p_progress (f d) = true) ->
  io w ioGradle = None ->
  triple (Tracking pw0 lo 95) (onBuild f;; saveBuild) (fun _ => Completed w pw0 lo) E.
Proof.
  intros Hf' Hg s (Hst & (d & Hd & Hs & Hp & Hm) & (ws & Hw & Hn & Hf)).
  destruct (Hf' d Hs Hp Hm) as (Hs' & Hp' & Hms & Hmp).
  assert (onBuild f s = (Return tt, setDoc (Some (f d)) s)) as Hrun1.
  { unfold onBuild, modifyState. rewrite Hd. reflexivity. }
  destruct (saveBuild_run (f d) (setDoc (Some (f d)) s) eq_refl (Building_store _ Hst))
    as (s1 & b & s' & Ht & Hb & Hrun2 & Hst' & Hd' & Hw').
  unfold mbind, M_bind. rewrite Hrun1, Hrun2.
  split; [|split; [exact Hg|]].
  - eexists. split; [exact Hst'|].
    rewrite status_writePaths, progress_writePaths.
    unfold isModified in Hms, Hmp. rewrite Hms, Hmp. auto.
  - rewrite Hw', Hmp, Hp'. cbn [progressWrites setDoc]. rewrite Hw.
    exists (ws ++ [100%Z]). rewrite app_assoc. split; [reflexivity|].
    apply (nondecreasing_snoc lo ws 95 100); [assumption..|lia].
Qed.

Lemma markCompleted_triple apkPath apkSize downloadUrl E :
  io w ioGradle = None ->
  triple (Tracking pw0 lo 95)
         (onBuild (markCompleted_assign (env w) (now w) apkPath apkSize downloadUrl None);;
          saveBuild)
         (fun _ => Completed w pw0 lo) E.
Proof.
  apply finish_triple. intros d Hs Hp Hm.
  exact (markCompleted_assign_spec (env w) (now w) apkPath apkSize downloadUrl None d Hs Hp Hm).
Qed.

(** The catch block of the handler. *)
Lemma catch_triple error (Q : BuildResult -> WState -> Prop) :
  triple (Caught w pw0 lo error)
         (found ← findOne;
          match found with
          | Some build => save (markFailed_assign (now w) error build);; mret tt
          | None => mret tt
          end;;
          throw error)
         Q (fun _ => Failed w pw0 lo).
Proof.
  intros s [(Hst & ws & Hw & Hn) HF].
  unfold mbind at 1, M_bind at 1.
  destruct (findOne_run s) as (s1 & -> & Ht).
  destruct (Building_ticked _ _ Ht Hst) as (b1 & Hb1 & Hs1). rewrite Hb1.
  cbn [fmap option_fmap option_map].
  unfold mbind, M_bind.
  destruct (save_run (markFailed_assign (now w) error (hydrate b1)) s1)
    as (s2 & b2 & s' & Ht2 & Hb2 & -> & Hst' & Hd' & Hw'); [rewrite Hb1; eauto|].
  cbn.
  destruct (markFailed_assign_spec (now w) error (hydrate b1)) as (Hs & Hmod & Hmp).
  split; [|split; [exact HF|]].
  - eexists. split; [exact Hst'|]. rewrite status_writePaths.
    destruct Hmod as [Hmod|Hfail].
    + unfold isModified in Hmod. rewrite Hmod. exact Hs.
    + cbn [hydrate fields] in Hfail. destruct Hs1; congruence.
  - rewrite Hw', Hmp. cbn [isModified hydrate modified existsb].
    destruct Ht as (_ & -> & _). rewrite Hw, app_nil_r. eauto.
Qed.

End Handler.

(** One run of the job handler, for every world, every schedule of user
    actions and every set of cancel requests in flight, on a record that
    exists: its last write leaves the record completed at progress 100 when
    it returns, and failed when it throws; the progress values it wrote
    never decrease. *)
Lemma processJob_spec w buildId s b :
  store s = Some b ->
  match processJob w buildId s with
  | (Return r, s') =>
      Completed w (progressWrites s) (Z.min (progress b) 10) s'
  | (Throw e, s') =>
      Failed w (progressWrites s) (Z.min (progress b) 10) s'
  end.
Proof.
  intros Hb. set (lo := Z.min (progress b) 10). set (pw0 := progressWrites s).
  assert (lo <= 10)%Z as Hlo by (subst lo; lia).
  unfold processJob.
  refine (triple_tryCatch _ _ _ (fun _ => Completed w pw0 lo) (Caught w pw0 lo)
            (fun _ => Failed w pw0 lo) _ _ s _).
  - eapply triple_bind; [apply (findOne_triple pw0 (progress b))|]. intros found.
    apply triple_exists_pre. intros b1. apply triple_pure_pre. intros ->.
    eapply triple_conseq with (P' := fun s => store s = Some b1 /\ progressWrites s = pw0);
      [|intros s0 (H1 & _ & H2); auto|intros a s0 H; exact H|intros e s0 H; exact H].
    eapply triple_bind; [apply bindBuild_triple|intros ?].
    eapply triple_bind; [apply onBuild_triple|intros ?].
    eapply triple_bind; [apply onBuild_triple|intros ?].
    eapply triple_bind; [apply onBuild_triple|intros ?].
    eapply triple_bind.
    { apply first_save_triple; [| | |exact Hlo].
      - destruct (assign_other p_currentStep (js "Preparing build environment...")
                    (assign p_progress 10%Z (assign p_status building (hydrate b1))))
          as (-> & _); [discriminate..|].
        destruct (assign_progress 10%Z (assign p_status building (hydrate b1))) as (_ & -> & _).
        apply assign_status.
      - destruct (assign_other p_currentStep (js "Preparing build environment...")
                    (assign p_progress 10%Z (assign p_status building (hydrate b1))))
          as (_ & -> & _); [discriminate..|].
        apply assign_progress.
      - destruct (assign_other p_currentStep (js "Preparing build environment...")
                    (assign p_progress 10%Z (assign p_status building (hydrate b1))))
          as (_ & _ & -> & _); [discriminate..|].
        destruct (assign_progress 10%Z (assign p_status building (hydrate b1)))
          as (_ & _ & -> & _).
        destruct (assign_status building (hydrate b1)) as (_ & _ & H & _). exact H. }
    intros ?.
    eapply triple_bind; [apply buildAPK_triple|intros result].
    apply triple_pure_pre. intros Hg.
    eapply triple_bind_assoc; [apply (markCompleted_triple w pw0 lo _ _ _ _ Hg)|intros ?].
    intros s0 H. exact H.
  - intros e. apply catch_triple.
  - split; [eauto|reflexivity].
Qed.

End WorkerFacts.

(* ===================================================================== *)
(** * The claims about the build record                                    *)
(* ===================================================================== *)

Module Lifecycle.
Import JS BuildModel Toolchain Controller Worker WorkerSpec WorkerFacts QueueConfig Queue Samples.








(** A cancel request that read the record before the build started and
    saves after the last write of the handler: the record, which read
    [completed], reads [cancelled]. *)
Lemma stale_cancel_after_completion :
  status <$> store (snd (processJob fineWorld (js "b1") cancelInFlight)) = Some completed
  /\ status <$> store (act (userCancelSave 0)
                          (snd (processJob fineWorld (js "b1") cancelInFlight)))
     = Some cancelled.
Proof. split; vm_compute; reflexivity. Qed.

(** C3, as amended.  Within one attempt of a build on an existing record,
    whatever the request handlers write meanwhile, no progress value written
    is below the one written before it, and the first one is not below the
    smaller of 10 and the progress stored when the attempt starts (so not
    below the stored progress of a record that was never built).  The write
    that makes the record [completed], the last one of an attempt that
    returns, leaves its progress at exactly 100, and no request handler
    changes the progress afterwards: the record then reads [completed], or
    [cancelled] once a cancel request in flight has saved, at progress
    100. *)
Theorem progress_within_attempt w buildId s b :
  store s = Some b ->
  match processJob w buildId s with
  | (Return _, s') =>
      writesFrom (Z.min (progress b) 10) s s'
      /\ (exists b', store s' = Some b' /\ status b' = completed /\ progress b' = 100%Z)
      /\ forall later, exists b'',
           store (act later s') = Some b''
           /\ progress b'' = 100%Z
           /\ (status b'' = completed \/ status b'' = cancelled)
  | (Throw _, s') => writesFrom (Z.min (progress b) 10) s s'
  end.
Proof.
  intros Hb. pose proof (processJob_spec w buildId s b Hb) as H.
  destruct (processJob w buildId s) as [[r|e] s'].
  - destruct H as (Hc & _ & Hw). split; [exact Hw|]. split; [exact Hc|].
    intros later. destruct Hc as (b' & Hb' & Hs & Hp).
    destruct (ticked_wrote _ _ _ (act_ticked later s') Hb') as (b'' & Hb'' & Hu).
    exists b''. split; [exact Hb''|]. split.
    + rewrite (userWrote_progress _ _ Hu). exact Hp.
    + destruct Hu as [[H|H] _]; [left; congruence|right; exact H].
  - destruct H as (_ & _ & Hw). exact Hw.
Qed.

Lemma progress_within_attempt_witness :
  store (startState []) = Some freshBuild
  /\ match processJob fineWorld (js "b1") (startState []) with
     | (Return _, s') =>
         writesFrom (Z.min (progress freshBuild) 10) (startState []) s'
         /\ (exists b', store s' = Some b' /\ status b' = completed /\ progress b' = 100%Z)
         /\ forall later, exists b'',
              store (act later s') = Some b''
              /\ progress b'' = 100%Z
              /\ (status b'' = completed \/ status b'' = cancelled)
     | (Throw _, s') => writesFrom (Z.min (progress freshBuild) 10) (startState []) s'
     end.
Proof.
  split; [reflexivity|].
  exact (progress_within_attempt fineWorld (js "b1") (startState []) freshBuild eq_refl).
Defined.

(** The claim of C3 fails across attempts: every attempt starts by writing
    the baseline 10.  The build command fails in the first attempt, at
    progress 70, and the second attempt writes 10. *)
Lemma progress_reset_on_retry :
  progressWrites (final (runJob (defaultJobOptions (buildQueueOptions ∅)) failsOnce
                                (js "b1") (startState [])))
  = [10; 15; 20; 30; 40; 45; 50; 55; 60; 70;
     10; 15; 20; 30; 40; 45; 50; 55; 60; 70; 90; 95; 100]%Z
  /\ nondecreasing
       (progressWrites (final (runJob (defaultJobOptions (buildQueueOptions ∅)) failsOnce
                                      (js "b1") (startState []))))
     = false.
Proof. split; vm_compute; reflexivity. Qed.

(** A signing subprocess that fails does not make the attempt fail: with
    every file operation and the build command succeeding, the handler
    returns. *)
Lemma attempt_succeeds_without_signature w buildId s b :
  store s = Some b -> (forall st, io w st = None) ->
  exists r, fst (processJob w buildId s) = Return r.
Proof.
  intros Hb Hio. pose proof (processJob_spec w buildId s b Hb) as H.
  destruct (processJob w buildId s) as [[r|e] s']; [eauto|].
  destruct H as (_ & (st & Hst) & _). destruct (Hst (Hio st)).
Qed.

End Lifecycle.

(* ===================================================================== *)
(** * The claims about the job queue                                       *)
(* ===================================================================== *)

Module QueueFacts.
Import JS BuildModel Toolchain Controller Worker WorkerSpec WorkerFacts QueueConfig Queue Samples.

(** ** Retries *)

(** The record after an attempt on a record that exists. *)
Lemma processJob_record w buildId s :
  is_Some (store s) ->
  exists b', store (snd (processJob w buildId s)) = Some b'
             /\ status b' = if raises (fst (processJob w buildId s)) then failed else completed.
Proof.
  intros [b Hb]. pose proof (processJob_spec w buildId s b Hb) as H.
  destruct (processJob w buildId s) as [[r|e] s']; cbn [fst snd raises].
  - destruct H as ((b' & Hb' & Hs & _) & _). eauto.
  - destruct H as ((b' & Hb' & Hs) & _). eauto.
Qed.

(** The retry rule, from attempt number [k] on with [more] attempts left
    after it: the handler runs until an attempt returns or none is left. *)
Lemma attemptsLoop_spec o worlds buildId s0 more k :
  let r := attemptsLoop o more k worlds buildId (attemptState worlds buildId s0 k) in
  (1 <= runs r <= S more)%nat
  /\ (forall i, (i + 1 < runs r)%nat -> raises (fst (attempt worlds buildId s0 (k + i))) = true)
  /\ (outcome r, final r) = attempt worlds buildId s0 (k + runs r - 1)
  /\ (raises (outcome r) = true -> runs r = S more)
  /\ delays r = map (fun i => retryDelay o (S i)) (seq k (runs r - 1)).
Proof.
  revert k. induction more as [|more IH]; intros k; cbv zeta; cbn [attemptsLoop].
  - destruct (processJob (worlds k) buildId (attemptState worlds buildId s0 k))
      as [[r|e] s'] eqn:E; cbn [runs outcome final delays];
      (split; [lia|]); (split; [intros i Hi; lia|]);
      replace (k + 1 - 1)%nat with k by lia; unfold attempt; rewrite E;
      repeat split.
  - destruct (processJob (worlds k) buildId (attemptState worlds buildId s0 k))
      as [[r|e] s'] eqn:E.
    + cbn [runs outcome final delays].
      split; [lia|]. split; [intros i Hi; lia|].
      replace (k + 1 - 1)%nat with k by lia. unfold attempt. rewrite E.
      split; [reflexivity|]. split; [discriminate|reflexivity].
    + assert (s' = attemptState worlds buildId s0 (S k)) as ->
        by (cbn [attemptState]; rewrite E; reflexivity).
      specialize (IH (S k)). cbv zeta in IH.
      destruct IH as (Hr & Hprev & Hlast & Hall & Hd).
      set (r := attemptsLoop o more (S k) worlds buildId (attemptState worlds buildId s0 (S k)))
        in *.
      cbn [runs outcome final delays].
      split; [lia|]. split; [|split; [|split]].
      * intros i Hi. destruct i as [|i].
        -- replace (k + 0)%nat with k by lia. unfold attempt. rewrite E. reflexivity.
        -- replace (k + S i)%nat with (S k + i)%nat by lia. apply Hprev. lia.
      * rewrite Hlast. f_equal. lia.
      * intros Ht. rewrite (Hall Ht). reflexivity.
      * rewrite Hd. replace (S (runs r) - 1)%nat with (S (runs r - 1)) by lia.
        reflexivity.
Qed.

(** Every attempt of a job on a record that exists finds the record. *)
Lemma attemptState_record worlds buildId s i :
  is_Some (store s) -> is_Some (store (attemptState worlds buildId s i)).
Proof.
  intros Hs. induction i as [|i IH]; [exact Hs|].
  cbn [attemptState].
  destruct (processJob_record (worlds i) buildId _ IH) as (b' & -> & _). eauto.
Qed.

(** C4.  With the options of config/queue.js (MaxAttempts is
    BUILD_QUEUE_ATTEMPTS, 2 by default, taken to be at least 1) and the retry
    rule of the queue, for every job, whatever makes its attempts raise: the
    handler runs at least once and at most MaxAttempts times; every attempt
    but the last one raised, and was followed by another after a delay of
    2000 ms, 4000 ms, 8000 ms and so on, each twice the one before; the job
    completes as its last attempt does, and when that one raised too, the
    attempts are exhausted (the handler has run MaxAttempts times), the job
    is failed, the handler is not run again, and the record, when there is
    one, reads [failed]. *)
Theorem retry_up_to_max_attempts env worlds buildId s :
  (1 <= attempts (defaultJobOptions (buildQueueOptions env)))%Z ->
  let maxAttempts := Z.to_nat (attempts (defaultJobOptions (buildQueueOptions env))) in
  let r := runJob (defaultJobOptions (buildQueueOptions env)) worlds buildId s in
  attempts (defaultJobOptions (buildQueueOptions ∅)) = 2%Z
  /\ (1 <= runs r <= maxAttempts)%nat
  /\ (forall i, (i + 1 < runs r)%nat -> raises (fst (attempt worlds buildId s i)) = true)
  /\ (outcome r, final r) = attempt worlds buildId s (runs r - 1)
  /\ delays r = map (fun i => (2000 * 2 ^ Z.of_nat i)%Z) (seq 0 (runs r - 1))
  /\ (raises (outcome r) = false -> jobStateAfter r = jobCompleted)
  /\ (raises (outcome r) = true ->
      runs r = maxAttempts /\ jobStateAfter r = jobFailed
      /\ (is_Some (store s) -> exists b', store (final r) = Some b' /\ status b' = failed)).
Proof.
  intros Ha. cbv zeta. set (o := defaultJobOptions (buildQueueOptions env)) in *.
  assert (S (Z.to_nat (attempts o) - 1) = Z.to_nat (attempts o)) as Hn by lia.
  pose proof (attemptsLoop_spec o worlds buildId s (Z.to_nat (attempts o) - 1) 0) as H.
  cbv zeta in H. cbn [attemptState] in H. fold (runJob o worlds buildId s) in H.
  destruct H as (Hr & Hprev & Hlast & Hall & Hd).
  split; [reflexivity|]. split; [lia|]. split; [exact Hprev|].
  split; [rewrite Hlast; f_equal; lia|]. split; [|split].
  - rewrite Hd. apply map_ext. intros i. unfold retryDelay. subst o.
    cbn [backoffType buildQueueOptions defaultJobOptions backoffDelay].
    f_equal. f_equal. lia.
  - unfold jobStateAfter. destruct (outcome (runJob o worlds buildId s)); [reflexivity|].
    discriminate.
  - intros Ht. split; [rewrite (Hall Ht); exact Hn|]. split.
    + unfold jobStateAfter. destruct (outcome (runJob o worlds buildId s)); [discriminate Ht|].
      reflexivity.
    + intros Hs.
      destruct (processJob_record
                  (worlds (0 + runs (runJob o worlds buildId s) - 1)%nat) buildId _
                  (attemptState_record worlds buildId s
                     (0 + runs (runJob o worlds buildId s) - 1) Hs)) as (b' & Hb' & Hst).
      unfold attempt in Hlast. rewrite <- Hlast in Hb', Hst. cbn [fst snd] in Hb', Hst.
      rewrite Ht in Hst. eauto.
Qed.

Lemma retry_up_to_max_attempts_witness :
  (1 <= attempts (defaultJobOptions (buildQueueOptions ∅)))%Z
  /\ let maxAttempts := Z.to_nat (attempts (defaultJobOptions (buildQueueOptions ∅))) in
     let r := runJob (defaultJobOptions (buildQueueOptions ∅)) (fun _ => gradleFails)
                     (js "b1") (startState []) in
     attempts (defaultJobOptions (buildQueueOptions ∅)) = 2%Z
     /\ (1 <= runs r <= maxAttempts)%nat
     /\ (forall i, (i + 1 < runs r)%nat ->
           raises (fst (attempt (fun _ => gradleFails) (js "b1") (startState []) i)) = true)
     /\ (outcome r, final r)
        = attempt (fun _ => gradleFails) (js "b1") (startState []) (runs r - 1)
     /\ delays r = map (fun i => (2000 * 2 ^ Z.of_nat i)%Z) (seq 0 (runs r - 1))
     /\ (raises (outcome r) = false -> jobStateAfter r = jobCompleted)
     /\ (raises (outcome r) = true ->
         runs r = maxAttempts /\ jobStateAfter r = jobFailed
         /\ (is_Some (store (startState [])) ->
             exists b', store (final r) = Some b' /\ status b' = failed)).
Proof.
  assert (1 <= attempts (defaultJobOptions (buildQueueOptions ∅)))%Z as Ha
    by (vm_compute; discriminate).
  split; [exact Ha|].
  exact (retry_up_to_max_attempts ∅ (fun _ => gradleFails) (js "b1") (startState []) Ha).
Defined.

(** The build command fails in both attempts of a job with the default
    options: the handler runs twice, 2000 ms apart, and the job is failed. *)
Lemma two_attempts_then_failed :
  runs (runJob (defaultJobOptions (buildQueueOptions ∅)) (fun _ => gradleFails)
               (js "b1") (startState [])) = 2%nat
  /\ delays (runJob (defaultJobOptions (buildQueueOptions ∅)) (fun _ => gradleFails)
                    (js "b1") (startState [])) = [2000%Z]
  /\ jobStateAfter (runJob (defaultJobOptions (buildQueueOptions ∅)) (fun _ => gradleFails)
                           (js "b1") (startState [])) = jobFailed
  /\ runs (runJob (defaultJobOptions (buildQueueOptions ∅)) failsOnce
                  (js "b1") (startState [])) = 2%nat
  /\ jobStateAfter (runJob (defaultJobOptions (buildQueueOptions ∅)) failsOnce
                           (js "b1") (startState [])) = jobCompleted.
Proof. repeat split; vm_compute; reflexivity. Qed.

(** ** Admission *)










(** The scenario of the specification, five builds submitted at once: with
    three worker processes three of them run and two wait; with the one
    process that runs the worker script, one runs and four wait. *)
Lemma five_builds_submitted :
  active (buildQueue ∅ 3 fiveBuilds) = [js "b2"; js "b1"; js "b3"]
  /\ map fst (waiting (buildQueue ∅ 3 fiveBuilds)) = [js "b4"; js "b5"]
  /\ active (buildQueue ∅ 1 fiveBuilds) = [js "b3"]
  /\ map fst (waiting (buildQueue ∅ 1 fiveBuilds)) = [js "b1"; js "b2"; js "b4"; js "b5"].
Proof. repeat split; vm_compute; reflexivity. Qed.

End QueueFacts.

(* ===================================================================== *)
(** * Properties: escaping and the validated request                       *)
(* ===================================================================== *)

Module EscapeFacts.
Import JS JSFacts BuildService BuildServiceFacts Validation Observations.

#[local] Arguments N.eqb : simpl never.
#[local] Arguments N.leb : simpl never.

(** The five characters [escapeXml] replaces. *)
Lemma escapeUnit_other c :
  (c =? 38)%N = false -> (c =? 60)%N = false -> (c =? 62)%N = false ->
  (c =? 34)%N = false -> (c =? 39)%N = false -> escapeUnit c = [c].
Proof. intros H1 H2 H3 H4 H5. unfold escapeUnit. rewrite H1, H2, H3, H4, H5. reflexivity. Qed.

(** Every unit is escaped to a text that is not empty; a text that begins
    with an ampersand if and only if the unit is one of the five. *)
Lemma escapeUnit_cases c :
  (escapeUnit c = [c] /\ (c =? 38)%N = false /\ (c =? 60)%N = false /\ (c =? 62)%N = false
   /\ (c =? 34)%N = false /\ (c =? 39)%N = false)
  \/ (c = 38 /\ escapeUnit c = [38; 97; 109; 112; 59])%N
  \/ (c = 60 /\ escapeUnit c = [38; 108; 116; 59])%N
  \/ (c = 62 /\ escapeUnit c = [38; 103; 116; 59])%N
  \/ (c = 34 /\ escapeUnit c = [38; 113; 117; 111; 116; 59])%N
  \/ (c = 39 /\ escapeUnit c = [38; 97; 112; 111; 115; 59])%N.
Proof.
  unfold escapeUnit.
  destruct (N.eqb_spec c 38) as [->|H1]; [right; left; split; reflexivity|].
  destruct (N.eqb_spec c 60) as [->|H2]; [right; right; left; split; reflexivity|].
  destruct (N.eqb_spec c 62) as [->|H3]; [right; right; right; left; split; reflexivity|].
  destruct (N.eqb_spec c 34) as [->|H4]; [right; right; right; right; left; split; reflexivity|].
  destruct (N.eqb_spec c 39) as [->|H5]; [right; right; right; right; right; split; reflexivity|].
  left. repeat split; reflexivity.
Qed.

Lemma escape_length_le s : (length s <= length (flat_map escapeUnit s))%nat.
Proof.
  induction s as [|c s IH]; [reflexivity|].
  cbn [flat_map]. rewrite length_app. cbn [length].
  destruct (escapeUnit_cases c) as [(-> & _)|[(_ & ->)|[(_ & ->)|[(_ & ->)|[(_ & ->)|(_ & ->)]]]]];
    cbn; lia.
Qed.

(** Two escaped texts are equal only if the texts are. *)
Lemma escape_flat_map_inj s1 : forall s2,
  flat_map escapeUnit s1 = flat_map escapeUnit s2 -> s1 = s2.
Proof.
  induction s1 as [|c1 s1 IH]; intros [|c2 s2] H.
  - reflexivity.
  - cbn [flat_map] in H.
    destruct (escapeUnit_cases c2) as [(E & _)|[(_ & E)|[(_ & E)|[(_ & E)|[(_ & E)|(_ & E)]]]]];
      rewrite E in H; discriminate H.
  - cbn [flat_map] in H.
    destruct (escapeUnit_cases c1) as [(E & _)|[(_ & E)|[(_ & E)|[(_ & E)|[(_ & E)|(_ & E)]]]]];
      rewrite E in H; discriminate H.
  - cbn [flat_map] in H.
    destruct (escapeUnit_cases c1)
      as [(E1 & A1 & A2 & A3 & A4 & A5)|[(-> & E1)|[(-> & E1)|[(-> & E1)|[(-> & E1)|(-> & E1)]]]]];
    destruct (escapeUnit_cases c2)
      as [(E2 & B1 & B2 & B3 & B4 & B5)|[(-> & E2)|[(-> & E2)|[(-> & E2)|[(-> & E2)|(-> & E2)]]]]];
    rewrite ?E1, ?E2 in H;
    first
      [ apply app_inv_head in H; apply IH in H; subst; reflexivity
      | cbn [app] in H; discriminate H
      | cbn [app] in H; injection H as -> H; apply IH in H; subst; reflexivity
      | cbn [app] in H; injection H as Hc _; apply N.eqb_neq in A1; congruence
      | cbn [app] in H; injection H as Hc _; apply N.eqb_neq in B1; congruence ].
Qed.

Lemma escape_occurs_markup c0 s :
  (c0 = 60 \/ c0 = 62 \/ c0 = 34 \/ c0 = 39)%N -> occurs c0 (flat_map escapeUnit s) = false.
Proof.
  intros Hc. induction s as [|c s IH]; [reflexivity|].
  cbn [flat_map]. unfold occurs in *. rewrite existsb_app, IH, orb_false_r.
  destruct (escapeUnit_cases c)
    as [(E & A1 & A2 & A3 & A4 & A5)|[(_ & E)|[(_ & E)|[(_ & E)|[(_ & E)|(_ & E)]]]]];
    rewrite E.
  - cbn [existsb]. rewrite orb_false_r, N.eqb_sym.
    destruct Hc as [-> | [-> | [-> | -> ] ] ]; assumption.
  - destruct Hc as [-> | [-> | [-> | -> ] ] ]; reflexivity.
  - destruct Hc as [-> | [-> | [-> | -> ] ] ]; reflexivity.
  - destruct Hc as [-> | [-> | [-> | -> ] ] ]; reflexivity.
  - destruct Hc as [-> | [-> | [-> | -> ] ] ]; reflexivity.
  - destruct Hc as [-> | [-> | [-> | -> ] ] ]; reflexivity.
Qed.

Lemma escape_plain s :
  forallb (fun c => negb (isXmlSpecial c)) s = true -> flat_map escapeUnit s = s.
Proof.
  induction s as [|c s IH]; intros H; [reflexivity|].
  cbn [forallb] in H. apply andb_true_iff in H as [Hc H].
  cbn [flat_map]. rewrite IH by exact H.
  unfold isXmlSpecial in Hc. apply negb_true_iff in Hc.
  repeat (apply orb_false_iff in Hc as [Hc ?]).
  rewrite escapeUnit_other by assumption. reflexivity.
Qed.

Lemma escape_fixed s :
  flat_map escapeUnit s = s -> forallb (fun c => negb (isXmlSpecial c)) s = true.
Proof.
  induction s as [|c s IH]; intros H; [reflexivity|].
  cbn [flat_map] in H. cbn [forallb].
  pose proof (escape_length_le s) as Hlen.
  destruct (escapeUnit_cases c)
    as [(E & A1 & A2 & A3 & A4 & A5)|[(_ & E)|[(_ & E)|[(_ & E)|[(_ & E)|(_ & E)]]]]];
    rewrite E in H.
  - injection H as H. rewrite (IH H), andb_true_r.
    unfold isXmlSpecial. rewrite A1, A2, A3, A4, A5. reflexivity.
  - apply (f_equal (@length N)) in H. cbn [app length] in H. lia.
  - apply (f_equal (@length N)) in H. cbn [app length] in H. lia.
  - apply (f_equal (@length N)) in H. cbn [app length] in H. lia.
  - apply (f_equal (@length N)) in H. cbn [app length] in H. lia.
  - apply (f_equal (@length N)) in H. cbn [app length] in H. lia.
Qed.

(** X1.  The five replacements of [escapeXml], made one after the other over
    the whole string, come to one pass over the input: each unit that is one
    of the five special characters is replaced by its entity, every other
    unit is kept, and the ampersand of an entity written by an earlier
    replacement is not replaced by a later one. *)
Theorem escapeXml_single_pass str :
  escapeXml [] = []
  /\ (forall c, escapeXml (c :: str) = escapeUnit c ++ escapeXml str)
  /\ escapeXml str = flat_map escapeUnit str.
Proof.
  split; [reflexivity|]. split.
  - intros c. rewrite !escapeXml_pointwise. reflexivity.
  - apply escapeXml_pointwise.
Qed.

(** X2.  [escapeXml] loses nothing: two app names with the same escaped text
    are the same name. *)
Theorem escapeXml_injective s1 s2 : escapeXml s1 = escapeXml s2 -> s1 = s2.
Proof. rewrite !escapeXml_pointwise. apply escape_flat_map_inj. Qed.

Lemma escapeXml_injective_witness :
  escapeXml (js "a<b") = escapeXml (js "a<b") /\ js "a<b" = js "a<b".
Proof.
  split; [reflexivity|].
  exact (escapeXml_injective (js "a<b") (js "a<b") eq_refl).
Defined.

(** X3.  The text [escapeXml] returns holds no [<], no [>], no double quote
    and no apostrophe, whatever the input; it is the input itself exactly
    when the input holds none of the five special characters, and it is never
    shorter than the input. *)
Theorem escapeXml_no_markup str :
  occurs 60 (escapeXml str) = false
  /\ occurs 62 (escapeXml str) = false
  /\ occurs 34 (escapeXml str) = false
  /\ occurs 39 (escapeXml str) = false
  /\ (escapeXml str = str <-> forallb (fun c => negb (isXmlSpecial c)) str = true)
  /\ (length str <= length (escapeXml str))%nat.
Proof.
  rewrite escapeXml_pointwise.
  repeat split; try (apply escape_occurs_markup; auto).
  - apply escape_fixed.
  - apply escape_plain.
  - apply escape_length_le.
Qed.


(** ** The validated request *)

(** The units of a validated app name are none of the five special
    characters and no dollar sign. *)
Lemma appNameUnit_plain c :
  isAppNameUnit c = true -> isXmlSpecial c = false /\ (c =? dollar)%N = false.
Proof.
  intros H. unfold isXmlSpecial, dollar.
  destruct (N.eqb_spec c 38) as [->|_]; [vm_compute in H; discriminate H|].
  destruct (N.eqb_spec c 60) as [->|_]; [vm_compute in H; discriminate H|].
  destruct (N.eqb_spec c 62) as [->|_]; [vm_compute in H; discriminate H|].
  destruct (N.eqb_spec c 34) as [->|_]; [vm_compute in H; discriminate H|].
  destruct (N.eqb_spec c 39) as [->|_]; [vm_compute in H; discriminate H|].
  destruct (N.eqb_spec c 36) as [->|_]; [vm_compute in H; discriminate H|].
  split; reflexivity.
Qed.

Lemma appNamePattern_plain s :
  appNamePattern s = true ->
  forallb (fun c => negb (isXmlSpecial c)) s = true /\ noDollar s = true.
Proof.
  intros H. assert (forallb isAppNameUnit s = true) as Hall
    by (destruct s; [discriminate H|exact H]).
  clear H. induction s as [|c s IH]; [split; reflexivity|].
  cbn [forallb] in Hall. apply andb_true_iff in Hall as [Hc Hall].
  destruct (IH Hall) as [IH1 IH2]. destruct (appNameUnit_plain c Hc) as [H1 H2].
  unfold noDollar in *. cbn [forallb]. rewrite H1, H2, IH1, IH2. split; reflexivity.
Qed.

Lemma splitLast_suffix p s x r : splitLast p s = Some (x, r) -> exists old, x = old ++ p.
Proof.
  revert x r. induction s as [|c s IH]; intros x r H; cbn [splitLast] in H.
  - destruct p; [|discriminate H]. injection H as <- _. exists []. reflexivity.
  - destruct (splitLast p s) as [[a b]|].
    + injection H as <- _. destruct (IH a b eq_refl) as [old ->]. exists (c :: old). reflexivity.
    + destruct (startsWith p (c :: s)); [|discriminate H].
      injection H as <- _. exists []. reflexivity.
Qed.

(** What a pattern of the shape [open .* close] matches. *)
Lemma openDotStarClose_match op cl s x r :
  seqm (lit op) (dotStarThen cl) s = Some (x, r) -> exists old, x = op ++ old ++ cl.
Proof.
  unfold seqm, lit, dotStarThen. intros H.
  destruct (startsWith op s) as [r1|]; [|discriminate H].
  destruct (span isDot r1) as [line r2].
  destruct (splitLast cl line) as [[y l2]|] eqn:E; [|discriminate H].
  injection H as <- _. destruct (splitLast_suffix _ _ _ _ E) as [old ->].
  exists old. reflexivity.
Qed.

(** X4.  For an app name that the pattern of the request validator lets
    through, [updateStringsXml] writes the name itself, unchanged, as the
    value of the first [app_name] resource of the file and changes nothing
    else; a file without such a resource is written back as it was read. *)
Theorem updateStringsXml_validated strings cfg :
  appNamePattern (appName cfg) = true ->
  match search reAppName strings with
  | Some (p, x, r) =>
      strings = p ++ x ++ r
      /\ (exists old, x = appNameOpen ++ old ++ appNameClose)
      /\ updateStringsXml strings cfg = p ++ (appNameOpen ++ appName cfg ++ appNameClose) ++ r
  | None => updateStringsXml strings cfg = strings
  end.
Proof.
  intros Hv. destruct (appNamePattern_plain _ Hv) as [Hplain Hd].
  destruct (search reAppName strings) as [[[p x] r]|] eqn:Hs.
  - assert (splits reAppName) as Hsp
      by (apply seqm_splits; [apply lit_splits | apply dotStarThen_splits]).
    destruct (search_splits _ _ _ _ _ Hsp Hs) as [Hm Hx].
    split; [exact Hm|]. split; [exact (openDotStarClose_match _ _ _ _ _ Hx)|].
    rewrite (updateStringsXml_plain _ _ _ _ _ Hs Hd), (escape_plain _ Hplain).
    rewrite <- !app_assoc. reflexivity.
  - unfold updateStringsXml. apply replace_none. exact Hs.
Qed.

Lemma updateStringsXml_validated_witness :
  appNamePattern (appName Samples.demoConfig) = true
  /\ updateStringsXml Samples.sampleStrings Samples.demoConfig
     = Samples.stringsHead ++ (appNameOpen ++ js "Demo" ++ appNameClose) ++ Samples.stringsTail.
Proof.
  split; [reflexivity|].
  pose proof (updateStringsXml_validated Samples.sampleStrings Samples.demoConfig eq_refl) as H.
  assert (search reAppName Samples.sampleStrings
          = Some (Samples.stringsHead, appNameOpen ++ js "Web2APK" ++ appNameClose,
                  Samples.stringsTail)) as Hs by (vm_compute; reflexivity).
  rewrite Hs in H. destruct H as (_ & _ & H). exact H.
Defined.

(** ** The display-name patch *)





End EscapeFacts.

(* ===================================================================== *)
(** * Properties: the package name of a new build                          *)
(* ===================================================================== *)

Module PackageNameFacts.
Import JS JSFacts BuildService BuildServiceFacts Validation PackageNames Observations.

#[local] Arguments N.eqb : simpl never.
#[local] Arguments N.leb : simpl never.

Lemma pkgScan_segment t :
  forallb (fun c => isLower c || isDigit c) t = true -> pkgScan false true t = true.
Proof.
  induction t as [|c t IH]; intros H; [reflexivity|].
  cbn [forallb] in H. apply andb_true_iff in H as [Hc H].
  cbn [pkgScan]. rewrite (IH H), andb_true_r.
  destruct (N.eqb_spec c 46) as [->|_]; [vm_compute in Hc; discriminate Hc|].
  apply orb_true_iff in Hc as [-> | ->]; [reflexivity|]. rewrite orb_true_r. reflexivity.
Qed.

(** After the fixed prefix the generated name is valid when what follows is
    a segment: lower-case letters and digits, a letter first. *)
Lemma validPackageName_generated t :
  forallb (fun c => isLower c || isDigit c) t = true ->
  validPackageName (js "com.web2apk." ++ t)
  = match t with c :: _ => isLower c | [] => false end.
Proof.
  intros H.
  change (validPackageName (js "com.web2apk." ++ t)) with (pkgScan true true t).
  destruct t as [|c t]; [reflexivity|].
  cbn [forallb] in H. apply andb_true_iff in H as [_ H].
  cbn [pkgScan]. rewrite (pkgScan_segment t H). apply andb_true_r.
Qed.

Lemma toLowerCaseUnit_class c :
  isLower (toLowerCaseUnit c) = isLower c || isUpper c
  /\ isDigit (toLowerCaseUnit c) = isDigit c.
Proof.
  unfold toLowerCaseUnit. destruct (isUpper c) eqn:E; unfold isLower, isUpper, isDigit in *.
  - apply andb_true_iff in E as [E1 E2]. apply N.leb_le in E1, E2.
    repeat match goal with
    | |- context [(?a <=? ?b)%N] => destruct (N.leb_spec a b)
    end; cbn [andb orb]; split; try reflexivity; lia.
  - rewrite orb_false_r. split; reflexivity.
Qed.

Lemma sanitized_units appName :
  forallb (fun c => isLower c || isDigit c)
          (List.filter (fun c => isLower c || isDigit c) (toLowerCase appName)) = true.
Proof.
  apply forallb_forall. intros c Hc. apply filter_In in Hc. apply Hc.
Qed.

Lemma sanitized_head appName :
  match List.filter (fun c => isLower c || isDigit c) (toLowerCase appName) with
  | c :: _ => isLower c
  | [] => false
  end
  = match find isAlnum appName with
    | Some c => isLower c || isUpper c
    | None => false
    end.
Proof.
  induction appName as [|c s IH]; [reflexivity|].
  cbn [toLowerCase map List.filter find]. fold (toLowerCase s).
  destruct (toLowerCaseUnit_class c) as [Hl Hd]. rewrite Hl, Hd.
  unfold isAlnum at 1.
  destruct (isLower c || isUpper c || isDigit c) eqn:E; [exact Hl|exact IH].
Qed.

(** X5.  When the request gives no package name, [createBuild] generates one
    from the app name, and the format check that follows accepts it exactly
    when the first letter or digit of the app name is a letter: an app name
    that begins with a digit, or holds no letter or digit at all, is turned
    down.  (The app name is one the request validator lets through.) *)
Theorem generated_package_name_valid appName :
  appNamePattern appName = true ->
  validPackageName (finalPackageName None appName)
  = match find isAlnum appName with
    | Some c => isLower c || isUpper c
    | None => false
    end.
Proof.
  intros _. cbn [finalPackageName]. unfold autoPackageName.
  rewrite validPackageName_generated by apply sanitized_units.
  apply sanitized_head.
Qed.

Lemma generated_package_name_valid_witness :
  appNamePattern (js "2048 Game") = true
  /\ validPackageName (finalPackageName None (js "2048 Game")) = false.
Proof.
  split; [reflexivity|].
  exact (generated_package_name_valid (js "2048 Game") eq_refl).
Defined.

End PackageNameFacts.

(* ===================================================================== *)
(** * Properties: the patches of build.gradle and colors.xml               *)
(* ===================================================================== *)

Module PatchFacts.
Import JS JSFacts BuildService BuildServiceFacts Validation BuildPatches Observations EscapeFacts.

#[local] Arguments N.eqb : simpl never.
#[local] Arguments N.leb : simpl never.

(** ** Numbers in decimal *)

Lemma string_of_uint_units u :
  forallb isDecimalUnit (js (NilEmpty.string_of_uint u)) = true.
Proof. induction u; cbn [NilEmpty.string_of_uint]; try reflexivity; exact IHu. Qed.

Lemma numberToString_units n : forallb isDecimalUnit (numberToString n) = true.
Proof.
  unfold numberToString, NilZero.string_of_int, NilZero.string_of_uint.
  destruct (Z.to_int n) as [u|u]; destruct u; try reflexivity;
    try apply (string_of_uint_units (Decimal.D0 _));
    cbn [NilEmpty.string_of_uint]; try apply string_of_uint_units;
    change (js (String "-" ?s)) with (45%N :: js s); cbn [forallb];
    rewrite ?string_of_uint_units; reflexivity.
Qed.

Lemma decimalUnits_noDollar s : forallb isDecimalUnit s = true -> noDollar s = true.
Proof.
  unfold noDollar. induction s as [|c s IH]; intros H; [reflexivity|].
  cbn [forallb] in *. apply andb_true_iff in H as [Hc H]. rewrite (IH H), andb_true_r.
  destruct (N.eqb_spec c dollar) as [->|_]; [vm_compute in Hc; discriminate Hc|reflexivity].
Qed.

Lemma versionCodeSetting_noDollar cfg : noDollar (versionCodeSetting cfg) = true.
Proof.
  unfold versionCodeSetting. rewrite noDollar_app.
  rewrite (decimalUnits_noDollar _ (numberToString_units _)). reflexivity.
Qed.

Lemma applicationIdSetting_noDollar cfg :
  validPackageName (packageName cfg) = true -> noDollar (applicationIdSetting cfg) = true.
Proof.
  intros H. unfold applicationIdSetting.
  rewrite !noDollar_app, (validPackageName_noDollar _ H). reflexivity.
Qed.

Lemma versionNameSetting_noDollar cfg :
  noDollar (versionName cfg) = true -> noDollar (versionNameSetting cfg) = true.
Proof.
  intros H. unfold versionNameSetting. rewrite !noDollar_app.
  destruct (versionName cfg); [reflexivity|]. rewrite H. reflexivity.
Qed.

(** X6.  [updateBuildGradle] on a build file in which the first
    [applicationId] setting is followed by the first [versionCode] setting
    and that by the first [versionName] setting (no setting looked for
    starts in the text already patched): the three settings are replaced by
    the configured package name, version code and version name, and the text
    around them is kept.  A version code of zero is written as 1 and an empty
    version name as 1.0.0. *)
Theorem updateBuildGradle_settings gradle cfg a x b c y d e z f :
  validPackageName (packageName cfg) = true ->
  noDollar (versionName cfg) = true ->
  search reApplicationId gradle = Some (a, x, b) ->
  search reVersionCode b = Some (c, y, d) ->
  search reVersionName d = Some (e, z, f) ->
  skippable reVersionCode (a ++ applicationIdSetting cfg) b = true ->
  skippable reVersionName ((a ++ applicationIdSetting cfg) ++ c ++ versionCodeSetting cfg) d
    = true ->
  gradle = a ++ x ++ c ++ y ++ e ++ z ++ f
  /\ updateBuildGradle gradle cfg
     = a ++ (js "applicationId " ++ [dq] ++ packageName cfg ++ [dq])
         ++ c ++ (js "versionCode "
                  ++ numberToString (if (versionCode cfg =? 0)%Z then 1 else versionCode cfg))
         ++ e ++ (js "versionName " ++ [dq]
                  ++ match versionName cfg with [] => js "1.0.0" | v => v end ++ [dq])
         ++ f.
Proof.
  intros Hv Hn Ha Hc He Hs1 Hs2.
  assert (forall k, splits (reQuotedSetting k)) as Hq.
  { intros k. repeat apply seqm_splits; try apply lit_splits.
    - intros s w r H. unfold spacePlus in H. pose proof (span_app isStrWhiteSpace s) as E.
      destruct (span isStrWhiteSpace s) as [[|w0 w1] r1]; [discriminate H|].
      injection H as <- <-. symmetry. exact E.
    - apply notUnitStarThen_splits. }
  assert (splits reVersionCode) as Hvc.
  { repeat apply seqm_splits; try apply lit_splits.
    - intros s w r H. unfold spacePlus in H. pose proof (span_app isStrWhiteSpace s) as E.
      destruct (span isStrWhiteSpace s) as [[|w0 w1] r1]; [discriminate H|].
      injection H as <- <-. symmetry. exact E.
    - intros s w r H. unfold digitPlus in H. pose proof (span_app isDigit s) as E.
      destruct (span isDigit s) as [[|w0 w1] r1]; [discriminate H|].
      injection H as <- <-. symmetry. exact E. }
  split.
  - destruct (search_splits _ _ _ _ _ (Hq _) Ha) as [-> _].
    destruct (search_splits _ _ _ _ _ Hvc Hc) as [-> _].
    destruct (search_splits _ _ _ _ _ (Hq _) He) as [-> _].
    reflexivity.
  - unfold updateBuildGradle. cbv zeta.
    rewrite (replace_found _ _ _ _ _ _ Ha (applicationIdSetting_noDollar _ Hv)).
    rewrite app_assoc.
    rewrite (replace_skip_found _ _ _ _ _ _ _ Hs1 Hc (versionCodeSetting_noDollar cfg)).
    assert ((a ++ applicationIdSetting cfg) ++ c ++ versionCodeSetting cfg ++ d
            = ((a ++ applicationIdSetting cfg) ++ c ++ versionCodeSetting cfg) ++ d) as ->
      by (rewrite <- !app_assoc; reflexivity).
    rewrite (replace_skip_found _ _ _ _ _ _ _ Hs2 He (versionNameSetting_noDollar _ Hn)).
    unfold applicationIdSetting, versionCodeSetting, versionNameSetting.
    rewrite <- !app_assoc. reflexivity.
Qed.

Lemma updateBuildGradle_settings_witness :
  validPackageName (packageName Samples.demoConfig) = true
  /\ noDollar (versionName Samples.demoConfig) = true
  /\ updateBuildGradle Fixtures.sampleGradle Samples.demoConfig
     = Fixtures.gradleHead ++ (js "applicationId " ++ [dq] ++ js "com.acme.demo" ++ [dq])
       ++ Fixtures.gradleIndent ++ (js "versionCode " ++ numberToString 1)
       ++ Fixtures.gradleIndent ++ (js "versionName " ++ [dq] ++ js "1.0.0" ++ [dq])
       ++ Fixtures.gradleTail.
Proof.
  split; [reflexivity|]. split; [reflexivity|].
  refine (proj2 (updateBuildGradle_settings Fixtures.sampleGradle Samples.demoConfig
            Fixtures.gradleHead
            (js "applicationId " ++ [dq] ++ js "com.web2apk.template" ++ [dq])
            (Fixtures.gradleIndent ++ js "versionCode 1" ++ Fixtures.gradleIndent
               ++ (js "versionName " ++ [dq] ++ js "1.0" ++ [dq]) ++ Fixtures.gradleTail)
            Fixtures.gradleIndent (js "versionCode 1")
            (Fixtures.gradleIndent ++ (js "versionName " ++ [dq] ++ js "1.0" ++ [dq])
               ++ Fixtures.gradleTail)
            Fixtures.gradleIndent (js "versionName " ++ [dq] ++ js "1.0" ++ [dq])
            Fixtures.gradleTail eq_refl eq_refl _ _ _ _ _)); vm_compute; reflexivity.
Defined.


(** ** colors.xml *)

Lemma hexDigits_noDollar s : forallb isHexDigit s = true -> noDollar s = true.
Proof.
  unfold noDollar. induction s as [|c s IH]; intros H; [reflexivity|].
  cbn [forallb] in *. apply andb_true_iff in H as [Hc H]. rewrite (IH H), andb_true_r.
  destruct (N.eqb_spec c dollar) as [->|_]; [vm_compute in Hc; discriminate Hc|reflexivity].
Qed.

Lemma splashColor_pattern cfg :
  splashBackground cfg = [] \/ splashBackgroundPattern (splashBackground cfg) = true ->
  splashBackgroundPattern (splashColor cfg) = true.
Proof.
  unfold splashColor. intros [->|H]; [reflexivity|].
  destruct (splashBackground cfg); [discriminate H|exact H].
Qed.

Lemma splashBackgroundPattern_noDollar s : splashBackgroundPattern s = true -> noDollar s = true.
Proof.
  destruct s as [|c s]; [discriminate|]. cbn [splashBackgroundPattern].
  intros H. apply andb_true_iff in H as [H Hh]. apply andb_true_iff in H as [Hc _].
  apply N.eqb_eq in Hc. subst c.
  change (noDollar (35%N :: s)) with (noDollar s). apply hexDigits_noDollar. exact Hh.
Qed.

(** X7.  For a splash background that is empty or a colour the request
    validator lets through, [processSplashScreen] writes a colour of that
    form, the given one or [#FFFFFF] when it is empty, as the value of the
    first [splash_background] colour of colors.xml and changes nothing else
    in the file; a file without that colour is written back as it was read.
    The splash logo is written, fitted inside 512 by 512, exactly when a
    splash image was uploaded. *)
Theorem processSplashScreen_validated projectDir colors cfg :
  splashBackground cfg = [] \/ splashBackgroundPattern (splashBackground cfg) = true ->
  splashBackgroundPattern (splashColor cfg) = true
  /\ match search reSplashColor colors with
     | Some (p, x, r) =>
         colors = p ++ x ++ r
         /\ (exists old, x = colorOpen ++ old ++ colorClose)
         /\ fst (processSplashScreen projectDir colors cfg)
            = p ++ (colorOpen ++ splashColor cfg ++ colorClose) ++ r
     | None => fst (processSplashScreen projectDir colors cfg) = colors
     end
  /\ snd (processSplashScreen projectDir colors cfg)
     = match splashImage cfg with
       | Some (c :: p) =>
           Some (mkResize (c :: p) 512 512 true
                   (pathJoin projectDir (js "app/src/main/res/drawable/splash_logo.png")))
       | _ => None
       end.
Proof.
  intros Hv. pose proof (splashColor_pattern cfg Hv) as Hp.
  split; [exact Hp|]. split; [|reflexivity].
  cbn [processSplashScreen fst].
  destruct (search reSplashColor colors) as [[[p x] r]|] eqn:Hs.
  - assert (splits reSplashColor) as Hsp
      by (apply seqm_splits; [apply lit_splits | apply dotStarThen_splits]).
    destruct (search_splits _ _ _ _ _ Hsp Hs) as [Hm Hx].
    split; [exact Hm|]. split; [exact (openDotStarClose_match _ _ _ _ _ Hx)|].
    apply (replace_found _ _ _ _ _ _ Hs).
    rewrite !noDollar_app, (splashBackgroundPattern_noDollar _ Hp). reflexivity.
  - apply replace_none. exact Hs.
Qed.

Lemma processSplashScreen_validated_witness :
  (splashBackground Samples.demoConfig = []
   \/ splashBackgroundPattern (splashBackground Samples.demoConfig) = true)
  /\ fst (processSplashScreen (js "/app/temp/b1") Fixtures.sampleColors Samples.demoConfig)
     = Fixtures.colorsHead ++ (colorOpen ++ js "#112233" ++ colorClose) ++ Fixtures.colorsTail.
Proof.
  split; [right; reflexivity|].
  pose proof (processSplashScreen_validated (js "/app/temp/b1") Fixtures.sampleColors
                Samples.demoConfig (or_intror eq_refl)) as H.
  assert (search reSplashColor Fixtures.sampleColors
          = Some (Fixtures.colorsHead, colorOpen ++ js "#FFFFFF" ++ colorClose,
                  Fixtures.colorsTail)) as Hs by (vm_compute; reflexivity).
  rewrite Hs in H. destruct H as (_ & (_ & _ & H) & _). exact H.
Defined.


End PatchFacts.

(* ===================================================================== *)
(** * Properties: numbers written and read                                 *)
(* ===================================================================== *)

Module NumberFacts.
Import JS BuildPatches.

Lemma js_String a s : js (String a s) = N_of_ascii a :: js s.
Proof. reflexivity. Qed.

Lemma digits_acc u : forall acc,
  digits 10 (Some (Npos acc)) (js (NilEmpty.string_of_uint u))
  = Some (Npos (Pos.of_uint_acc u acc)).
Proof.
  induction u; intros acc; cbn [NilEmpty.string_of_uint Pos.of_uint_acc];
    [reflexivity|..]; rewrite js_String; cbn [digits];
    match goal with |- context [digitValue 10 ?c] =>
      let v := eval vm_compute in (digitValue 10 c) in change (digitValue 10 c) with v end;
    cbv iota beta;
    match goal with |- digits 10 (Some ?a) _ = Some (Npos (Pos.of_uint_acc _ ?b)) =>
      replace a with (Npos b) by lia end; apply IHu.
Qed.

Lemma digits_zero u :
  digits 10 (Some 0%N) (js (NilEmpty.string_of_uint u)) = Some (Pos.of_uint u).
Proof.
  induction u; cbn [NilEmpty.string_of_uint Pos.of_uint];
    [reflexivity|..]; rewrite js_String; cbn [digits];
    match goal with |- context [digitValue 10 ?c] =>
      let v := eval vm_compute in (digitValue 10 c) in change (digitValue 10 c) with v end;
    cbv iota beta; first [exact IHu | apply (digits_acc u 1) | idtac].
  all: match goal with |- digits 10 (Some ?a) _ = Some (Npos (Pos.of_uint_acc _ ?b)) =>
      change a with (Npos b) end; apply digits_acc.
Qed.

Lemma string_of_uint_digits u : forallb isDigit (js (NilEmpty.string_of_uint u)) = true.
Proof. induction u; cbn [NilEmpty.string_of_uint]; try reflexivity; exact IHu. Qed.

Lemma string_of_uint_nonempty u : u <> Decimal.Nil -> js (NilEmpty.string_of_uint u) <> [].
Proof. destruct u; [congruence|..]; discriminate. Qed.

Lemma digits_none u :
  u <> Decimal.Nil -> digits 10 None (js (NilEmpty.string_of_uint u)) = Some (Pos.of_uint u).
Proof.
  destruct u; intros H; [congruence|..];
    cbn [NilEmpty.string_of_uint Pos.of_uint]; rewrite js_String; cbn [digits];
    match goal with |- context [digitValue 10 ?c] =>
      let v := eval vm_compute in (digitValue 10 c) in change (digitValue 10 c) with v end;
    cbv iota beta; first [apply digits_zero | apply digits_acc].
Qed.

(** [parseInt] on a string of decimal digits. *)
Lemma parseIntString_digits s :
  forallb isDigit s = true -> s <> [] ->
  parseIntString s = option_map Z.of_N (digits 10 None s).
Proof.
  intros Hd Hne. unfold parseIntString.
  destruct s as [|c s]; [congruence|]. clear Hne.
  cbn [forallb] in Hd. apply andb_true_iff in Hd as [Hc Hd].
  assert (isStrWhiteSpace c = false /\ (c =? 45)%N = false /\ (c =? 43)%N = false) as (W & M & P).
  { unfold isDigit in Hc. apply andb_true_iff in Hc as [H1 H2].
    apply N.leb_le in H1, H2. unfold isStrWhiteSpace.
    repeat match goal with
    | |- context [(?a =? ?b)%N] => destruct (N.eqb_spec a b); [lia|]
    | |- context [(?a <=? ?b)%N] => destruct (N.leb_spec a b)
    end; cbn; repeat split; lia. }
  cbn [span]. rewrite W. cbn [snd]. rewrite M, P.
  assert (match c :: s with
          | z :: x :: s' =>
              if ((z =? 48) && ((x =? 120) || (x =? 88)))%N then (16%N, s') else (10%N, c :: s)
          | _ => (10%N, c :: s)
          end = (10%N, c :: s)) as ->.
  { destruct s as [|x s']; [reflexivity|].
    cbn [forallb] in Hd. apply andb_true_iff in Hd as [Hx _].
    unfold isDigit in Hx. apply andb_true_iff in Hx as [H1 H2]. apply N.leb_le in H1, H2.
    destruct (N.eqb_spec x 120); [lia|]. destruct (N.eqb_spec x 88); [lia|].
    rewrite andb_false_r. reflexivity. }
  destruct (digits 10 None (c :: s)); reflexivity.
Qed.

Lemma parseIntString_minus s :
  forallb isDigit s = true -> s <> [] ->
  parseIntString (45%N :: s) = option_map (fun n => (- Z.of_N n)%Z) (digits 10 None s).
Proof.
  intros Hd Hne. unfold parseIntString.
  change (span isStrWhiteSpace (45%N :: s)) with (@nil N, 45%N :: s). cbn [snd].
  change (45 =? 45)%N with true. cbv iota.
  assert (match s with
          | z :: x :: s' =>
              if ((z =? 48) && ((x =? 120) || (x =? 88)))%N then (16%N, s') else (10%N, s)
          | _ => (10%N, s)
          end = (10%N, s)) as ->.
  { destruct s as [|c [|x s']]; [reflexivity|reflexivity|].
    cbn [forallb] in Hd. apply andb_true_iff in Hd as [_ Hd].
    apply andb_true_iff in Hd as [Hx _].
    unfold isDigit in Hx. apply andb_true_iff in Hx as [H1 H2]. apply N.leb_le in H1, H2.
    destruct (N.eqb_spec x 120); [lia|]. destruct (N.eqb_spec x 88); [lia|].
    rewrite andb_false_r. reflexivity. }
  destruct (digits 10 None s); reflexivity.
Qed.

(** What is written for an integer is read back by [parseInt] as that
    integer. *)
Lemma parseInt_numberToString n : parseInt (Some (numberToString n)) = Some n.
Proof.
  unfold parseInt, numberToString, NilZero.string_of_int, NilZero.string_of_uint.
  destruct n as [|p|p]; [reflexivity| |]; cbn [Z.to_int].
  - pose proof (DecimalPos.Unsigned.to_uint_nonnil p) as Hn.
    assert (match Pos.to_uint p with
            | Decimal.Nil => "0"%string
            | _ => NilEmpty.string_of_uint (Pos.to_uint p)
            end = NilEmpty.string_of_uint (Pos.to_uint p)) as ->
      by (destruct (Pos.to_uint p); [congruence|..]; reflexivity).
    rewrite parseIntString_digits, digits_none, DecimalPos.Unsigned.of_to
      by first [apply string_of_uint_digits | apply string_of_uint_nonempty; exact Hn | exact Hn].
    reflexivity.
  - pose proof (DecimalPos.Unsigned.to_uint_nonnil p) as Hn.
    assert (js (String "-" match Pos.to_uint p with
                           | Decimal.Nil => "0"%string
                           | _ => NilEmpty.string_of_uint (Pos.to_uint p)
                           end)
            = 45%N :: js (NilEmpty.string_of_uint (Pos.to_uint p))) as ->
      by (destruct (Pos.to_uint p); [congruence|..]; reflexivity).
    rewrite parseIntString_minus, digits_none, DecimalPos.Unsigned.of_to
      by first [apply string_of_uint_digits | apply string_of_uint_nonempty; exact Hn | exact Hn].
    reflexivity.
Qed.

Lemma parseIntOr_numberToString n d :
  n <> 0%Z -> parseIntOr (Some (numberToString n)) d = n.
Proof.
  intros H. unfold parseIntOr. rewrite parseInt_numberToString.
  destruct (Z.eqb_spec n 0); [congruence|reflexivity].
Qed.

End NumberFacts.

(* ===================================================================== *)
(** * Properties: the monthly build allowance                              *)
(* ===================================================================== *)

Module AllowanceFacts.
Import JS UserModel Observations.

Section Allowance.

Variable env : gmap string (list N).
Variable calendar : Calendar.

Lemma maxBuilds_plan u v1 v2 v3 v4 :
  maxBuilds env (mkUser (plan u) v1 v2 v3 v4) = maxBuilds env u.
Proof. reflexivity. Qed.

Lemma createBuild_usage_budget m y now rest u :
  getMonth calendar now = m -> getFullYear calendar now = y ->
  (0 <= buildsThisMonth u)%Z ->
  (0 <= buildsThisMonth (snd (createBuild_usage env calendar now rest u)))%Z
  /\ (budget env calendar m y (snd (createBuild_usage env calendar now rest u))
      + (if fst (fst (createBuild_usage env calendar now rest u)) then 1 else 0)
      <= budget env calendar m y u)%Z.
Proof.
  intros Hm Hy Hb.
  unfold createBuild_usage, canBuild, budget, counterIn, incrementBuildCount, maxBuilds.
  destruct u as [pl b t l r].
  cbn [plan buildsThisMonth totalBuilds lastBuildDate monthResetDate] in *.
  set (M := match pl with
            | pro => parseIntOr (env !! "MAX_PRO_BUILDS_PER_MONTH"%string) 999
            | free => parseIntOr (env !! "MAX_FREE_BUILDS_PER_MONTH"%string) 3
            end).
  rewrite Hm, Hy.
  destruct (Z.eqb_spec m (getMonth calendar r)) as [E1|E1];
    destruct (Z.eqb_spec y (getFullYear calendar r)) as [E2|E2];
    cbn [negb orb andb plan buildsThisMonth monthResetDate fst snd]; fold M;
    match goal with |- context [(?a <? M)%Z] => destruct (Z.ltb_spec a M) end;
    cbn [negb fst snd]; try destruct rest;
    cbn [fst snd plan buildsThisMonth monthResetDate]; fold M;
    repeat match goal with
    | |- context [(?a =? ?b)%Z] => destruct (Z.eqb_spec a b)
    end; cbn [andb]; try lia; congruence.
Qed.

Lemma createBuilds_budget m y requests : forall u,
  (0 <= buildsThisMonth u)%Z ->
  Forall (fun r => getMonth calendar (fst r) = m /\ getFullYear calendar (fst r) = y) requests ->
  (Z.of_nat (fst (createBuilds env calendar requests u)) <= budget env calendar m y u)%Z.
Proof.
  induction requests as [|[now rest] requests IH]; intros u Hb Hall.
  - cbn. unfold budget. destruct (counterIn calendar m y u); lia.
  - inversion Hall as [|? ? [Hm Hy] Hall']; subst. cbn [fst] in *.
    cbn [createBuilds].
    destruct (createBuild_usage_budget _ _ now rest u eq_refl eq_refl Hb) as [Hb' Hstep].
    destruct (createBuild_usage env calendar now rest u) as [[acc rep] u'].
    cbn [fst snd] in *. specialize (IH u' Hb' Hall').
    destruct (createBuilds env calendar requests u') as [n fin]. cbn [fst] in *.
    destruct acc; lia.
Qed.

Lemma budget_le m y u :
  (0 <= buildsThisMonth u)%Z -> (budget env calendar m y u <= Z.max 0 (maxBuilds env u))%Z.
Proof. intros H. unfold budget. destruct (counterIn calendar m y u); lia. Qed.

Lemma createBuilds_totals requests : forall u,
  totalBuilds (snd (createBuilds env calendar requests u))
  = (totalBuilds u + Z.of_nat (fst (createBuilds env calendar requests u)))%Z
  /\ plan (snd (createBuilds env calendar requests u)) = plan u
  /\ ((0 <= buildsThisMonth u <= totalBuilds u)%Z ->
      (0 <= buildsThisMonth (snd (createBuilds env calendar requests u))
       <= totalBuilds (snd (createBuilds env calendar requests u)))%Z).
Proof.
  induction requests as [|[now rest] requests IH]; intros u.
  - cbn. repeat split; lia.
  - cbn [createBuilds].
    assert (let r := createBuild_usage env calendar now rest u in
            totalBuilds (snd r) = (totalBuilds u + (if fst (fst r) then 1 else 0))%Z
            /\ plan (snd r) = plan u
            /\ ((0 <= buildsThisMonth u <= totalBuilds u)%Z ->
                (0 <= buildsThisMonth (snd r) <= totalBuilds (snd r))%Z)) as Hstep.
    { unfold createBuild_usage, canBuild.
      destruct (negb _ || negb _); cbn [buildsThisMonth];
        match goal with |- context [(?a <? ?b)%Z] => destruct (Z.ltb_spec a b) end;
        cbn [negb]; try destruct rest; cbn; repeat split; lia. }
    cbv zeta in Hstep.
    destruct (createBuild_usage env calendar now rest u) as [[acc rep] u'].
    cbn [fst snd] in Hstep. destruct Hstep as (Ht & Hp & Hi).
    specialize (IH u'). destruct (createBuilds env calendar requests u') as [n fin].
    cbn [fst snd] in *. destruct IH as (IHt & IHp & IHi).
    destruct acc; (split; [lia|]); (split; [congruence|]); intros H; apply IHi, Hi, H.
Qed.

End Allowance.

(** X8.  The monthly allowance holds: of any number of build requests that a
    user makes one after the other at times that fall in one calendar month,
    [createBuild] answers 201 to at most [maxBuilds] of them
    (MAX_FREE_BUILDS_PER_MONTH, 3 when unset, on the free plan;
    MAX_PRO_BUILDS_PER_MONTH, 999 when unset, on the pro plan), and to none
    when that number is negative; whatever the counter of the stored user
    was before, as long as it was not negative. *)
Theorem monthly_allowance env calendar m y requests u :
  (0 <= buildsThisMonth u)%Z ->
  Forall (fun r => getMonth calendar (fst r) = m /\ getFullYear calendar (fst r) = y) requests ->
  (Z.of_nat (fst (createBuilds env calendar requests u)) <= Z.max 0 (maxBuilds env u))%Z.
Proof.
  intros Hb Hall. pose proof (createBuilds_budget env calendar m y requests u Hb Hall).
  pose proof (budget_le env calendar m y u Hb). lia.
Qed.

Lemma monthly_allowance_witness :
  (0 <= buildsThisMonth Fixtures.newUser)%Z
  /\ fst (createBuilds ∅ Fixtures.thirtyDays Fixtures.fourRequests Fixtures.newUser) = 3%nat
  /\ (Z.of_nat (fst (createBuilds ∅ Fixtures.thirtyDays Fixtures.fourRequests Fixtures.newUser))
      <= Z.max 0 (maxBuilds ∅ Fixtures.newUser))%Z.
Proof.
  split; [reflexivity|]. split; [reflexivity|].
  apply (monthly_allowance ∅ Fixtures.thirtyDays 0 1970 Fixtures.fourRequests Fixtures.newUser).
  - reflexivity.
  - repeat (constructor; [split; reflexivity|]). constructor.
Defined.

(** X9.  When [createBuild] refuses a build because the allowance is used
    up, the number of remaining builds it reports is zero, and the stored
    user is as before: the reset of the counter that [canBuild] makes for a
    new month is not saved by a refused request. *)
Theorem refusal_reports_zero env calendar now rest u remaining u' :
  createBuild_usage env calendar now rest u = (false, Some remaining, u') ->
  remaining = 0%Z /\ u' = u /\ fst (canBuild env calendar now u) = false.
Proof.
  unfold createBuild_usage.
  destruct (canBuild env calendar now u) as [ok doc] eqn:E.
  destruct ok; cbn [negb].
  - destruct rest; intros H; discriminate H.
  - intros H. injection H as <- <-. split; [|split; reflexivity].
    unfold canBuild in E. injection E as E <-.
    apply Z.ltb_ge in E. unfold getRemainingBuilds.
    destruct (negb _ || negb _); cbn [buildsThisMonth] in *; rewrite ?maxBuilds_plan in *; lia.
Qed.

Lemma refusal_reports_zero_witness :
  createBuild_usage ∅ Fixtures.thirtyDays 5000 (Some 5100%Z) (mkUser free 3 7 (Some 4000%Z) 1000)
  = (false, Some 0%Z, mkUser free 3 7 (Some 4000%Z) 1000)
  /\ fst (canBuild ∅ Fixtures.thirtyDays 5000 (mkUser free 3 7 (Some 4000%Z) 1000)) = false.
Proof.
  split; [reflexivity|].
  exact (proj2 (proj2 (refusal_reports_zero ∅ Fixtures.thirtyDays 5000 (Some 5100%Z)
                         (mkUser free 3 7 (Some 4000%Z) 1000) 0
                         (mkUser free 3 7 (Some 4000%Z) 1000) eq_refl))).
Defined.

(** X10.  Over any series of build requests of a user, made one after the
    other, [totalBuilds] grows by exactly the number of requests answered
    201, the plan is not touched, and the counter of the month stays between
    zero and [totalBuilds] when it was so before. *)
Theorem totalBuilds_counts_accepted env calendar requests u :
  totalBuilds (snd (createBuilds env calendar requests u))
  = (totalBuilds u + Z.of_nat (fst (createBuilds env calendar requests u)))%Z
  /\ plan (snd (createBuilds env calendar requests u)) = plan u
  /\ ((0 <= buildsThisMonth u <= totalBuilds u)%Z ->
      (0 <= buildsThisMonth (snd (createBuilds env calendar requests u))
       <= totalBuilds (snd (createBuilds env calendar requests u)))%Z).
Proof. apply createBuilds_totals. Qed.

End AllowanceFacts.

(* ===================================================================== *)
(** * Properties: expiry, downloads, listing and deletion                  *)
(* ===================================================================== *)

Module RecordFacts.
Import JS JSFacts BuildService BuildModel Controller BuildRecords Handlers Observations
       NumberFacts.

(** ** Documents *)

Lemma units_eqb_eq a b : units_eqb a b = true <-> a = b.
Proof. unfold units_eqb. apply bool_decide_eq_true. Qed.

Lemma opt_eqb_eq {A} (eqb : A -> A -> bool) :
  (forall x y, eqb x y = true -> x = y) -> forall a b, opt_eqb eqb a b = true -> a = b.
Proof.
  intros H [x|] [y|] E; cbn in E; try discriminate E; [|reflexivity].
  rewrite (H x y E). reflexivity.
Qed.

Lemma eqPath_eq p a b : eqPath p a b = true -> a = b.
Proof.
  destruct p; cbn [eqPath pathType] in *; intros E;
    first [ apply WorkerFacts.Status_eqb_eq; exact E
          | apply Z.eqb_eq; exact E
          | apply units_eqb_eq; exact E
          | apply (opt_eqb_eq units_eqb (fun x y => proj1 (units_eqb_eq x y))); exact E
          | apply (opt_eqb_eq Z.eqb (fun x y => proj1 (Z.eqb_eq x y))); exact E ].
Qed.

Lemma putPath_getPath p b : putPath p (getPath p b) b = b.
Proof. destruct b, p; reflexivity. Qed.

(** Whether or not the value is new, the document holds it afterwards. *)
Lemma fields_assign p v d : fields (assign p v d) = putPath p v (fields d).
Proof.
  unfold assign. destruct (eqPath p (getPath p (fields d)) v) eqn:E; [|reflexivity].
  apply eqPath_eq in E. rewrite <- E, putPath_getPath. reflexivity.
Qed.

Lemma fields_markCompleted env now apkPath apkSize downloadUrl cloudinaryPublicId d :
  fields (markCompleted_assign env now apkPath apkSize downloadUrl cloudinaryPublicId d)
  = mkBuild (user (fields d)) completed 100 (js "Build completed successfully")
            (Some apkPath) (Some apkSize) (Some downloadUrl) cloudinaryPublicId
            (buildTime_startedAt (fields d)) (Some now)
            (Some (now - default 0 (buildTime_startedAt (fields d)))%Z)
            (error_message (fields d)) (error_stack (fields d)) (error_code (fields d))
            (jobId (fields d))
            (Some (now + (if isPremium (fields d)
                          then parseIntOr (env !! "APK_RETENTION_DAYS_PRO"%string) 365
                          else parseIntOr (env !! "APK_RETENTION_DAYS_FREE"%string) 1)
                         * dayMs)%Z)
            (isPremium (fields d)).
Proof.
  unfold markCompleted_assign. cbv zeta. rewrite !fields_assign. reflexivity.
Qed.

Lemma parseIntOr_nonzero v d : d <> 0%Z -> parseIntOr v d <> 0%Z.
Proof.
  intros Hd. unfold parseIntOr. destruct (parseInt v) as [n|]; [|exact Hd].
  destruct (Z.eqb_spec n 0); assumption.
Qed.

(** X11.  [markCompleted] sets the expiry of a build to the time of
    completion plus the retention of its plan: APK_RETENTION_DAYS_PRO days
    for a premium build, 365 when unset, APK_RETENTION_DAYS_FREE days for
    any other, 1 when unset; the number of days is never zero (a setting of
    zero counts as unset).  A record that holds the completed document is
    expired, by [isExpired], at the times after that moment and at no
    other. *)
Theorem markCompleted_retention env now apkPath apkSize downloadUrl cloudinaryPublicId d :
  let d' := markCompleted_assign env now apkPath apkSize downloadUrl cloudinaryPublicId d in
  let days := retentionDays env (isPremium (fields d)) in
  expiresAt (fields d') = Some (now + days * 86400000)%Z
  /\ days <> 0%Z
  /\ retentionDays ∅ true = 365%Z /\ retentionDays ∅ false = 1%Z
  /\ (forall b t, core b = fields d' ->
        isExpired t b = true <-> (now + days * 86400000 < t)%Z).
Proof.
  cbv zeta. rewrite fields_markCompleted. cbn [expiresAt].
  split; [reflexivity|]. split.
  { unfold retentionDays. destruct (isPremium (fields d)); apply parseIntOr_nonzero; discriminate. }
  split; [reflexivity|]. split; [reflexivity|].
  intros b t Hb. unfold isExpired. rewrite Hb. cbn [expiresAt].
  unfold retentionDays, dayMs. rewrite Z.gtb_ltb, Z.ltb_lt. reflexivity.
Qed.

Ltac conjs := repeat match goal with |- _ /\ _ => split end.

(** ** downloadAPK *)

(** X12.  [downloadAPK] counts a download exactly when the build is the
    requesting user's, completed and not expired: then the counter goes up
    by one and the time is noted, also when the answer turns out to be 404
    because the artifact is not on the disk; in every other case the stored
    document is left as it is and the answer is an error, 403, 400 or 410.
    A file is sent only when it exists on the disk, under the name of the
    app, and a redirect or a file is answered only after the three
    checks. *)
Theorem downloadAPK_counts reqUser now disk b :
  snd (downloadAPK reqUser now disk (Some b))
  = Some (if downloadable reqUser now b then incrementDownloadCount now b else b)
  /\ (downloadable reqUser now b = false ->
      exists c m, fst (downloadAPK reqUser now disk (Some b)) = appError c m
                  /\ (c = 403 \/ c = 400 \/ c = 410)%Z)
  /\ (forall path filename,
        fst (downloadAPK reqUser now disk (Some b)) = download path filename ->
        downloadable reqUser now b = true /\ output_apkPath (core b) = Some path
        /\ access path disk = true /\ filename = appName (appConfig b) ++ js ".apk")
  /\ (forall url,
        fst (downloadAPK reqUser now disk (Some b)) = redirect url ->
        downloadable reqUser now b = true /\ output_apkPath (core b) = Some url)
  /\ (forall path,
        downloadable reqUser now b = true -> output_apkPath (core b) = Some path ->
        startsWith (js "https://") path = None -> access path disk = false ->
        exists m, fst (downloadAPK reqUser now disk (Some b)) = appError 404 m).
Proof.
  unfold downloadAPK, downloadable.
  destruct (units_eqb (user (core b)) reqUser); cbn [negb andb].
  2: { conjs; try (intros; discriminate); eauto 10. }
  destruct (Status_eqb (status (core b)) completed); cbn [negb andb].
  2: { conjs; try (intros; discriminate); eauto 10. }
  destruct (isExpired now b); cbn [negb andb].
  { conjs; try (intros; discriminate); eauto 10. }
  cbn [fst snd incrementDownloadCount core appConfig].
  split; [reflexivity|]. split; [discriminate|].
  destruct (output_apkPath (core b)) as [[|c p]|] eqn:Hp.
  - conjs; try (intros; discriminate). intros path _ E. injection E as <-.
    intros _ _. eauto.
  - destruct (startsWith (js "https://") (c :: p)) eqn:Hs.
    + conjs; try (intros; discriminate).
      * intros url E. injection E as <-. split; reflexivity.
      * intros path _ E. injection E as <-. rewrite Hs. discriminate.
    + destruct (access (c :: p) disk) eqn:Ha.
      * conjs; try (intros; discriminate).
        -- intros path filename E. injection E as <- <-. repeat split. exact Ha.
        -- intros path _ E. injection E as <-. rewrite Ha. discriminate.
      * conjs; try (intros; discriminate). eauto.
  - conjs; try (intros; discriminate).
Qed.

(** X13.  A build that the worker has marked completed at the time [done],
    with its artifact in a local file that is on the disk, is sent to its
    owner under the name of the app at every time up to [done] plus the
    retention of the plan; at every later time the answer is 410, as long as
    the record is found (the index on [expiresAt] lets the database drop
    expired records). *)
Theorem download_until_expiry env done apkPath apkSize downloadUrl d b reqUser t disk :
  core b = fields (markCompleted_assign env done apkPath apkSize downloadUrl None d) ->
  user (fields d) = reqUser ->
  apkPath <> [] ->
  startsWith (js "https://") apkPath = None ->
  access apkPath disk = true ->
  fst (downloadAPK reqUser t disk (Some b))
  = if (done + retentionDays env (isPremium (fields d)) * 86400000 <? t)%Z
    then appError 410 (js "Build has expired")
    else download apkPath (appName (appConfig b) ++ js ".apk").
Proof.
  intros Hb Hu Hne Hs Ha. rewrite fields_markCompleted in Hb.
  unfold downloadAPK, isExpired. rewrite Hb.
  cbn [user status expiresAt output_apkPath incrementDownloadCount core appConfig].
  rewrite (proj2 (units_eqb_eq _ _) Hu). cbn [negb Status_eqb].
  unfold retentionDays. change dayMs with 86400000%Z. rewrite Z.gtb_ltb.
  match goal with |- context [(?a <? t)%Z] => destruct (a <? t)%Z end; [reflexivity|].
  cbn [fst]. rewrite Hb. cbn [output_apkPath].
  destruct apkPath as [|c p]; [congruence|]. rewrite Hs, Ha. reflexivity.
Qed.

Lemma download_until_expiry_witness :
  core Fixtures.completedBuild
  = fields (markCompleted_assign ∅ 5000 Fixtures.artifactPath 4096 (js "/downloads/b1.apk")
                                 None (hydrate Samples.freshBuild))
  /\ user (fields (hydrate Samples.freshBuild)) = js "u1"
  /\ Fixtures.artifactPath <> []
  /\ startsWith (js "https://") Fixtures.artifactPath = None
  /\ access Fixtures.artifactPath Fixtures.sampleDisk = true
  /\ fst (downloadAPK (js "u1") 6000 Fixtures.sampleDisk (Some Fixtures.completedBuild))
     = download Fixtures.artifactPath (js "Demo.apk")
  /\ fst (downloadAPK (js "u1") 86405001 Fixtures.sampleDisk (Some Fixtures.completedBuild))
     = appError 410 (js "Build has expired").
Proof.
  assert (core Fixtures.completedBuild
          = fields (markCompleted_assign ∅ 5000 Fixtures.artifactPath 4096
                      (js "/downloads/b1.apk") None (hydrate Samples.freshBuild))) as Hc
    by (vm_compute; reflexivity).
  assert (user (fields (hydrate Samples.freshBuild)) = js "u1") as Hu
    by (vm_compute; reflexivity).
  assert (Fixtures.artifactPath <> []) as Hne by (vm_compute; discriminate).
  assert (startsWith (js "https://") Fixtures.artifactPath = None) as Hs
    by (vm_compute; reflexivity).
  assert (access Fixtures.artifactPath Fixtures.sampleDisk = true) as Ha
    by (vm_compute; reflexivity).
  split; [exact Hc|]. split; [exact Hu|]. split; [exact Hne|].
  split; [exact Hs|]. split; [exact Ha|]. split.
  - pose proof (download_until_expiry ∅ 5000 Fixtures.artifactPath 4096 (js "/downloads/b1.apk")
                  (hydrate Samples.freshBuild) Fixtures.completedBuild (js "u1") 6000
                  Fixtures.sampleDisk Hc Hu Hne Hs Ha) as H.
    vm_compute in H. vm_compute. exact H.
  - pose proof (download_until_expiry ∅ 5000 Fixtures.artifactPath 4096 (js "/downloads/b1.apk")
                  (hydrate Samples.freshBuild) Fixtures.completedBuild (js "u1") 86405001
                  Fixtures.sampleDisk Hc Hu Hne Hs Ha) as H.
    vm_compute in H. vm_compute. exact H.
Defined.


(** ** deleteBuild and getUserBuilds *)

Lemma tryUnlink_files path disk :
  files (tryUnlink path disk) ⊆ files disk
  /\ undeletable (tryUnlink path disk) = undeletable disk
  /\ (forall f, f ∈ files disk -> Some f <> path -> f ∈ files (tryUnlink path disk)).
Proof.
  unfold tryUnlink, unlink. destruct path as [[|c p]|]; [by auto| |by auto].
  destruct (bool_decide _ && negb _); cbn [files undeletable]; [|by auto].
  split; [apply subseteq_difference_l; reflexivity|]. split; [reflexivity|].
  intros f Hf Hne. apply elem_of_difference. split; [exact Hf|].
  intros E. apply elem_of_singleton in E. congruence.
Qed.

Lemma buildsOf_deleted reqUser pre b post :
  buildsOf reqUser (pre ++ setIsDeleted true b :: post) = buildsOf reqUser (pre ++ post).
Proof.
  unfold buildsOf. rewrite !List.filter_app. cbn [List.filter isDeleted setIsDeleted negb].
  rewrite andb_false_r. reflexivity.
Qed.

(** X14.  [deleteBuild] asked by the owner of a build always answers 200 and
    marks the stored document deleted, whether or not the artifact, the icon
    and the splash image can be removed from the disk; it removes no file
    but those three, and changes nothing else in the document.  From then on
    the build is in no listing of [getUserBuilds]: the listing is the one of
    the collection without it. *)
Theorem deleteBuild_soft reqUser disk b :
  user (core b) = reqUser ->
  let r := deleteBuild reqUser disk (Some b) in
  fst (fst r) = json tt
  /\ snd (fst r) = Some (setIsDeleted true b)
  /\ files (snd r) ⊆ files disk
  /\ (forall f, f ∈ files disk ->
        Some f <> output_apkPath (core b) -> Some f <> appIcon (appConfig b) ->
        Some f <> splashImage (appConfig b) -> f ∈ files (snd r))
  /\ (forall now queryPage queryLimit pre post,
        getUserBuilds reqUser now queryPage queryLimit (pre ++ setIsDeleted true b :: post)
        = getUserBuilds reqUser now queryPage queryLimit (pre ++ post)).
Proof.
  intros Hu. cbv zeta. unfold deleteBuild.
  rewrite (proj2 (units_eqb_eq _ _) Hu). cbn [negb fst snd].
  split; [reflexivity|]. split; [reflexivity|].
  pose proof (tryUnlink_files (output_apkPath (core b)) disk) as (S1 & _ & K1).
  pose proof (tryUnlink_files (appIcon (appConfig b))
                (tryUnlink (output_apkPath (core b)) disk)) as (S2 & _ & K2).
  pose proof (tryUnlink_files (splashImage (appConfig b))
                (tryUnlink (appIcon (appConfig b))
                   (tryUnlink (output_apkPath (core b)) disk))) as (S3 & _ & K3).
  split; [set_solver|]. split.
  - intros f Hf N1 N2 N3. apply K3; [|exact N3]. apply K2; [|exact N2]. apply K1; assumption.
  - intros now queryPage queryLimit pre post. unfold getUserBuilds.
    rewrite buildsOf_deleted. reflexivity.
Qed.

Lemma deleteBuild_soft_witness :
  user (core Fixtures.completedBuild) = js "u1"
  /\ fst (fst (deleteBuild (js "u1") Fixtures.sampleDisk (Some Fixtures.completedBuild)))
     = json tt
  /\ snd (fst (deleteBuild (js "u1") Fixtures.sampleDisk (Some Fixtures.completedBuild)))
     = Some (setIsDeleted true Fixtures.completedBuild).
Proof.
  split; [reflexivity|].
  pose proof (deleteBuild_soft (js "u1") Fixtures.sampleDisk Fixtures.completedBuild eq_refl)
    as H.
  cbv zeta in H. destruct H as (H1 & H2 & _). split; [exact H1|exact H2].
Defined.


(** ** Pages *)

Lemma concat_pages {A} (k : nat) (l : list A) n :
  concat (map (fun i => take k (drop (i * k) l)) (seq 0 n)) = take (n * k) l.
Proof.
  induction n as [|n IH]; [reflexivity|].
  rewrite seq_S, map_app, concat_app, IH. cbn [map concat]. rewrite app_nil_r.
  cbn [Nat.add]. rewrite take_take_drop. f_equal. lia.
Qed.

Section Pages.

Variable reqUser : jsstring.
Variable now : Z.
Variable collection : list Stored.
Variable queryLimit : option jsstring.
Variable queryPage : nat -> option jsstring.

Abbreviation limit := (parseIntOr queryLimit 10).
Abbreviation everything := (map (listed now) (newestFirst (buildsOf reqUser collection))).
Abbreviation pageCount :=
  ((Z.of_nat (length (buildsOf reqUser collection)) + limit - 1) / limit)%Z.
Abbreviation pageOf := (Observations.pageOf reqUser now collection queryLimit queryPage).

Hypothesis limit_positive : (1 <= limit)%Z.
Hypothesis page_numbers : forall i, parseIntOr (queryPage i) 1 = Z.of_nat (S i).

Lemma insertNewestFirst_length b l : length (insertNewestFirst b l) = S (length l).
Proof.
  induction l as [|k l IH]; [reflexivity|]. cbn [insertNewestFirst].
  destruct (createdAt k <? createdAt b)%Z; cbn [length]; [reflexivity|]. rewrite IH. reflexivity.
Qed.

Lemma newestFirst_length l : length (newestFirst l) = length l.
Proof.
  induction l as [|b l IH]; [reflexivity|].
  cbn [newestFirst fold_right]. fold (newestFirst l).
  rewrite insertNewestFirst_length, IH. reflexivity.
Qed.

Lemma everything_length : length everything = length (buildsOf reqUser collection).
Proof. rewrite length_map. apply newestFirst_length. Qed.

Lemma getUserBuilds_page i :
  getUserBuilds reqUser now (queryPage i) queryLimit collection
  = Some (mkListing
            (Z.of_nat (length (take (Z.to_nat limit) (drop (i * Z.to_nat limit) everything))))
            (Z.of_nat (length everything)) pageCount (Z.of_nat (S i))
            (take (Z.to_nat limit) (drop (i * Z.to_nat limit) everything))).
Proof using All.
  unfold getUserBuilds. rewrite page_numbers.
  destruct (Z.ltb_spec (Z.of_nat (S i)) 1) as [?|_]; [lia|].
  destruct (Z.ltb_spec limit 1) as [?|_]; [lia|]. cbn [orb].
  assert (Z.to_nat ((Z.of_nat (S i) - 1) * limit) = (i * Z.to_nat limit)%nat) as -> by nia.
  rewrite skipn_map, firstn_map, !length_map, newestFirst_length.
  reflexivity.
Qed.

Lemma pageCount_bounds :
  (0 <= pageCount)%Z
  /\ (Z.of_nat (length everything) <= pageCount * limit)%Z
  /\ ((pageCount - 1) * limit < Z.of_nat (length everything)
       \/ (pageCount = 0 /\ everything = []))%Z.
Proof using All.
  rewrite everything_length.
  set (t := Z.of_nat (length (buildsOf reqUser collection))).
  assert (0 <= t)%Z as Ht by (unfold t; lia).
  pose proof (Z.mul_div_le (t + limit - 1) limit ltac:(lia)) as H1.
  pose proof (Z.mul_succ_div_gt (t + limit - 1) limit ltac:(lia)) as H2.
  pose proof (Z.div_pos (t + limit - 1) limit ltac:(lia) ltac:(lia)) as H3.
  split; [exact H3|]. split; [nia|].
  destruct (Z.eq_dec t 0%Z) as [E|E].
  - right. split.
    + rewrite E. apply Z.div_small. lia.
    + unfold t in E. apply length_zero_iff_nil. rewrite everything_length. lia.
  - left. nia.
Qed.

Lemma pages_cover_proof :
  concat (map pageOf (seq 0 (Z.to_nat pageCount))) = everything.
Proof using All.
  erewrite map_ext; [|intros i; unfold Observations.pageOf; rewrite getUserBuilds_page; reflexivity].
  cbn [builds]. rewrite concat_pages. apply take_ge.
  destruct pageCount_bounds as (H0 & H1 & _). nia.
Qed.

Lemma page_nonempty_proof i : pageOf i <> [] <-> (i < Z.to_nat pageCount)%nat.
Proof using All.
  unfold Observations.pageOf. rewrite getUserBuilds_page. cbn [builds].
  destruct pageCount_bounds as (H0 & H1 & H2).
  rewrite <- length_zero_iff_nil, length_take, length_drop. split.
  - intros H. destruct H2 as [H2|[H2 E]]; [nia|]. rewrite E in H. cbn in H. lia.
  - intros H. destruct H2 as [H2|[H2 E]]; [nia|]. lia.
Qed.

End Pages.

(** X15.  [getUserBuilds] with a limit of at least 1, asked for the pages
    1, 2, 3 and so on: every page holds at most [limit] builds and reports
    the same total, the number of builds of the user that are not deleted,
    and the same number of pages; the pages one after the other, up to the
    number of pages reported, give every such build exactly once, newest
    first; and a page holds a build exactly when its number is at most the
    number of pages reported. *)
Theorem getUserBuilds_pages reqUser now collection queryLimit :
  (1 <= parseIntOr queryLimit 10)%Z ->
  let limit := parseIntOr queryLimit 10 in
  let everything := map (listed now) (newestFirst (buildsOf reqUser collection)) in
  let pageCount := ((Z.of_nat (length (buildsOf reqUser collection)) + limit - 1) / limit)%Z in
  (forall i, exists l,
      getUserBuilds reqUser now (decimalPage i) queryLimit collection = Some l
      /\ total l = Z.of_nat (length (buildsOf reqUser collection))
      /\ pages l = pageCount /\ currentPage l = Z.of_nat (S i)
      /\ count l = Z.of_nat (length (builds l)) /\ (count l <= limit)%Z)
  /\ concat (map (pageOf reqUser now collection queryLimit decimalPage)
                 (seq 0 (Z.to_nat pageCount))) = everything
  /\ (forall i, pageOf reqUser now collection queryLimit decimalPage i <> []
                <-> (i < Z.to_nat pageCount)%nat).
Proof.
  intros Hl. cbv zeta.
  assert (forall i, parseIntOr (decimalPage i) 1 = Z.of_nat (S i)) as Hp
    by (intros i; apply parseIntOr_numberToString; lia).
  split; [|split].
  - intros i. eexists. split; [apply getUserBuilds_page; assumption|].
    cbn [total pages currentPage count builds].
    rewrite everything_length. repeat split. rewrite length_take. lia.
  - apply pages_cover_proof; assumption.
  - intros i. apply page_nonempty_proof; assumption.
Qed.

Lemma getUserBuilds_pages_witness :
  (1 <= parseIntOr (Some (js "2")) 10)%Z
  /\ concat (map (pageOf (js "u1") 0 Fixtures.sampleCollection (Some (js "2")) decimalPage)
                 (seq 0 2))
     = map (listed 0) (newestFirst (buildsOf (js "u1") Fixtures.sampleCollection)).
Proof.
  assert (1 <= parseIntOr (Some (js "2")) 10)%Z as Hl by (vm_compute; discriminate).
  split; [exact Hl|].
  pose proof (getUserBuilds_pages (js "u1") 0 Fixtures.sampleCollection (Some (js "2")) Hl) as H.
  cbv zeta in H. destruct H as (_ & H & _). exact H.
Defined.


(** ** The expiry sweep *)

Lemma unlink_spec path disk disk' :
  unlink path disk = Some disk' ->
  files disk' ⊆ files disk /\ undeletable disk' = undeletable disk /\ path ∉ files disk'.
Proof.
  unfold unlink. destruct (bool_decide _ && negb _); [|discriminate].
  intros E. injection E as <-. cbn [files undeletable]. split; [|split; [reflexivity|]].
  - apply subseteq_difference_l. reflexivity.
  - intros H. apply elem_of_difference in H as [_ H]. apply H. apply elem_of_singleton. reflexivity.
Qed.

Lemma unlink_fails path disk :
  unlink path disk = None -> path ∉ files disk \/ path ∈ undeletable disk.
Proof.
  unfold unlink. destruct (bool_decide (path ∈ files disk)) eqn:E1; cbn [andb].
  - destruct (bool_decide (path ∈ undeletable disk)) eqn:E2; cbn [negb]; [|discriminate].
    intros _. right. apply bool_decide_eq_true in E2. exact E2.
  - intros _. left. apply bool_decide_eq_false in E1. exact E1.
Qed.

Lemma swept_shrink now disk d1 d2 b b' :
  files d2 ⊆ files d1 -> swept now disk d1 b b' -> swept now disk d2 b b'.
Proof.
  intros Hsub. unfold swept. destruct (sweepable now b); [|auto].
  intros [[E H]|[E (c & p & Hp & [H|H])]].
  - left. split; [exact E|]. intros c p Hp Hin. apply (H c p Hp). apply Hsub. exact Hin.
  - right. split; [exact E|]. exists c, p. split; [exact Hp|]. left.
    intros Hin. apply H. apply Hsub. exact Hin.
  - right. split; [exact E|]. exists c, p. split; [exact Hp|]. right. exact H.
Qed.

Lemma sweep_spec now builds : forall d0 disk,
  undeletable disk = undeletable d0 ->
  files (snd (sweep now builds disk)) ⊆ files disk
  /\ undeletable (snd (sweep now builds disk)) = undeletable d0
  /\ Forall2 (swept now d0 (snd (sweep now builds disk))) builds (fst (sweep now builds disk)).
Proof.
  induction builds as [|b builds IH]; intros d0 disk Hu.
  - cbn. split; [reflexivity|]. split; [exact Hu|constructor].
  - cbn [sweep].
    assert (exists b1 d1,
              (if sweepable now b then sweepOne b disk else (b, disk)) = (b1, d1)
              /\ files d1 ⊆ files disk /\ undeletable d1 = undeletable d0
              /\ swept now d0 d1 b b1) as (b1 & d1 & -> & Hs1 & Hu1 & Hw1).
    { unfold swept. destruct (sweepable now b).
      - unfold sweepOne. destruct (output_apkPath (core b)) as [[|c p]|] eqn:Hp.
        + eexists _, _. split; [reflexivity|]. split; [reflexivity|]. split; [exact Hu|].
          left. split; [reflexivity|]. intros; discriminate.
        + destruct (unlink (c :: p) disk) as [d1|] eqn:E.
          * destruct (unlink_spec _ _ _ E) as (Hs & Hun & Hgone).
            eexists _, _. split; [reflexivity|]. split; [exact Hs|]. split; [congruence|].
            left. split; [reflexivity|]. intros c' p' E'. injection E' as <- <-. exact Hgone.
          * eexists _, _. split; [reflexivity|]. split; [reflexivity|]. split; [exact Hu|].
            right. split; [reflexivity|]. exists c, p. split; [reflexivity|].
            rewrite <- Hu. apply unlink_fails. exact E.
        + eexists _, _. split; [reflexivity|]. split; [reflexivity|]. split; [exact Hu|].
          left. split; [reflexivity|]. intros; discriminate.
      - eexists _, _. split; [reflexivity|]. split; [reflexivity|]. split; [exact Hu|reflexivity]. }
    destruct (IH d0 d1 Hu1) as (Hs2 & Hu2 & Hf).
    destruct (sweep now builds d1) as [rest d2]. cbn [fst snd] in *.
    split; [etransitivity; eassumption|]. split; [exact Hu2|].
    constructor; [|exact Hf]. apply (swept_shrink now d0 d1 d2); assumption.
Qed.

(** X16.  [cleanupExpired] returns the number of builds whose expiry lies
    before now and that are not yet marked deleted, whether or not their
    artifacts could be removed.  It creates no file; it leaves alone every
    build that has not expired or is already marked deleted; and every
    expired build is afterwards either marked deleted, with no artifact left
    on the disk, or exactly as it was, its artifact being one that was not on
    the disk or could not be removed, so that the next sweep finds it
    again. *)
Theorem cleanupExpired_sweep now builds disk :
  let r := cleanupExpired now builds disk in
  fst (fst r) = Z.of_nat (length (List.filter (sweepable now) builds))
  /\ files (snd r) ⊆ files disk
  /\ Forall2 (swept now disk (snd r)) builds (snd (fst r)).
Proof.
  cbv zeta. unfold cleanupExpired.
  destruct (sweep_spec now builds disk disk eq_refl) as (Hs & _ & Hf).
  destruct (sweep now builds disk) as [builds' disk']. cbn [fst snd] in *.
  split; [reflexivity|]. split; assumption.
Qed.

(** ** Ownership and cancellation *)

Lemma units_eqb_neq a b : a <> b -> units_eqb a b = false.
Proof. intros H. unfold units_eqb. apply bool_decide_eq_false. exact H. Qed.

(** X17.  A user who does not own a build gets 403 from [getBuildStatus],
    [downloadAPK], [deleteBuild] and [cancelBuild] alike, and none of them
    changes the stored document, the disk or the job. *)
Theorem foreign_user_refused reqUser now disk b job :
  user (core b) <> reqUser ->
  (exists m, getBuildStatus reqUser (Some b) = appError 403 m)
  /\ (exists m, downloadAPK reqUser now disk (Some b) = (appError 403 m, Some b))
  /\ (exists m, deleteBuild reqUser disk (Some b) = (appError 403 m, Some b, disk))
  /\ cancelBuild reqUser (Some (core b)) job = (403%Z, Some (core b), job).
Proof.
  intros H. apply units_eqb_neq in H.
  unfold getBuildStatus, downloadAPK, deleteBuild, cancelBuild, cancelRead.
  cbn [hydrate fields]. rewrite H. cbn [negb]. eauto 10.
Qed.

Lemma foreign_user_refused_witness :
  user (core Fixtures.completedBuild) <> js "u2"
  /\ cancelBuild (js "u2") (Some (core Fixtures.completedBuild)) (Some jobActive)
     = (403%Z, Some (core Fixtures.completedBuild), Some jobActive).
Proof.
  assert (user (core Fixtures.completedBuild) <> js "u2") as Hne by discriminate.
  split; [exact Hne|].
  pose proof (foreign_user_refused (js "u2") 0 Fixtures.sampleDisk Fixtures.completedBuild
                (Some jobActive) Hne) as H.
  destruct H as (_ & _ & _ & H). exact H.
Defined.


Lemma assign_modified p v d :
  modified (assign p v d)
  = if eqPath p (getPath p (fields d)) v then modified d else p :: modified d.
Proof. unfold assign. destruct (eqPath p (getPath p (fields d)) v); reflexivity. Qed.

(** X18.  [cancelBuild] asked by the owner of a build that is pending,
    queued or building answers 200 and leaves the stored document as it was
    but for the status, now cancelled, and the current step; the job is
    removed from the queue unless it is running, in which case the removal
    fails and the cancellation goes on all the same.  A second request for
    the same build is turned down with 400 and changes nothing. *)
Theorem cancelBuild_once reqUser b job :
  user b = reqUser -> cancellable (status b) = true ->
  let b' := putPath p_currentStep (js "Build cancelled by user") (putPath p_status cancelled b) in
  cancelBuild reqUser (Some b) job
  = (200%Z, Some b',
     match jobId b, job with
     | Some _, Some jobActive => job
     | Some _, Some _ => None
     | _, _ => job
     end)
  /\ forall job2, cancelBuild reqUser (Some b') job2 = (400%Z, Some b', job2).
Proof.
  intros Hu Hc. cbv zeta. split.
  - unfold cancelBuild, cancelRead. cbn [hydrate fields].
    rewrite (proj2 (units_eqb_eq _ _) Hu), Hc. cbn [negb].
    unfold cancelSave, cancelRemove, cancelAssign. cbv zeta. cbn [hydrate fields].
    f_equal; [f_equal|].
    + f_equal. rewrite assign_modified, !fields_assign.
      assert (modified (assign p_status cancelled (hydrate b)) = [p_status]) as Hm.
      { rewrite assign_modified. cbn [hydrate fields modified eqPath getPath].
        destruct (status b); try discriminate Hc; reflexivity. }
      rewrite Hm. cbn [hydrate fields].
      destruct (eqPath p_currentStep _ _) eqn:E.
      * apply eqPath_eq in E. cbn [getPath] in E. destruct b. cbn in *. subst. reflexivity.
      * destruct b; reflexivity.
    + destruct (jobId b) as [j|]; [|reflexivity].
      destruct job as [[]|]; reflexivity.
  - intros job2. unfold cancelBuild, cancelRead. cbn [hydrate fields].
    assert (user (putPath p_currentStep (js "Build cancelled by user")
                    (putPath p_status cancelled b)) = reqUser) as -> by (destruct b; exact Hu).
    rewrite (proj2 (units_eqb_eq _ _) eq_refl). cbn [negb].
    assert (status (putPath p_currentStep (js "Build cancelled by user")
                      (putPath p_status cancelled b)) = cancelled) as -> by (destruct b; reflexivity).
    reflexivity.
Qed.

Lemma cancelBuild_once_witness :
  user Samples.freshBuild = js "u1"
  /\ cancellable (status Samples.freshBuild) = true
  /\ cancelBuild (js "u1") (Some Samples.freshBuild) (Some jobWaiting)
     = (200%Z,
        Some (putPath p_currentStep (js "Build cancelled by user")
                (putPath p_status cancelled Samples.freshBuild)),
        None).
Proof.
  split; [reflexivity|]. split; [reflexivity|].
  pose proof (cancelBuild_once (js "u1") Samples.freshBuild (Some jobWaiting) eq_refl eq_refl)
    as H.
  cbv zeta in H. destruct H as [H _]. exact H.
Defined.


End RecordFacts.

(* ===================================================================== *)
(** * Properties: the workspace of a build attempt                         *)
(* ===================================================================== *)

Module WorkspaceFacts.
Import JS BuildModel Toolchain Controller Worker WorkerSpec WorkerFacts Observations.

Lemma triple_any {A} (m : M A) :
  triple (fun _ => True) m (fun _ _ => True) (fun _ _ => True).
Proof. intros s _. destruct (m s) as [[a|e] s']; exact I. Qed.

Lemma triple_frame {A} (F : Prop) (m : M A) :
  triple (fun _ => F) m (fun _ _ => F) (fun _ _ => True).
Proof. intros s H. destruct (m s) as [[a|e] s']; [exact H|exact I]. Qed.

Section Attempt.

Variable w : World.

Lemma ioStep_passed l st :
  triple (passed w l) (ioStep w st) (fun _ => passed w (st :: l)) (fun _ _ => True).
Proof.
  intros s H. unfold ioStep. destruct (io w st) eqn:E; [exact I|].
  constructor; assumption.
Qed.

Lemma callback_passed l k step :
  triple (passed w l) (updateProgress k step) (fun _ => passed w l) (fun _ _ => True).
Proof. apply (triple_frame (Forall (fun st => io w st = None) l)). Qed.

Lemma mkdirProject_passed l :
  triple (passed w l) (mkdirProject w) (fun _ => passed w (ioMkdirProject :: l)) (fun _ _ => True).
Proof.
  unfold mkdirProject. eapply triple_bind; [apply ioStep_passed|].
  intros ? s H. exact H.
Qed.

Lemma removeProject_passed l :
  triple (passed w l) (removeProject w)
         (fun _ s => passed w (ioRemoveProject :: l) s /\ workspace s = false) (fun _ _ => True).
Proof.
  unfold removeProject. eapply triple_bind; [apply ioStep_passed|].
  intros ? s H. split; [exact H|reflexivity].
Qed.

Lemma buildWithGradle_passed l projectDir :
  triple (passed w l) (buildWithGradle w projectDir)
         (fun _ => passed w (ioGradle :: ioChmodGradlew :: l)) (fun _ _ => True).
Proof.
  unfold buildWithGradle. eapply triple_bind; [apply ioStep_passed|].
  intros ? s H. destruct (io w ioGradle) eqn:E.
  - unfold mbind, M_bind, logEffects, modifyState, throw. exact I.
  - constructor; assumption.
Qed.

Lemma sign_passed l unsignedApkPath buildId :
  triple (passed w l) (sign w unsignedApkPath buildId) (fun _ => passed w l) (fun _ _ => True).
Proof. apply (triple_frame (Forall (fun st => io w st = None) l)). Qed.

(** The catch block of [buildAPK] always throws. *)
Lemma cleanup_throws {A} error s :
  exists s', (tryCatch (removeProject w)
                (fun cleanupError =>
                   logEffects [LogError (js "Cleanup error: " ++ message cleanupError)]);;
              throw (A:=A) error) s = (Throw error, s')
             /\ (io w ioRemoveProject = None -> workspace s' = false).
Proof.
  unfold mbind, M_bind, tryCatch, removeProject, ioStep, mbind, M_bind.
  destruct (io w ioRemoveProject); cbn.
  - eexists. split; [reflexivity|]. discriminate.
  - eexists. split; [reflexivity|]. reflexivity.
Qed.

Lemma all_stages :
  passed w [ioRemoveProject; ioPublish; ioGradle; ioChmodGradlew; ioMainActivity;
            ioSplashScreen; ioAppIcon; ioStringsXml; ioBuildGradle; ioManifest;
            ioCopyTemplate; ioMkdirProject] (mkWState None None [] [] [] [] false [] []) ->
  forall st, io w st = None.
Proof.
  unfold passed. intros H st. rewrite Forall_forall in H. apply H.
  destruct st; repeat constructor.
Qed.

(** [buildAPK] with the progress callback of the job handler. *)
Lemma buildAPK_passed buildId :
  triple (fun _ => True) (buildAPK w buildId updateProgress)
         (fun r s => (forall st, io w st = None) /\ workspace s = false
                     /\ r = mkBuildResult (pathJoin (BUILD_OUTPUT_DIR w) (buildId ++ js ".apk"))
                                          (artifactSize w)
                                          (js "/downloads/" ++ buildId ++ js ".apk"))
         (fun _ s => io w ioRemoveProject = None -> workspace s = false).
Proof.
  unfold buildAPK. cbv zeta.
  eapply triple_tryCatch with (E' := fun _ _ => True).
  - eapply triple_conseq with (P' := passed w []) (E' := fun _ _ => True);
      [|intros; constructor|intros a s H; exact H|intros; exact I].
    repeat first
      [ eapply triple_bind; [apply callback_passed|intros ?]
      | eapply triple_bind; [apply ioStep_passed|intros ?]
      | eapply triple_bind; [apply mkdirProject_passed|intros ?]
      | eapply triple_bind; [apply buildWithGradle_passed|intros ?]
      | eapply triple_bind; [apply sign_passed|intros ?] ].
    eapply triple_bind; [apply removeProject_passed|intros ?].
    intros s [H Hw]. split; [|split; [exact Hw|reflexivity]].
    apply all_stages. exact H.
  - intros error s _.
    destruct (cleanup_throws (A:=BuildResult) error s) as (s' & -> & H). exact H.
Qed.

End Attempt.

(** X19.  The scratch directory of a build attempt: when [buildAPK] is over,
    whether it returned or threw, the project directory has been removed,
    provided the removal itself does not fail.  [buildAPK] returns only when
    every file operation and the build command went through (the signing
    apart, whose failure is not an error), and then with the artifact under
    the build id in the output directory, the path being the one [path.join]
    makes of the two (normalised: with the output directory [./builds] the
    artifact of [b1] is [builds/b1.apk]), and the download address of that
    id. *)
Theorem buildAPK_cleanup w buildId s :
  (io w ioRemoveProject = None ->
   workspace (snd (buildAPK w buildId updateProgress s)) = false)
  /\ (forall r, fst (buildAPK w buildId updateProgress s) = Return r ->
        (forall st, io w st = None)
        /\ apkPath r = pathJoin (BUILD_OUTPUT_DIR w) (buildId ++ js ".apk")
        /\ apkSize r = artifactSize w
        /\ downloadUrl r = js "/downloads/" ++ buildId ++ js ".apk")
  /\ pathJoin (js "./builds") (js "b1" ++ js ".apk") = js "builds/b1.apk"
  /\ pathJoin (js "/app/builds") (js "b1" ++ js ".apk") = js "/app/builds/b1.apk".
Proof.
  pose proof (buildAPK_passed w buildId s I) as H.
  destruct (buildAPK w buildId updateProgress s) as [[r|e] s']; cbn [fst snd].
  - destruct H as (Hio & Hw & ->). split; [intros _; exact Hw|].
    split; [|split; vm_compute; reflexivity].
    intros r' E. injection E as <-. split; [exact Hio|]. repeat split.
  - split; [exact H|]. split; [|split; vm_compute; reflexivity].
    intros r E. discriminate E.
Qed.

End WorkspaceFacts.

Module PackagePatternFacts.
Import JS JSFacts BuildService BuildServiceFacts Observations.

#[local] Arguments N.eqb : simpl never.
#[local] Arguments N.leb : simpl never.

Lemma segmentUnit_not_dot c : isSegmentUnit c = true -> (c =? 46)%N = false.
Proof.
  intros H. destruct (N.eqb_spec c 46) as [->|_]; [vm_compute in H; discriminate H|reflexivity].
Qed.

(** Scanning the rest of a segment. *)
Lemma pkgScan_rest r d tail :
  forallb isSegmentUnit r = true ->
  pkgScan false d (r ++ tail) = pkgScan false d tail.
Proof.
  induction r as [|c r IH]; intros H; [reflexivity|].
  cbn [forallb] in H. apply andb_true_iff in H as [Hc H].
  cbn [app pkgScan]. rewrite (segmentUnit_not_dot c Hc).
  unfold isSegmentUnit in Hc. rewrite Hc. cbn [andb]. apply IH. exact H.
Qed.

Lemma joinDots_more x y segs : joinDots (x :: y :: segs) = x ++ 46%N :: joinDots (y :: segs).
Proof. reflexivity. Qed.

Lemma pkgScan_join segs : forall d,
  segs <> [] -> Forall (fun s => isSegment s = true) segs ->
  pkgScan true d (joinDots segs) = d || (2 <=? length segs)%nat.
Proof.
  induction segs as [|x segs IH]; intros d Hne Hall; [congruence|].
  inversion Hall as [|? ? Hx Hall']; subst.
  destruct x as [|c r]; [discriminate Hx|].
  cbn [isSegment] in Hx. apply andb_true_iff in Hx as [Hc Hr].
  destruct segs as [|y segs].
  - cbn [joinDots pkgScan]. rewrite Hc. cbn [andb].
    rewrite <- (app_nil_r r), pkgScan_rest by exact Hr. cbn. rewrite orb_false_r. reflexivity.
  - rewrite joinDots_more. change ((c :: r) ++ 46%N :: joinDots (y :: segs))
      with (c :: (r ++ 46%N :: joinDots (y :: segs))).
    cbn [pkgScan]. rewrite Hc. cbn [andb]. rewrite pkgScan_rest by exact Hr.
    cbn [pkgScan]. change (46 =? 46)%N with true. cbn match.
    rewrite IH by (try discriminate; exact Hall'). cbn. rewrite orb_true_r. reflexivity.
Qed.

(** The scanner reads a segment, or the rest of one, and then either the end
    of the name or a dot and further segments. *)
Lemma pkgScan_inside s :
  (forall d, pkgScan true d s = true ->
     exists x segs,
       isSegment x = true /\ Forall (fun y => isSegment y = true) segs
       /\ s = x ++ flat_map (fun y => 46%N :: y) segs
       /\ (d = true \/ segs <> []))
  /\ (forall d, pkgScan false d s = true ->
     exists r segs,
       forallb isSegmentUnit r = true /\ Forall (fun y => isSegment y = true) segs
       /\ s = r ++ flat_map (fun y => 46%N :: y) segs
       /\ (d = true \/ segs <> [])).
Proof.
  induction s as [|c s [IHa IHb]]; split; intros d H.
  - discriminate H.
  - cbn in H. exists [], []. repeat split; [constructor|left; exact H].
  - cbn [pkgScan] in H. apply andb_true_iff in H as [Hc H].
    destruct (IHb d H) as (r & segs & Hr & Hs & -> & Hd).
    exists (c :: r), segs. cbn [isSegment]. rewrite Hc, Hr. repeat split; assumption.
  - cbn [pkgScan] in H. destruct (N.eqb_spec c 46) as [->|Hc].
    + destruct (IHa true H) as (x & segs & Hx & Hs & -> & _).
      exists [], (x :: segs). split; [reflexivity|]. split; [constructor; assumption|].
      split; [|right; discriminate]. reflexivity.
    + apply andb_true_iff in H as [Hu H].
      destruct (IHb d H) as (r & segs & Hr & Hs & -> & Hd).
      exists (c :: r), segs.
      split; [cbn [forallb]; rewrite Hr, andb_true_r; exact Hu|].
      split; [exact Hs|]. split; [reflexivity|exact Hd].
Qed.

Lemma joinDots_cons x segs : joinDots (x :: segs) = x ++ flat_map (fun y => 46%N :: y) segs.
Proof.
  revert x. induction segs as [|y segs IH]; intros x; [cbn; rewrite app_nil_r; reflexivity|].
  rewrite joinDots_more, IH. reflexivity.
Qed.

(** X20.  The package name check of [createBuild], of the request validator
    and of the schema accepts exactly the names made of two or more segments
    joined by dots, each segment a lower-case letter followed by lower-case
    letters, digits and underscores. *)
Theorem validPackageName_segments s :
  validPackageName s = true
  <-> exists segments, (2 <= length segments)%nat
                       /\ Forall (fun x => isSegment x = true) segments
                       /\ s = joinDots segments.
Proof.
  unfold validPackageName. split.
  - intros H. destruct (proj1 (pkgScan_inside s) false H) as (x & segs & Hx & Hs & -> & Hd).
    exists (x :: segs). split; [|split].
    + destruct Hd as [Hd|Hd]; [discriminate Hd|]. destruct segs; [congruence|cbn; lia].
    + constructor; assumption.
    + rewrite joinDots_cons. reflexivity.
  - intros (segs & Hlen & Hall & ->).
    rewrite pkgScan_join; [|destruct segs; [cbn in Hlen; lia|discriminate]|exact Hall].
    cbn [orb]. apply Nat.leb_le. exact Hlen.
Qed.

End PackagePatternFacts.

Module MoreFacts.
Import JS JSFacts BuildService BuildServiceFacts BuildModel Toolchain Controller Worker
       WorkerSpec WorkerFacts QueueConfig Template ActivityFacts BuildRecords BuildPatches
       Observations RecordFacts.

(** ** The job handler on a missing record *)

(** A user action on a record that is not in the database changes nothing
    that is observed. *)
Lemma act_missing a s :
  store s = None ->
  store (act a s) = None
  /\ doc (act a s) = doc s /\ statusHistory (act a s) = statusHistory s
  /\ progressWrites (act a s) = progressWrites s /\ jobProgress (act a s) = jobProgress s
  /\ workspace (act a s) = workspace s /\ effects (act a s) = effects s.
Proof.
  revert s. induction a as [|reqUser|reqUser|i|job startedAt|first IH1 next IH2]; intros s Hs;
    cbn [act].
  - repeat split; exact Hs.
  - rewrite Hs. cbn. repeat split; exact Hs.
  - rewrite Hs. cbn. repeat split; exact Hs.
  - destruct (inFlight s !! i); [|repeat split; exact Hs].
    cbv zeta. cbn [store setInFlight]. rewrite Hs. cbn. repeat split; exact Hs.
  - rewrite Hs. repeat split; exact Hs.
  - destruct (IH1 s Hs) as (Hs1 & A1 & B1 & C1 & D1 & F1 & G1).
    destruct (IH2 (act first s) Hs1) as (Hs2 & A2 & B2 & C2 & D2 & F2 & G2).
    repeat split; congruence.
Qed.

Lemma tick_missing s :
  store s = None ->
  exists s', tick s = (Return tt, s') /\ store s' = None
    /\ doc s' = doc s /\ statusHistory s' = statusHistory s
    /\ progressWrites s' = progressWrites s /\ jobProgress s' = jobProgress s
    /\ workspace s' = workspace s /\ effects s' = effects s.
Proof.
  intros Hs. unfold tick. destruct (schedule s) as [|a rest].
  - exists s. repeat split; exact Hs.
  - eexists. split; [reflexivity|].
    exact (act_missing a (setSchedule rest s) Hs).
Qed.

Lemma findOne_missing s :
  store s = None ->
  exists s', findOne s = (Return None, s') /\ store s' = None
    /\ doc s' = doc s /\ statusHistory s' = statusHistory s
    /\ progressWrites s' = progressWrites s /\ jobProgress s' = jobProgress s
    /\ workspace s' = workspace s /\ effects s' = effects s.
Proof.
  intros Hs. destruct (tick_missing s Hs) as (s1 & Ht & Hs1 & E).
  exists s1. split; [|split; [exact Hs1|exact E]].
  unfold findOne, mbind, M_bind. rewrite Ht. unfold getState, mret, M_ret. rewrite Hs1.
  reflexivity.
Qed.

(** X21.  When the record of the build is not in the database, the job
    handler throws the error [Build not found in database]: no record is
    created, nothing is written, and [buildAPK] is not run (no progress is
    reported, no project directory made, no process started). *)
Theorem processJob_missing_record w buildId s :
  store s = None ->
  exists s',
    processJob w buildId s = (Throw (newError (js "Build not found in database")), s')
    /\ store s' = None /\ doc s' = doc s
    /\ statusHistory s' = statusHistory s /\ progressWrites s' = progressWrites s
    /\ jobProgress s' = jobProgress s /\ workspace s' = workspace s
    /\ effects s' = effects s.
Proof.
  intros Hs.
  destruct (findOne_missing s Hs) as (s1 & Hf1 & Hs1 & E1).
  destruct (findOne_missing s1 Hs1) as (s2 & Hf2 & Hs2 & E2).
  exists s2. split.
  - unfold processJob, tryCatch.
    unfold mbind at 1, M_bind at 1. rewrite Hf1. unfold throw at 1.
    unfold mbind at 1, M_bind at 1. unfold mbind at 1, M_bind at 1. rewrite Hf2.
    reflexivity.
  - split; [exact Hs2|].
    destruct E1 as (A1 & B1 & C1 & D1 & F1 & G1), E2 as (A2 & B2 & C2 & D2 & F2 & G2).
    repeat split; congruence.
Qed.

Lemma processJob_missing_record_witness :
  store (mkWState None None [userCancel (js "u1")] [] [] [] false [] []) = None
  /\ fst (processJob Samples.fineWorld (js "b1")
            (mkWState None None [userCancel (js "u1")] [] [] [] false [] []))
     = Throw (newError (js "Build not found in database")).
Proof.
  split; [reflexivity|].
  destruct (processJob_missing_record Samples.fineWorld (js "b1")
              (mkWState None None [userCancel (js "u1")] [] [] [] false [] []) eq_refl)
    as (s' & E & _).
  rewrite E. reflexivity.
Defined.

(** ** The watermark on the template as shipped *)

(** X22.  On the activity source of the template as shipped, which holds no
    watermark placeholder, [updateMainActivity] writes the same source for a
    build that is not premium as for a premium one: no watermark snippet is
    put in.  (For a valid package name and a website URL without dollar sign
    or space.) *)
Theorem free_build_gets_no_watermark cfg features isPremium :
  validPackageName (packageName cfg) = true ->
  occurs dollar (websiteUrl cfg) = false ->
  occurs 32 (websiteUrl cfg) = false ->
  search (lit watermarkPlaceholder) mainActivityTemplate = None
  /\ updateMainActivity mainActivityTemplate cfg features isPremium
     = updateMainActivity mainActivityTemplate cfg features true.
Proof.
  intros Hv Hd Hs. split; [vm_compute; reflexivity|].
  unfold mainActivityTemplate.
  rewrite !Materializer.updateMainActivity_on_template by assumption.
  destruct isPremium; [reflexivity|].
  apply (f_equal (app _)). apply replace_none. exact activityBody_no_placeholder.
Qed.

Lemma free_build_gets_no_watermark_witness :
  validPackageName (packageName Samples.demoConfig) = true
  /\ occurs dollar (websiteUrl Samples.demoConfig) = false
  /\ occurs 32 (websiteUrl Samples.demoConfig) = false
  /\ updateMainActivity mainActivityTemplate Samples.demoConfig Samples.defaultFeatures false
     = updateMainActivity mainActivityTemplate Samples.demoConfig Samples.defaultFeatures true.
Proof.
  split; [reflexivity|]. split; [reflexivity|]. split; [reflexivity|].
  pose proof (free_build_gets_no_watermark Samples.demoConfig Samples.defaultFeatures false
                eq_refl eq_refl eq_refl) as H.
  destruct H as [_ H]. exact H.
Defined.

(** ** durationFormatted *)

(** X23.  The formatted duration of a build: nothing when the duration is
    unknown or zero; for a duration of [d] milliseconds above zero, the
    whole seconds followed by [s] when they are fewer than sixty, and
    otherwise the whole minutes, [m], a space, and the seconds left over,
    which are fewer than sixty, followed by [s]. *)
Theorem durationFormatted_shape b :
  match buildTime_duration (core b) with
  | None => durationFormatted b = None
  | Some d =>
      (d = 0%Z -> durationFormatted b = None)
      /\ ((0 < d)%Z ->
          (0 <= (d / 1000) mod 60 < 60)%Z
          /\ durationFormatted b
             = Some (if (d <? 60000)%Z
                     then numberToString (d / 1000) ++ js "s"
                     else numberToString (d / 60000) ++ js "m "
                          ++ numberToString ((d / 1000) mod 60) ++ js "s"))
  end.
Proof.
  unfold durationFormatted. destruct (buildTime_duration (core b)) as [d|]; [|reflexivity].
  split; [intros ->; reflexivity|]. intros Hd.
  split; [apply Z.mod_pos_bound; lia|].
  destruct (Z.eqb_spec d 0) as [?|_]; [lia|].
  assert (0 <= d / 1000)%Z as Hs by (apply Z.div_pos; lia).
  rewrite Z.rem_mod_nonneg by lia.
  rewrite Z.div_div by lia. change (1000 * 60)%Z with 60000%Z.
  destruct (Z.ltb_spec d 60000) as [Hlt|Hge].
  - rewrite (Z.div_small d 60000) by lia. reflexivity.
  - assert (0 < d / 60000)%Z as Hm by (apply Z.div_str_pos; lia).
    destruct (Z.gtb_spec (d / 60000) 0) as [_|?]; [reflexivity|lia].
Qed.

End MoreFacts.

(* ===================================================================== *)
(** * Properties: what a build attempt leaves in the record               *)
(* ===================================================================== *)

Module ContentFacts.
Import JS BuildService BuildModel Toolchain Controller Worker WorkerSpec WorkerFacts
       BuildRecords Handlers Observations RecordFacts.

Lemma Path_eqb_eq p q : Path_eqb p q = true -> p = q.
Proof. destruct p, q; intros H; first [reflexivity | discriminate H]. Qed.

Lemma getPath_putPath_same p v b : getPath p (putPath p v b) = v.
Proof. destruct p; reflexivity. Qed.

Lemma getPath_putPath_other q p v b :
  Path_eqb q p = false -> getPath q (putPath p v b) = getPath q b.
Proof. destruct q, p; intros H; first [reflexivity | discriminate H]. Qed.

Lemma getPath_writePaths q ps src dst :
  getPath q (writePaths ps src dst)
  = if existsb (Path_eqb q) ps then getPath q src else getPath q dst.
Proof.
  induction ps as [|p ps IH]; [reflexivity|].
  cbn [writePaths fold_right existsb]. fold (writePaths ps src dst).
  destruct (Path_eqb q p) eqn:E; cbn [orb].
  - apply Path_eqb_eq in E. subst q. apply getPath_putPath_same.
  - rewrite getPath_putPath_other by exact E. exact IH.
Qed.

(** No path is the user or the plan of the build. *)
Lemma fixed_putPath p v b :
  user (putPath p v b) = user b /\ isPremium (putPath p v b) = isPremium b.
Proof. destruct p; repeat split. Qed.

Lemma fixed_writePaths ps src dst :
  user (writePaths ps src dst) = user dst
  /\ isPremium (writePaths ps src dst) = isPremium dst.
Proof.
  induction ps as [|p ps IH]; [repeat split|].
  cbn [writePaths fold_right]. fold (writePaths ps src dst).
  destruct (fixed_putPath p (getPath p src) (writePaths ps src dst)) as (-> & ->).
  exact IH.
Qed.

Lemma step_live p : isStepPath p = true -> isLivePath p = true.
Proof. destruct p; intros H; first [reflexivity | discriminate H]. Qed.

Lemma beyondLive_putPath p v b : isLivePath p = true -> beyondLive (putPath p v b) = beyondLive b.
Proof. destruct p; intros H; first [reflexivity | discriminate H]. Qed.

Lemma beyondLive_writePaths ps src dst :
  forallb isStepPath ps = true -> beyondLive (writePaths ps src dst) = beyondLive dst.
Proof.
  induction ps as [|p ps IH]; [reflexivity|].
  cbn [forallb]. intros H. apply andb_true_iff in H as [Hp Hps].
  cbn [writePaths fold_right]. fold (writePaths ps src dst).
  rewrite beyondLive_putPath by (apply step_live; exact Hp). apply IH, Hps.
Qed.

Lemma step_not_modified q ps :
  isStepPath q = false -> forallb isStepPath ps = true -> existsb (Path_eqb q) ps = false.
Proof.
  intros Hq. induction ps as [|p ps IH]; [reflexivity|].
  cbn [forallb existsb]. intros H. apply andb_true_iff in H as [Hp Hps].
  rewrite (IH Hps), orb_false_r.
  destruct (Path_eqb q p) eqn:E; [|reflexivity].
  apply Path_eqb_eq in E. congruence.
Qed.

Lemma startedAt_writePaths ps src dst :
  forallb isStepPath ps = true ->
  buildTime_startedAt (writePaths ps src dst) = buildTime_startedAt dst.
Proof.
  intros H. change (getPath p_buildTime_startedAt (writePaths ps src dst)
                    = getPath p_buildTime_startedAt dst).
  rewrite getPath_writePaths, (step_not_modified p_buildTime_startedAt ps eq_refl H).
  reflexivity.
Qed.

Lemma beyondLive_get q b : isLivePath q = false -> getPath q (beyondLive b) = getPath q b.
Proof. destruct q; intros H; first [reflexivity | discriminate H]. Qed.

Lemma beyondLive_fixed b :
  user (beyondLive b) = user b /\ isPremium (beyondLive b) = isPremium b.
Proof. repeat split. Qed.

Lemma beyondLive_ext x y :
  (forall q, isLivePath q = false -> getPath q x = getPath q y) ->
  user x = user y -> isPremium x = isPremium y ->
  beyondLive x = beyondLive y.
Proof.
  intros H Hu Hp.
  pose proof (H p_output_apkPath eq_refl). pose proof (H p_output_apkSize eq_refl).
  pose proof (H p_output_downloadUrl eq_refl). pose proof (H p_output_cloudinaryPublicId eq_refl).
  pose proof (H p_buildTime_completedAt eq_refl). pose proof (H p_buildTime_duration eq_refl).
  pose proof (H p_error_message eq_refl). pose proof (H p_error_stack eq_refl).
  pose proof (H p_error_code eq_refl). pose proof (H p_expiresAt eq_refl).
  clear H. destruct x, y. cbn in *. subst. reflexivity.
Qed.

Lemma beyondLive_Agree d b0 :
  forallb isStepPath (modified d) = true -> beyondLive (fields d) = beyondLive b0 -> Agree d b0.
Proof.
  intros Hm H. split; [|split; [|split]].
  - intros q Hq _. rewrite <- (beyondLive_get q (fields d)), <- (beyondLive_get q b0) by exact Hq.
    rewrite H. reflexivity.
  - apply (step_not_modified p_jobId _ eq_refl Hm).
  - apply (step_not_modified p_buildTime_startedAt _ eq_refl Hm).
  - destruct (beyondLive_fixed (fields d)) as (<- & <-).
    destruct (beyondLive_fixed b0) as (<- & <-). rewrite H. split; reflexivity.
Qed.

Lemma Agree_assign p v d b0 :
  Path_eqb p_jobId p = false -> Path_eqb p_buildTime_startedAt p = false ->
  Agree d b0 -> Agree (assign p v d) b0.
Proof.
  intros Hj Hs (Hq & Hmj & Hms & Hfix). unfold assign.
  destruct (eqPath p (getPath p (fields d)) v); [repeat split; tauto|].
  split; [|split; [|split]].
  - intros q Hl Hm. unfold isModified in Hm. cbn [modified fields existsb] in *.
    apply orb_false_iff in Hm as [Hqp Hm].
    rewrite getPath_putPath_other by exact Hqp. apply Hq; assumption.
  - unfold isModified in *. cbn [modified existsb]. rewrite Hj, Hmj. reflexivity.
  - unfold isModified in *. cbn [modified existsb]. rewrite Hs, Hms. reflexivity.
  - cbn [fields]. destruct (fixed_putPath p v (fields d)) as (-> & ->). exact Hfix.
Qed.

(** Saving a document to a record it agrees with: apart from the paths
    written while a job runs the record is then the document, and its start
    time is the one it had. *)
Lemma Agree_saved d b0 :
  Agree d b0 ->
  beyondLive (writePaths (modified d) (fields d) b0) = beyondLive (fields d)
  /\ buildTime_startedAt (writePaths (modified d) (fields d) b0) = buildTime_startedAt b0.
Proof.
  intros (Hq & Hmj & Hms & Hu & Hp). split.
  - destruct (fixed_writePaths (modified d) (fields d) b0) as (Hu' & Hp').
    apply beyondLive_ext; try congruence.
    intros q Hlive. rewrite getPath_writePaths.
    destruct (existsb (Path_eqb q) (modified d)) eqn:E; [reflexivity|].
    symmetry. apply Hq; assumption.
  - change (getPath p_buildTime_startedAt (writePaths (modified d) (fields d) b0)
            = getPath p_buildTime_startedAt b0).
    rewrite getPath_writePaths. unfold isModified in Hms. rewrite Hms. reflexivity.
Qed.

Lemma Agree_markCompleted env now apkPath apkSize downloadUrl cloudinaryPublicId d b0 :
  Agree d b0 ->
  Agree (markCompleted_assign env now apkPath apkSize downloadUrl cloudinaryPublicId d) b0.
Proof.
  intros H. unfold markCompleted_assign. cbv zeta.
  repeat (apply Agree_assign; [reflexivity|reflexivity|]). exact H.
Qed.

Lemma Agree_markFailed now error d b0 :
  Agree d b0 -> Agree (markFailed_assign now error d) b0.
Proof.
  intros H. unfold markFailed_assign. cbv zeta.
  repeat (apply Agree_assign; [reflexivity|reflexivity|]). exact H.
Qed.

Lemma fields_markFailed now error d :
  fields (markFailed_assign now error d)
  = mkBuild (user (fields d)) failed (progress (fields d)) (currentStep (fields d))
            (output_apkPath (fields d)) (output_apkSize (fields d))
            (output_downloadUrl (fields d)) (output_cloudinaryPublicId (fields d))
            (buildTime_startedAt (fields d)) (Some now)
            (Some (now - default 0 (buildTime_startedAt (fields d)))%Z)
            (Some (match message error with [] => js "Build failed" | m => m end))
            (match stack error with Some (c :: s) => Some (c :: s) | _ => None end)
            (Some (match code error with Some (c :: s) => c :: s | _ => js "BUILD_ERROR" end))
            (jobId (fields d)) (expiresAt (fields d)) (isPremium (fields d)).
Proof.
  unfold markFailed_assign. cbv zeta. rewrite !fields_assign. reflexivity.
Qed.

(** What [markCompleted] and [markFailed] leave in a document depends, the
    paths written while a job runs apart, on nothing but the rest of it and
    its start time. *)
Lemma beyondLive_markCompleted env now apkPath apkSize downloadUrl cloudinaryPublicId d b :
  beyondLive (fields d) = beyondLive b ->
  beyondLive (fields (markCompleted_assign env now apkPath apkSize downloadUrl cloudinaryPublicId d))
  = beyondLive (fields (markCompleted_assign env now apkPath apkSize downloadUrl
                          cloudinaryPublicId
                          (hydrate (startedWith (buildTime_startedAt (fields d)) b)))).
Proof.
  intros H. rewrite !fields_markCompleted. cbn [hydrate fields].
  destruct (fields d), b. unfold beyondLive, beyondUser in H. cbn in H.
  injection H as -> -> -> -> -> -> -> -> -> -> -> ->.
  reflexivity.
Qed.

Lemma beyondLive_markFailed now error d b :
  beyondLive (fields d) = beyondLive b ->
  beyondLive (fields (markFailed_assign now error d))
  = beyondLive (fields (markFailed_assign now error
                          (hydrate (startedWith (buildTime_startedAt (fields d)) b)))).
Proof.
  intros H. rewrite !fields_markFailed. cbn [hydrate fields].
  destruct (fields d), b. unfold beyondLive, beyondUser in H. cbn in H.
  injection H as -> -> -> -> -> -> -> -> -> -> -> ->.
  reflexivity.
Qed.


(** ** The store under user actions *)

Lemma modified_assign_step p v d :
  isStepPath p = true -> forallb isStepPath (modified d) = true ->
  forallb isStepPath (modified (assign p v d)) = true
  /\ beyondLive (fields (assign p v d)) = beyondLive (fields d)
  /\ buildTime_startedAt (fields (assign p v d)) = buildTime_startedAt (fields d).
Proof.
  intros Hp Hm. split; [|split].
  - unfold assign. destruct (eqPath p (getPath p (fields d)) v); [exact Hm|].
    cbn [modified forallb]. rewrite Hp, Hm. reflexivity.
  - rewrite fields_assign. apply beyondLive_putPath, step_live, Hp.
  - rewrite fields_assign. destruct p; first [reflexivity | discriminate Hp].
Qed.

Lemma userWrote_beyondLive b b' : userWrote b b' -> beyondLive b' = beyondLive b.
Proof. intros [_ H]. unfold beyondLive. rewrite H. reflexivity. Qed.

Lemma act_schedule a s : schedule (act a s) = schedule s.
Proof.
  revert s. induction a as [|reqUser|reqUser|i|job startedAt|first IH1 next IH2]; intros s;
    cbn [act].
  - reflexivity.
  - destruct (cancelBuild reqUser (store s) (Some jobActive)) as [[c stored] j].
    destruct c as [|p|p]; try reflexivity.
    repeat (destruct p as [p|p|]; try reflexivity).
    unfold recordStatus. destruct (store (setStore stored s)); reflexivity.
  - destruct (cancelRead reqUser (store s)); reflexivity.
  - destruct (inFlight s !! i); [|reflexivity]. cbv zeta. cbn [store setInFlight].
    destruct (store s); [|reflexivity].
    unfold recordStatus. cbn [store setStore cancelSave]. reflexivity.
  - destruct (store s); [|reflexivity]. unfold recordStatus. cbn [store setStore]. reflexivity.
  - rewrite IH2, IH1. reflexivity.
Qed.

(** A cancel request leaves the start time as it is. *)
Lemma cancelSave_startedAt read b :
  buildTime_startedAt (writePaths (modified (cancelAssign read)) (fields (cancelAssign read)) b)
  = buildTime_startedAt b.
Proof.
  unfold cancelAssign, assign, hydrate. cbv zeta. cbn [eqPath getPath fields modified].
  destruct (Status_eqb (status read) cancelled); cbn [eqPath getPath fields modified];
    destruct (units_eqb _ _); reflexivity.
Qed.

(** The start time of the record after a user action is the one before or
    one that the action saves. *)
Lemma act_startedAt starts a s b0 :
  incl (startTimes a) starts -> store s = Some b0 -> In (buildTime_startedAt b0) starts ->
  exists b1, store (act a s) = Some b1 /\ In (buildTime_startedAt b1) starts.
Proof.
  revert s b0. induction a as [|reqUser|reqUser|i|job startedAt|first IH1 next IH2];
    intros s b0 Hi Hs Hb; cbn [act].
  - eauto.
  - unfold cancelBuild, cancelRead. rewrite Hs.
    destruct (negb (units_eqb (user (fields (hydrate b0))) reqUser)); [eauto|].
    destruct (negb (cancellable (status (fields (hydrate b0))))); [eauto|].
    unfold cancelSave, recordStatus. cbn [store setStore setStatusHistory].
    eexists. split; [reflexivity|]. rewrite cancelSave_startedAt. exact Hb.
  - destruct (cancelRead reqUser (store s)); cbn [store setInFlight]; eauto.
  - destruct (inFlight s !! i) as [read|]; [|eauto]. cbv zeta. cbn [store setInFlight].
    rewrite Hs. unfold cancelSave, recordStatus. cbn [store setStore setStatusHistory].
    eexists. split; [reflexivity|]. rewrite cancelSave_startedAt. exact Hb.
  - rewrite Hs. unfold recordStatus. cbn [store setStore setStatusHistory].
    eexists. split; [reflexivity|]. cbn. apply Hi. left. reflexivity.
  - cbn [startTimes] in Hi.
    destruct (IH1 s b0 (fun x H => Hi x (in_or_app _ _ _ (or_introl H))) Hs Hb)
      as (b1 & Hs1 & Hb1).
    exact (IH2 (act first s) b1 (fun x H => Hi x (in_or_app _ _ _ (or_intror H))) Hs1 Hb1).
Qed.

Lemma tick_kept starts b s :
  Kept starts b s ->
  exists s', tick s = (Return tt, s') /\ doc s' = doc s /\ Kept starts b s'.
Proof.
  intros (Hi & b0 & Hs & Hb & Hin). unfold tick.
  destruct (schedule s) as [|a rest] eqn:Esch.
  - exists s. split; [reflexivity|]. split; [reflexivity|].
    split; [rewrite Esch; exact Hi|eauto].
  - eexists. split; [reflexivity|].
    cbn [flat_map] in Hi.
    pose proof (act_ticked a (setSchedule rest s)) as (Hd & _ & Hw).
    destruct (act_startedAt starts a (setSchedule rest s) b0
                (fun x H => Hi x (in_or_app _ _ _ (or_introl H))) Hs Hin) as (b1 & Hs1 & Hb1).
    split; [exact Hd|]. split.
    + rewrite act_schedule. cbn [schedule setSchedule].
      intros x H. apply Hi, in_or_app. right. exact H.
    + exists b1. split; [exact Hs1|]. split; [|exact Hb1].
      cbn [store setSchedule] in Hw. rewrite Hs, Hs1 in Hw.
      rewrite (userWrote_beyondLive _ _ Hw). exact Hb.
Qed.

Lemma save_kept starts b d s :
  Kept starts b s ->
  exists b1 s', beyondLive b1 = beyondLive b /\ In (buildTime_startedAt b1) starts
    /\ save d s = (Return (mkDoc (fields d) []), s')
    /\ store s' = Some (writePaths (modified d) (fields d) b1)
    /\ doc s' = doc s
    /\ incl (flat_map startTimes (schedule s')) starts.
Proof.
  intros HK. unfold save, mbind, M_bind.
  destruct (tick_kept starts b s HK) as (s1 & -> & Hd & Hi & b1 & Hb1 & Hb & Hin).
  unfold getState. rewrite Hb1. unfold modifyState, mret, M_ret.
  exists b1. eexists. split; [exact Hb|]. split; [exact Hin|]. split; [reflexivity|].
  unfold recordStatus. cbn [store setStore].
  destruct (isModified p_progress d); cbn; rewrite ?Hd; auto.
Qed.

Lemma findOne_kept starts b s :
  Kept starts b s ->
  exists b1 s', findOne s = (Return (Some (hydrate b1)), s')
    /\ store s' = Some b1 /\ Kept starts b s'.
Proof.
  intros HK. unfold findOne, mbind, M_bind.
  destruct (tick_kept starts b s HK) as (s1 & -> & _ & HK1).
  pose proof HK1 as (_ & b1 & Hb1 & _).
  exists b1, s1. unfold getState, mret, M_ret. rewrite Hb1. auto.
Qed.

Lemma Synced_ext starts b started s s' :
  doc s' = doc s -> store s' = store s -> schedule s' = schedule s ->
  Synced starts b started s -> Synced starts b started s'.
Proof. unfold Synced, Kept. intros -> -> ->. auto. Qed.

Lemma Kept_ext starts b s s' :
  store s' = store s -> schedule s' = schedule s -> Kept starts b s -> Kept starts b s'.
Proof. unfold Kept. intros -> ->. auto. Qed.

Lemma Synced_Kept starts b started s : Synced starts b started s -> Kept starts b s.
Proof. intros [H _]. exact H. Qed.

Section Contents.
Variable w : World.
Variable starts : list (option Z).
Variable b : Build.
Variable started : option Z.

Lemma onBuild_synced f E :
  (forall d, forallb isStepPath (modified d) = true ->
             forallb isStepPath (modified (f d)) = true
             /\ beyondLive (fields (f d)) = beyondLive (fields d)
             /\ buildTime_startedAt (fields (f d)) = buildTime_startedAt (fields d)) ->
  triple (Synced starts b started) (onBuild f) (fun _ => Synced starts b started) E.
Proof.
  intros Hf s (Hk & d & Hd & Hm & Hb & Hst). destruct (Hf d Hm) as (Hm' & Hb' & Hst').
  unfold onBuild, modifyState. split; [exact Hk|].
  exists (f d). cbn [doc setDoc]. rewrite Hd. split; [reflexivity|].
  split; [exact Hm'|]. split; congruence.
Qed.

Lemma saveBuild_synced E :
  triple (Synced starts b started) saveBuild (fun _ => Synced starts b started) E.
Proof.
  intros s (HK & d & Hd & Hm & Hb & Hst).
  unfold saveBuild, mbind, M_bind, getState. rewrite Hd.
  destruct (save_kept starts b d s HK) as (b1 & s' & Hb1 & Hin & -> & Hs' & Hd' & Hi).
  unfold modifyState. split.
  - split; [exact Hi|]. eexists. cbn [store setDoc]. split; [exact Hs'|].
    rewrite beyondLive_writePaths, startedAt_writePaths by exact Hm. auto.
  - eexists. cbn [doc setDoc]. split; [reflexivity|]. split; [reflexivity|]. auto.
Qed.

Lemma updateProgress_synced k step E :
  triple (Synced starts b started) (updateProgress k step) (fun _ => Synced starts b started) E.
Proof.
  unfold updateProgress.
  eapply triple_bind.
  { apply onBuild_synced. intros d Hm. unfold updateProgress_assign.
    destruct (modified_assign_step p_progress k d eq_refl Hm) as (Hm1 & Hb1 & Hs1).
    destruct (modified_assign_step p_currentStep step (assign p_progress k d) eq_refl Hm1)
      as (Hm2 & Hb2 & Hs2).
    split; [exact Hm2|]. split; congruence. }
  intros ?. eapply triple_bind; [apply saveBuild_synced|]. intros ?.
  intros s H. exact H.
Qed.

Lemma quiet_synced {A} (m : M A) :
  quiet m ->
  triple (Synced starts b started) m (fun _ => Synced starts b started) (fun _ => Kept starts b).
Proof.
  intros Hq s H. destruct (Hq s) as (Hd & Hs & Hsch).
  destruct (m s) as [[a|e] s']; cbn [snd] in *.
  - exact (Synced_ext starts b started s s' Hd Hs Hsch H).
  - exact (Kept_ext starts b s s' Hs Hsch (Synced_Kept starts b started s H)).
Qed.

Lemma quiet_kept {A} (m : M A) :
  quiet m -> triple (Kept starts b) m (fun _ => Kept starts b) (fun _ => Kept starts b).
Proof.
  intros Hq s H. destruct (Hq s) as (Hd & Hs & Hsch).
  destruct (m s) as [[a|e] s']; cbn [snd] in *; exact (Kept_ext starts b s s' Hs Hsch H).
Qed.

Lemma quiet_ioStep st : quiet (ioStep w st).
Proof. intros s. unfold ioStep. destruct (io w st); repeat split. Qed.

Lemma quiet_mkdirProject : quiet (mkdirProject w).
Proof.
  intros s. unfold mkdirProject, ioStep, mbind, M_bind.
  destruct (io w ioMkdirProject); repeat split.
Qed.

Lemma quiet_removeProject : quiet (removeProject w).
Proof.
  intros s. unfold removeProject, ioStep, mbind, M_bind.
  destruct (io w ioRemoveProject); repeat split.
Qed.

Lemma quiet_buildWithGradle projectDir : quiet (buildWithGradle w projectDir).
Proof.
  intros s. unfold buildWithGradle, ioStep, mbind, M_bind.
  destruct (io w ioChmodGradlew); [repeat split|].
  destruct (io w ioGradle); repeat split.
Qed.

Lemma quiet_sign unsignedApkPath buildId : quiet (sign w unsignedApkPath buildId).
Proof.
  intros s. unfold sign.
  destruct (signAPK (env w) (TEMP_DIR w) (execSync w) unsignedApkPath buildId) as [[p|e] effs];
    repeat split.
Qed.

Lemma quiet_cleanup {A} error :
  quiet (tryCatch (removeProject w)
           (fun cleanupError =>
              logEffects [LogError (js "Cleanup error: " ++ message cleanupError)]);;
         throw (A:=A) error).
Proof.
  intros s. unfold mbind, M_bind, tryCatch, removeProject, ioStep, mbind, M_bind.
  destruct (io w ioRemoveProject); repeat split.
Qed.

Lemma buildAPK_synced buildId :
  triple (Synced starts b started) (buildAPK w buildId updateProgress)
         (fun _ => Synced starts b started) (fun _ => Kept starts b).
Proof.
  unfold buildAPK. cbv zeta.
  eapply triple_tryCatch with (E' := fun _ => Kept starts b).
  - repeat first
      [ eapply triple_bind; [apply updateProgress_synced|intros ?]
      | eapply triple_bind; [apply quiet_synced; apply quiet_ioStep|intros ?]
      | eapply triple_bind; [apply quiet_synced; apply quiet_mkdirProject|intros ?]
      | eapply triple_bind; [apply quiet_synced; apply quiet_removeProject|intros ?]
      | eapply triple_bind; [apply quiet_synced; apply quiet_buildWithGradle|intros ?]
      | eapply triple_bind; [apply quiet_synced; apply quiet_sign|intros ?] ].
    intros s H. exact H.
  - intros error s H.
    pose proof (quiet_kept _ (quiet_cleanup (A:=BuildResult) error) s H) as H'.
    destruct (WorkspaceFacts.cleanup_throws w (A:=BuildResult) error s) as (s' & Hrun & _).
    rewrite Hrun in H' |- *. exact H'.
Qed.

Lemma triple_and {A} (P1 P2 : WState -> Prop) (m : M A) Q1 Q2 E1 E2 :
  triple P1 m Q1 E1 -> triple P2 m Q2 E2 ->
  triple (fun s => P1 s /\ P2 s) m (fun a s => Q1 a s /\ Q2 a s) (fun e s => E1 e s /\ E2 e s).
Proof.
  intros H1 H2 s [HP1 HP2]. specialize (H1 s HP1). specialize (H2 s HP2).
  destruct (m s) as [[a|e] s']; split; assumption.
Qed.

(** The last save of an attempt that went through. *)
Lemma complete_contents apkPath apkSize downloadUrl E :
  triple (Synced starts b started)
         (onBuild (markCompleted_assign (env w) (now w) apkPath apkSize downloadUrl None);;
          saveBuild)
         (fun _ s' => exists b', store s' = Some b'
            /\ beyondLive b'
               = beyondLive (fields (markCompleted_assign (env w) (now w) apkPath apkSize
                                       downloadUrl None (hydrate (startedWith started b)))))
         E.
Proof.
  intros s (HK & d & Hd & Hm & Hb & Hst).
  unfold mbind, M_bind, onBuild, modifyState, saveBuild, mbind, M_bind, getState.
  cbn [doc setDoc]. rewrite Hd. cbn [fmap option_fmap option_map].
  set (d' := markCompleted_assign (env w) (now w) apkPath apkSize downloadUrl None d).
  destruct (save_kept starts b d' (setDoc (Some d') s))
    as (b1 & s' & Hb1 & _ & -> & Hs' & _); [exact HK|].
  cbn [store setDoc]. eexists. split; [exact Hs'|].
  rewrite (proj1 (Agree_saved d' b1
                    (Agree_markCompleted _ _ _ _ _ _ d b1
                       (beyondLive_Agree d b1 Hm (eq_trans Hb (eq_sym Hb1)))))).
  subst d'. rewrite <- Hst. apply beyondLive_markCompleted. exact Hb.
Qed.

(** The catch block of the handler. *)
Lemma catch_contents error (Q : BuildResult -> WState -> Prop) :
  triple (Kept starts b)
         (found ← findOne;
          match found with
          | Some build => save (markFailed_assign (now w) error build);; mret tt
          | None => mret tt
          end;;
          throw error)
         Q
         (fun e s' => exists from b', In from starts /\ store s' = Some b'
            /\ beyondLive b'
               = beyondLive (fields (markFailed_assign (now w) e
                                       (hydrate (startedWith from b))))).
Proof.
  intros s HK.
  unfold mbind at 1, M_bind at 1.
  destruct (findOne_kept starts b s HK) as (b1 & s1 & -> & Hb1 & HK1).
  pose proof HK1 as (_ & b1' & Hb1' & Hbl & Hin). rewrite Hb1 in Hb1'. injection Hb1' as <-.
  unfold mbind, M_bind.
  destruct (save_kept starts b (markFailed_assign (now w) error (hydrate b1)) s1 HK1)
    as (b2 & s' & Hb2 & _ & -> & Hs' & _).
  unfold throw. exists (buildTime_startedAt b1). eexists. split; [exact Hin|].
  split; [exact Hs'|].
  rewrite (proj1 (Agree_saved _ b2
                    (Agree_markFailed _ _ (hydrate b1) b2
                       (beyondLive_Agree (hydrate b1) b2 eq_refl
                          (eq_trans Hbl (eq_sym Hb2)))))).
  apply (beyondLive_markFailed (now w) error (hydrate b1) b). exact Hbl.
Qed.

End Contents.

(** One run of the job handler on a record that exists, for every world and
    every schedule of user actions: what the record holds afterwards, the
    paths written while a job runs apart, is what [markCompleted] or
    [markFailed] makes of the record the attempt started with, its start
    time being the one the handler loaded ([markCompleted]) or the catch
    block fetched ([markFailed]): the one it had at the start or one saved
    meanwhile. *)
Lemma processJob_contents w buildId s b :
  store s = Some b ->
  match processJob w buildId s with
  | (Return r, s') =>
      r = mkBuildResult (pathJoin (BUILD_OUTPUT_DIR w) (buildId ++ js ".apk"))
                        (artifactSize w)
                        (js "/downloads/" ++ buildId ++ js ".apk")
      /\ exists loaded b',
           fst (findOne s) = Return (Some (hydrate loaded))
           /\ In (buildTime_startedAt loaded) (startTimesFrom b s) /\ store s' = Some b'
           /\ beyondLive b'
              = beyondLive (fields (markCompleted_assign (env w) (now w) (apkPath r) (apkSize r)
                                      (downloadUrl r) None
                                      (hydrate (startedWith (buildTime_startedAt loaded) b))))
  | (Throw e, s') =>
      exists from b', In from (startTimesFrom b s) /\ store s' = Some b'
        /\ beyondLive b'
           = beyondLive (fields (markFailed_assign (now w) e (hydrate (startedWith from b))))
  end.
Proof.
  intros Hb. set (starts := startTimesFrom b s). unfold processJob.
  refine (triple_tryCatch (fun s0 => s0 = s) _ _ _ (fun _ => Kept starts b) _ _ _ s eq_refl).
  - intros s0 ->.
    assert (Kept starts b s) as HK0.
    { split.
      - subst starts. unfold startTimesFrom. intros x H. right. exact H.
      - exists b. split; [exact Hb|]. split; [reflexivity|]. left. reflexivity. }
    unfold mbind at 1, M_bind at 1.
    destruct (findOne_kept starts b s HK0) as (b1 & s1 & Hf & Hb1 & HK1).
    rewrite Hf. cbn [fst].
    pose proof HK1 as (_ & b1' & Hb1' & Hbl & Hin). rewrite Hb1 in Hb1'. injection Hb1' as <-.
    match goal with |- match ?m s1 with _ => _ end =>
      assert (triple (Kept starts b) m
                (fun r s' =>
                   r = mkBuildResult (pathJoin (BUILD_OUTPUT_DIR w) (buildId ++ js ".apk"))
                         (artifactSize w) (js "/downloads/" ++ buildId ++ js ".apk")
                   /\ exists b', store s' = Some b'
                        /\ beyondLive b'
                           = beyondLive (fields (markCompleted_assign (env w) (now w) (apkPath r)
                                                   (apkSize r) (downloadUrl r) None
                                                   (hydrate (startedWith
                                                               (buildTime_startedAt b1) b)))))
                (fun _ => Kept starts b)) as HT;
      [|specialize (HT s1 HK1); destruct (m s1) as [[r|e] s'];
        [destruct HT as (Hr & b' & Hs' & HC); split; [exact Hr|];
         exists b1, b'; auto
        |exact HT]]
    end.
    eapply triple_bind with (R := fun _ => Synced starts b (buildTime_startedAt b1)).
    { intros s2 H2. unfold bindBuild, modifyState. split.
      - exact (Kept_ext starts b s2 _ eq_refl eq_refl H2).
      - exists (hydrate b1). cbn [doc setDoc hydrate modified fields forallb].
        split; [reflexivity|]. split; [reflexivity|]. split; [exact Hbl|reflexivity]. }
    intros ?.
    do 3 (eapply triple_bind;
            [apply onBuild_synced; intros d Hm; apply modified_assign_step;
               [reflexivity|exact Hm]
            |intros ?]).
    eapply triple_bind; [apply saveBuild_synced|intros ?].
    eapply triple_bind.
    { eapply triple_conseq;
        [apply (triple_and _ _ _ _ _ _ _
                  (buildAPK_synced w starts b (buildTime_startedAt b1) buildId)
                  (WorkspaceFacts.buildAPK_passed w buildId))
        |intros s2 H; split; [exact H|exact I]
        |intros ? s2 H; exact H
        |intros ? s2 [H _]; exact H]. }
    intros result. cbv beta.
    intros s2 (HS & _ & _ & ->).
    pose proof (complete_contents w starts b (buildTime_startedAt b1)
                  (pathJoin (BUILD_OUTPUT_DIR w) (buildId ++ js ".apk")) (artifactSize w)
                  (js "/downloads/" ++ buildId ++ js ".apk") (fun _ => Kept starts b) s2 HS)
      as HC.
    cbn [apkPath apkSize downloadUrl].
    unfold mbind at 1, M_bind at 1.
    unfold mbind at 1, M_bind at 1 in HC.
    destruct (onBuild _ s2) as [[u1|e1] s3]; [|exact HC].
    unfold mbind at 1, M_bind at 1.
    destruct (saveBuild s3) as [[u2|e2] s4]; [|exact HC].
    unfold mret, M_ret. split; [reflexivity|].
    cbn [apkPath apkSize downloadUrl]. exact HC.
  - intros e. apply catch_contents.
Qed.

Lemma beyondLive_fields x y :
  beyondLive x = beyondLive y ->
  user x = user y
  /\ output_apkPath x = output_apkPath y
  /\ output_apkSize x = output_apkSize y
  /\ output_downloadUrl x = output_downloadUrl y
  /\ output_cloudinaryPublicId x = output_cloudinaryPublicId y
  /\ buildTime_completedAt x = buildTime_completedAt y
  /\ buildTime_duration x = buildTime_duration y
  /\ error_message x = error_message y
  /\ error_stack x = error_stack y
  /\ error_code x = error_code y
  /\ expiresAt x = expiresAt y
  /\ isPremium x = isPremium y.
Proof.
  intros H. destruct x, y. unfold beyondLive, beyondUser in H. cbn in H.
  injection H as -> -> -> -> -> -> -> -> -> -> -> ->. cbn. repeat split.
Qed.

(** X24.  The record of a build attempt that went through.  When the job
    handler returns, on a record that exists, whatever the request handlers
    write meanwhile and whichever cancel requests are in flight, the stored
    record holds the artifact the handler returned (path, size and download
    address), no Cloudinary id, the time of completion, and an expiry of that
    time plus the retention of the plan.  The duration is the time of
    completion less the start time the handler loaded with the record at its
    first [findOne], which is the one the record had when the attempt started
    or one that [createBuild] saved meanwhile (it saves the start time only
    after it has put the job in the queue), and less nothing when that start
    time is null.  The error fields are the ones the record had before the attempt,
    so that a build that fails and then goes through on the retry keeps the
    message of the failure. *)
Theorem completed_record_contents w buildId s b :
  store s = Some b ->
  match processJob w buildId s with
  | (Return r, s') =>
      exists loaded b',
        fst (findOne s) = Return (Some (hydrate loaded))
        /\ In (buildTime_startedAt loaded) (startTimesFrom b s)
        /\ store s' = Some b'
        /\ output_apkPath b' = Some (apkPath r)
        /\ output_apkSize b' = Some (apkSize r)
        /\ output_downloadUrl b' = Some (downloadUrl r)
        /\ output_cloudinaryPublicId b' = None
        /\ buildTime_completedAt b' = Some (now w)
        /\ buildTime_duration b'
           = Some (now w - default 0 (buildTime_startedAt loaded))%Z
        /\ expiresAt b'
           = Some (now w + retentionDays (env w) (isPremium b) * (24 * 60 * 60 * 1000))%Z
        /\ error_message b' = error_message b
        /\ error_stack b' = error_stack b
        /\ error_code b' = error_code b
        /\ user b' = user b /\ isPremium b' = isPremium b
  | (Throw _, _) => True
  end.
Proof.
  intros Hb. pose proof (processJob_contents w buildId s b Hb) as H.
  destruct (processJob w buildId s) as [[r|e] s']; [|exact I].
  destruct H as (_ & loaded & b' & Hf & Hin & Hb' & H). exists loaded, b'.
  split; [exact Hf|]. split; [exact Hin|]. split; [exact Hb'|].
  rewrite fields_markCompleted in H. apply beyondLive_fields in H.
  cbn [hydrate fields startedWith putPath user output_apkPath output_apkSize output_downloadUrl
       output_cloudinaryPublicId buildTime_startedAt buildTime_completedAt buildTime_duration
       error_message error_stack error_code jobId expiresAt isPremium] in H.
  destruct H as (Hu & H1 & H2 & H3 & H4 & H5 & H6 & H7 & H8 & H9 & He & Hp).
  unfold retentionDays. fold dayMs. repeat split; assumption.
Qed.

Lemma completed_record_contents_witness :
  store Samples.unstartedState = Some Samples.unstartedBuild
  /\ match processJob Samples.fineWorld (js "b1") Samples.unstartedState
     with
     | (Return r, s') =>
         exists loaded b',
           fst (findOne Samples.unstartedState) = Return (Some (hydrate loaded))
           /\ In (buildTime_startedAt loaded)
                 (startTimesFrom Samples.unstartedBuild Samples.unstartedState)
           /\ store s' = Some b'
           /\ output_apkPath b' = Some (apkPath r)
           /\ output_apkSize b' = Some (apkSize r)
           /\ output_downloadUrl b' = Some (downloadUrl r)
           /\ output_cloudinaryPublicId b' = None
           /\ buildTime_completedAt b' = Some (now Samples.fineWorld)
           /\ buildTime_duration b'
              = Some (now Samples.fineWorld - default 0 (buildTime_startedAt loaded))%Z
           /\ expiresAt b'
              = Some (now Samples.fineWorld
                      + retentionDays (env Samples.fineWorld) (isPremium Samples.unstartedBuild)
                        * (24 * 60 * 60 * 1000))%Z
           /\ error_message b' = error_message Samples.unstartedBuild
           /\ error_stack b' = error_stack Samples.unstartedBuild
           /\ error_code b' = error_code Samples.unstartedBuild
           /\ user b' = user Samples.unstartedBuild
           /\ isPremium b' = isPremium Samples.unstartedBuild
     | (Throw _, _) => True
     end.
Proof.
  split; [reflexivity|].
  exact (completed_record_contents Samples.fineWorld (js "b1")
           Samples.unstartedState Samples.unstartedBuild eq_refl).
Defined.

(** X25.  The record of a build attempt that failed.  When the job handler
    throws an error, on a record that exists, whatever the request handlers
    write meanwhile and whichever cancel requests are in flight, the stored
    record holds the message of that error (Build failed when it has none),
    its stack, its code (BUILD_ERROR when it has none) and the time of the
    failure.  The duration is that time less the start time of the record as
    the catch block fetched it, which is the one the record had when the
    attempt started or one that [createBuild] saved meanwhile, and less
    nothing when that start time is null.  The output fields and the expiry
    are the ones the record had before the attempt. *)
Theorem failed_record_contents w buildId s b :
  store s = Some b ->
  match processJob w buildId s with
  | (Return _, _) => True
  | (Throw e, s') =>
      exists from b', In from (startTimesFrom b s)
        /\ store s' = Some b'
        /\ error_message b'
           = Some (match message e with [] => js "Build failed" | m => m end)
        /\ error_stack b' = match stack e with Some (c :: m) => Some (c :: m) | _ => None end
        /\ error_code b'
           = Some (match code e with Some (c :: m) => c :: m | _ => js "BUILD_ERROR" end)
        /\ buildTime_completedAt b' = Some (now w)
        /\ buildTime_duration b' = Some (now w - default 0 from)%Z
        /\ output_apkPath b' = output_apkPath b
        /\ output_apkSize b' = output_apkSize b
        /\ output_downloadUrl b' = output_downloadUrl b
        /\ output_cloudinaryPublicId b' = output_cloudinaryPublicId b
        /\ expiresAt b' = expiresAt b
        /\ user b' = user b /\ isPremium b' = isPremium b
  end.
Proof.
  intros Hb. pose proof (processJob_contents w buildId s b Hb) as H.
  destruct (processJob w buildId s) as [[r|e] s']; [exact I|].
  destruct H as (from & b' & Hin & Hb' & H). exists from, b'.
  split; [exact Hin|]. split; [exact Hb'|].
  rewrite fields_markFailed in H. apply beyondLive_fields in H.
  cbn [hydrate fields startedWith putPath user output_apkPath output_apkSize output_downloadUrl
       output_cloudinaryPublicId buildTime_startedAt buildTime_completedAt buildTime_duration
       error_message error_stack error_code jobId expiresAt isPremium] in H.
  destruct H as (Hu & H1 & H2 & H3 & H4 & H5 & H6 & H7 & H8 & H9 & He & Hp).
  repeat split; assumption.
Qed.

Lemma failed_record_contents_witness :
  store Samples.unstartedState = Some Samples.unstartedBuild
  /\ match processJob Samples.gradleFails (js "b1") Samples.unstartedState
     with
     | (Return _, _) => True
     | (Throw e, s') =>
         exists from b',
           In from (startTimesFrom Samples.unstartedBuild
                      Samples.unstartedState)
           /\ store s' = Some b'
           /\ error_message b'
              = Some (match message e with [] => js "Build failed" | m => m end)
           /\ error_stack b' = match stack e with Some (c :: m) => Some (c :: m) | _ => None end
           /\ error_code b'
              = Some (match code e with Some (c :: m) => c :: m | _ => js "BUILD_ERROR" end)
           /\ buildTime_completedAt b' = Some (now Samples.gradleFails)
           /\ buildTime_duration b' = Some (now Samples.gradleFails - default 0 from)%Z
           /\ output_apkPath b' = output_apkPath Samples.unstartedBuild
           /\ output_apkSize b' = output_apkSize Samples.unstartedBuild
           /\ output_downloadUrl b' = output_downloadUrl Samples.unstartedBuild
           /\ output_cloudinaryPublicId b' = output_cloudinaryPublicId Samples.unstartedBuild
           /\ expiresAt b' = expiresAt Samples.unstartedBuild
           /\ user b' = user Samples.unstartedBuild
           /\ isPremium b' = isPremium Samples.unstartedBuild
     end.
Proof.
  split; [reflexivity|].
  exact (failed_record_contents Samples.gradleFails (js "b1")
           Samples.unstartedState Samples.unstartedBuild eq_refl).
Defined.

Lemma pathNormalize_nonempty path : pathNormalize path <> [].
Proof.
  unfold pathNormalize. destruct path as [|first rest]; [discriminate|]. cbv zeta.
  destruct (joinSegments _) as [|c l]; destruct (first =? slash)%N;
    destruct (List.last (first :: rest) 0 =? slash)%N; discriminate.
Qed.

Lemma pathJoin_nonempty dir name : pathJoin dir name <> [].
Proof.
  unfold pathJoin. destruct dir, name; first [discriminate | apply pathNormalize_nonempty].
Qed.

(** What the request handlers leave of a record. *)
Lemma userWrote_fields b b' :
  userWrote b b' ->
  user b' = user b /\ output_apkPath b' = output_apkPath b /\ expiresAt b' = expiresAt b.
Proof.
  intros [_ H]. split; [exact (f_equal user H)|].
  split; [exact (f_equal output_apkPath H)|exact (f_equal expiresAt H)].
Qed.

(** X26.  From the worker to the download.  After a run of the job handler
    on a build of the user, whatever the request handlers wrote meanwhile and
    whatever they do afterwards.  When the handler returned, the record reads
    completed, or cancelled once a cancel request that was in flight has
    saved (which none has right after the run); with the artifact a local
    file that is on the disk, the owner of a record that reads completed is
    sent that file, under the name of the app, at every time up to the time
    of completion plus the retention of the plan, and is answered 410
    afterwards, and the owner of one that reads cancelled is answered 400.
    When the handler threw, the owner is answered 400. *)
Theorem finished_build_download w buildId s b reqUser t disk later :
  store s = Some b ->
  user b = reqUser ->
  startsWith (js "https://") (pathJoin (BUILD_OUTPUT_DIR w) (buildId ++ js ".apk")) = None ->
  access (pathJoin (BUILD_OUTPUT_DIR w) (buildId ++ js ".apk")) disk = true ->
  match processJob w buildId s with
  | (Return r, s') =>
      forall rec, store (act later s') = Some (core rec) ->
        (status (core rec) = completed \/ status (core rec) = cancelled)
        /\ (later = userIdle -> status (core rec) = completed)
        /\ fst (downloadAPK reqUser t disk (Some rec))
           = if Status_eqb (status (core rec)) cancelled
             then appError 400 (js "Build is not completed yet")
             else if (now w + retentionDays (env w) (isPremium b) * 86400000 <? t)%Z
                  then appError 410 (js "Build has expired")
                  else download (apkPath r) (appName (appConfig rec) ++ js ".apk")
  | (Throw _, s') =>
      forall rec, store (act later s') = Some (core rec) ->
        fst (downloadAPK reqUser t disk (Some rec))
        = appError 400 (js "Build is not completed yet")
  end.
Proof.
  intros Hb Hu Hs Ha.
  pose proof (processJob_contents w buildId s b Hb) as H.
  pose proof (processJob_spec w buildId s b Hb) as HS.
  destruct (processJob w buildId s) as [[r|e] s'].
  - destruct H as (-> & loaded & b' & _ & _ & Hb' & H).
    destruct HS as ((b2 & Hb2 & Hst & _) & _).
    rewrite Hb' in Hb2. injection Hb2 as <-.
    intros rec Hrec.
    destruct (ticked_wrote _ _ _ (act_ticked later s') Hb') as (b'' & Hb'' & Hw).
    rewrite Hrec in Hb''. injection Hb'' as <-.
    destruct (userWrote_fields _ _ Hw) as (Hu'' & Hp'' & He'').
    rewrite fields_markCompleted in H. apply beyondLive_fields in H.
    cbn [hydrate fields startedWith putPath user output_apkPath output_apkSize
         output_downloadUrl output_cloudinaryPublicId buildTime_startedAt
         buildTime_completedAt buildTime_duration error_message error_stack error_code jobId
         expiresAt isPremium apkPath apkSize downloadUrl] in H.
    destruct H as (Hu' & H1 & _ & _ & _ & _ & _ & _ & _ & _ & He & _).
    assert (status (core rec) = completed \/ status (core rec) = cancelled) as Hst'.
    { destruct Hw as [[Hw|Hw] _]; [left; congruence|right; exact Hw]. }
    split; [exact Hst'|]. split.
    { intros ->. cbn [act] in Hrec. rewrite Hb' in Hrec. injection Hrec as <-. exact Hst. }
    unfold downloadAPK, isExpired.
    rewrite Hu'', Hu', (proj2 (units_eqb_eq _ _) Hu). cbn [negb].
    destruct Hst' as [-> | ->]; cbn [negb Status_eqb fst]; [|reflexivity].
    rewrite He'', He.
    cbn [incrementDownloadCount core appConfig fst apkPath].
    unfold retentionDays. change dayMs with 86400000%Z. rewrite Z.gtb_ltb.
    match goal with |- context [(?a <? t)%Z] => destruct (a <? t)%Z end; [reflexivity|].
    cbn [fst]. rewrite Hp'', H1.
    destruct (pathJoin (BUILD_OUTPUT_DIR w) (buildId ++ js ".apk")) as [|c p] eqn:E.
    { destruct (pathJoin_nonempty _ _ E). }
    rewrite Hs, Ha. reflexivity.
  - destruct HS as ((b2 & Hb2 & Hst) & _).
    destruct H as (from & b' & _ & Hb' & H). rewrite Hb' in Hb2. injection Hb2 as <-.
    intros rec Hrec.
    destruct (ticked_wrote _ _ _ (act_ticked later s') Hb') as (b'' & Hb'' & Hw).
    rewrite Hrec in Hb''. injection Hb'' as <-.
    destruct (userWrote_fields _ _ Hw) as (Hu'' & _).
    rewrite fields_markFailed in H. apply beyondLive_fields in H.
    destruct H as (Hu' & _). cbn [hydrate fields startedWith putPath user] in Hu'.
    unfold downloadAPK.
    rewrite Hu'', Hu', (proj2 (units_eqb_eq _ _) Hu). cbn [negb].
    destruct Hw as [[Hw|Hw] _]; rewrite Hw, ?Hst; reflexivity.
Qed.

Lemma finished_build_download_witness :
  store Samples.cancelInFlight = Some Samples.freshBuild
  /\ user Samples.freshBuild = js "u1"
  /\ startsWith (js "https://")
       (pathJoin (BUILD_OUTPUT_DIR Samples.fineWorld) (js "b1" ++ js ".apk")) = None
  /\ access (pathJoin (BUILD_OUTPUT_DIR Samples.fineWorld) (js "b1" ++ js ".apk"))
       Fixtures.sampleDisk = true
  /\ match processJob Samples.fineWorld (js "b1") Samples.cancelInFlight with
     | (Return r, s') =>
         forall rec, store (act (userCancelSave 0) s') = Some (core rec) ->
           (status (core rec) = completed \/ status (core rec) = cancelled)
           /\ (userCancelSave 0 = userIdle -> status (core rec) = completed)
           /\ fst (downloadAPK (js "u1") 6000 Fixtures.sampleDisk (Some rec))
              = if Status_eqb (status (core rec)) cancelled
                then appError 400 (js "Build is not completed yet")
                else if (now Samples.fineWorld
                         + retentionDays (env Samples.fineWorld) (isPremium Samples.freshBuild)
                           * 86400000 <? 6000)%Z
                     then appError 410 (js "Build has expired")
                     else download (apkPath r) (appName (appConfig rec) ++ js ".apk")
     | (Throw _, s') =>
         forall rec, store (act (userCancelSave 0) s') = Some (core rec) ->
           fst (downloadAPK (js "u1") 6000 Fixtures.sampleDisk (Some rec))
           = appError 400 (js "Build is not completed yet")
     end.
Proof.
  assert (store Samples.cancelInFlight = Some Samples.freshBuild) as Hb by reflexivity.
  assert (user Samples.freshBuild = js "u1") as Hu by reflexivity.
  assert (startsWith (js "https://")
            (pathJoin (BUILD_OUTPUT_DIR Samples.fineWorld) (js "b1" ++ js ".apk")) = None) as Hs
    by (vm_compute; reflexivity).
  assert (access (pathJoin (BUILD_OUTPUT_DIR Samples.fineWorld) (js "b1" ++ js ".apk"))
            Fixtures.sampleDisk = true) as Ha
    by (vm_compute; reflexivity).
  split; [exact Hb|]. split; [exact Hu|]. split; [exact Hs|]. split; [exact Ha|].
  exact (finished_build_download Samples.fineWorld (js "b1") Samples.cancelInFlight
           Samples.freshBuild (js "u1") 6000 Fixtures.sampleDisk (userCancelSave 0)
           Hb Hu Hs Ha).
Defined.

End ContentFacts.

(* ===================================================================== *)
(** * Properties: the statistics of a user                                *)
(* ===================================================================== *)

Module StatsFacts.
Import JS BuildModel UserModel BuildRecords Handlers UserRoutes Observations.

(** X27.  The counts of [getUserStats]: the builds of the user that are not
    deleted are the completed ones, the failed ones, the active ones
    (pending, queued or building) and the cancelled ones, so the three counts
    reported add up to the total reported less the cancelled builds; and the
    total is the one [getUserBuilds] reports, whatever page is asked for. *)
Theorem getUserStats_counts env reqUser u collection :
  let stats := getUserStats env reqUser u collection in
  (usage_totalBuilds stats
   = usage_completedBuilds stats + usage_failedBuilds stats + usage_activeBuilds stats
     + countDocuments (fun b => units_eqb (user (core b)) reqUser
                                && Status_eqb (status (core b)) cancelled
                                && negb (isDeleted b)) collection)%Z
  /\ (0 <= usage_completedBuilds stats)%Z /\ (0 <= usage_failedBuilds stats)%Z
  /\ (0 <= usage_activeBuilds stats)%Z
  /\ (forall now queryPage queryLimit listing,
        getUserBuilds reqUser now queryPage queryLimit collection = Some listing ->
        total listing = usage_totalBuilds stats).
Proof.
  cbv zeta. unfold getUserStats, countDocuments.
  cbn [usage_totalBuilds usage_completedBuilds usage_failedBuilds usage_activeBuilds].
  split; [|split; [lia|split; [lia|split; [lia|]]]].
  - cbn [existsb]. induction collection as [|b l IH]; [reflexivity|].
    cbn [List.filter].
    destruct (units_eqb (user (core b)) reqUser), (isDeleted b), (status (core b));
      cbn [andb negb Status_eqb existsb orb length]; lia.
  - intros now queryPage queryLimit listing H. unfold getUserBuilds in H.
    destruct (_ || _) in H; [discriminate H|]. injection H as <-. reflexivity.
Qed.

(** X28.  [getUserStats] reads the stored counter as it is, without the
    reset that [canBuild] makes when the month has changed.  While the month
    of the counter lasts, a build is allowed exactly when the remaining
    builds reported are not zero; in a later month a build is allowed
    whenever the allowance of the plan is positive, whatever number the
    statistics report. *)
Theorem remaining_builds_and_canBuild env calendar now reqUser u collection :
  fst (canBuild env calendar now u)
  = if (getMonth calendar now =? getMonth calendar (monthResetDate u))%Z
       && (getFullYear calendar now =? getFullYear calendar (monthResetDate u))%Z
    then (0 <? usage_remainingBuilds (getUserStats env reqUser u collection))%Z
    else (0 <? maxBuilds env u)%Z.
Proof.
  unfold canBuild, getUserStats, getRemainingBuilds. cbn [usage_remainingBuilds fst].
  destruct (getMonth calendar now =? getMonth calendar (monthResetDate u))%Z;
    destruct (getFullYear calendar now =? getFullYear calendar (monthResetDate u))%Z;
    cbn [negb orb andb buildsThisMonth]; try reflexivity.
  destruct (Z.ltb_spec (buildsThisMonth u) (maxBuilds env u));
    destruct (Z.ltb_spec 0 (Z.max 0 (maxBuilds env u - buildsThisMonth u))); lia.
Qed.

End StatsFacts.

(* ===================================================================== *)
(** * Properties: the error handler                                       *)
(* ===================================================================== *)

Module ErrorFacts.
Import JS BuildModel BuildRecords Handlers ErrorHandler Observations.

Lemma hasName_eq err n : hasName err n = true <-> err_name err = js n.
Proof. unfold hasName, units_eqb. apply bool_decide_eq_true. Qed.

(** X29.  Every error that [getBuildStatus], [downloadAPK] and [deleteBuild]
    pass to [next] reaches the client through [errorHandler] with the status
    and the message the handler gave it: 403 or 404 for the status and the
    deletion, and 400, 403, 404 or 410 for the download. *)
Theorem refusals_reach_client reqUser now disk stored :
  delivered [403; 404]%Z (getBuildStatus reqUser stored)
  /\ delivered [400; 403; 404; 410]%Z (fst (downloadAPK reqUser now disk stored))
  /\ delivered [403; 404]%Z (fst (fst (deleteBuild reqUser disk stored))).
Proof.
  split; [|split].
  - unfold getBuildStatus. destruct stored as [b|]; [|split; vm_compute; auto].
    destruct (negb _); [split; vm_compute; auto|exact I].
  - unfold downloadAPK. destruct stored as [b|]; [|split; vm_compute; auto].
    destruct (negb (units_eqb _ _)); [split; vm_compute; auto|].
    destruct (negb (Status_eqb _ _)); [split; vm_compute; auto|].
    destruct (isExpired now b); [split; vm_compute; auto 6|].
    cbn [fst]. destruct (output_apkPath _) as [[|c p]|]; try (split; vm_compute; auto 6).
    destruct (startsWith _ _); [exact I|].
    destruct (access _ _); [exact I|split; vm_compute; auto 6].
  - unfold deleteBuild. destruct stored as [b|]; [|split; vm_compute; auto].
    destruct (negb _); [split; vm_compute; auto|exact I].
Qed.

Ltac clash :=
  match goal with
  | H1 : hasName ?e ?a = true, H2 : hasName ?e ?b = true |- _ =>
      apply hasName_eq in H1; apply hasName_eq in H2; rewrite H1 in H2;
      vm_compute in H2; discriminate H2
  end.

(** The answers of [errorHandler], case by case. *)
Lemma errorHandler_table err :
  (errorHandler err = None
   <-> (isDuplicateKey err = true /\ err_keyValue err = None)
       \/ (hasName err "ValidationError" = true /\ err_errors err = None))
  /\ (forall r, errorHandler err = Some r ->
        res_status r
        = if hasName err "MulterError" || hasName err "ValidationError" then 400%Z
          else if hasName err "JsonWebTokenError" || hasName err "TokenExpiredError" then 401%Z
          else if isDuplicateKey err then 400%Z
          else if hasName err "CastError" then 404%Z
          else match err_statusCode err with
               | Some c => if (c =? 0)%Z then 500%Z else c
               | None => 500%Z
               end).
Proof.
  unfold errorHandler.
  destruct (hasName err "CastError") eqn:E1, (hasName err "ValidationError") eqn:E2,
           (hasName err "JsonWebTokenError") eqn:E3, (hasName err "TokenExpiredError") eqn:E4,
           (hasName err "MulterError") eqn:E5;
    try (exfalso; clash);
    destruct (isDuplicateKey err), (err_keyValue err), (err_errors err);
    cbn [mbind option_bind orb];
    (split;
     [split;
      [intros H; first [discriminate H | left; split; reflexivity | right; split; reflexivity]
      |intros [[H1 H2]|[H1 H2]]; first [discriminate H1 | discriminate H2 | reflexivity]]
     |intros r H; first [discriminate H | injection H as <-]; cbn [res_status snd];
      try reflexivity;
      try (destruct (hasCode err "LIMIT_FILE_SIZE");
           [reflexivity|destruct (hasCode err "LIMIT_UNEXPECTED_FILE"); reflexivity]);
      try (destruct (err_statusCode err) as [c|]; [|reflexivity];
           destruct (Z.eqb_spec c 0) as [->|Hc]; [reflexivity|];
           destruct (Z.eqb_spec c 0); [contradiction|reflexivity])]).
Qed.

(** X30.  [errorHandler] never answers with status 0: it answers 401 to an
    error named JsonWebTokenError or TokenExpiredError, 400 to one named
    MulterError or ValidationError, 404 to a CastError unless its code is
    11000, 400 to any other error whose code is 11000, and otherwise the
    status code of the error, or 500 when that is missing or 0.  The handler
    itself throws exactly when the code is 11000 and the error has no
    [keyValue], or the error is a ValidationError without [errors]. *)
Theorem errorHandler_status err :
  (errorHandler err = None
   <-> (isDuplicateKey err = true /\ err_keyValue err = None)
       \/ (hasName err "ValidationError" = true /\ err_errors err = None))
  /\ (forall r, errorHandler err = Some r ->
        res_status r
        = if hasName err "MulterError" || hasName err "ValidationError" then 400%Z
          else if hasName err "JsonWebTokenError" || hasName err "TokenExpiredError" then 401%Z
          else if isDuplicateKey err then 400%Z
          else if hasName err "CastError" then 404%Z
          else match err_statusCode err with
               | Some c => if (c =? 0)%Z then 500%Z else c
               | None => 500%Z
               end)
  /\ (forall r, errorHandler err = Some r -> res_status r <> 0%Z).
Proof.
  destruct (errorHandler_table err) as [Hthrows Htable].
  split; [exact Hthrows|]. split; [exact Htable|].
  intros r Hr. rewrite (Htable r Hr).
  destruct (_ || _); [discriminate|].
  destruct (_ || _); [discriminate|].
  destruct (isDuplicateKey err); [discriminate|].
  destruct (hasName err "CastError"); [discriminate|].
  destruct (err_statusCode err) as [c|]; [|discriminate].
  destruct (Z.eqb_spec c 0); [discriminate|assumption].
Qed.

End ErrorFacts.
